(** * Requirements extraction and user-story synthesis: a shallow embedding

    The two servers of the repository,
    [business_requirements_server.py] (class
    [BusinessRequirementsUserStoryServer]) and [server.py] (class
    [UserStoryMCPServer]), are embedded function by function.  Python
    strings are lists of Unicode code points, Python exceptions are an
    explicit error result, and the calls into the [re] module are run by a
    backtracking matcher for the regular-expression constructs the sources
    use.  The tools are embedded over their collaborators (the GitHub
    API, the Google client, the decoders), which are taken as given. *)

From Stdlib Require Import List ZArith NArith Ascii String Bool Arith Lia.
Import ListNotations.

(** ** Python text *)

Module PyStr.

(** A character is a code point; a [str] is a sequence of them, so that
    [len] counts code points as Python does. *)
Definition char := N.
Definition str := list char.

Definition len (s : str) : nat := List.length s.

(** String literals are written as in the source and decoded from the
    UTF-8 bytes of the file. *)
Fixpoint utf8_go (need : nat) (acc : N) (bs : list N) : str :=
  match bs with
  | [] => []
  | b :: t =>
      match need with
      | O =>
          if (b <? 128)%N then b :: utf8_go 0 0%N t
          else if (b <? 224)%N then utf8_go 1 (b - 192)%N t
          else if (b <? 240)%N then utf8_go 2 (b - 224)%N t
          else utf8_go 3 (b - 240)%N t
      | S k =>
          let acc' := (acc * 64 + (b - 128))%N in
          match k with
          | O => acc' :: utf8_go 0 0%N t
          | S _ => utf8_go k acc' t
          end
      end
  end.

Definition py (s : string) : str :=
  utf8_go 0 0%N (List.map N_of_ascii (list_ascii_of_string s)).

Definition nl : str := [10%N].

Fixpoint str_eqb (a b : str) : bool :=
  match a, b with
  | [], [] => true
  | x :: a', y :: b' => (x =? y)%N && str_eqb a' b'
  | _, _ => false
  end.

(** [x in xs] for a list of strings. *)
Definition str_mem (x : str) (xs : list str) : bool :=
  existsb (str_eqb x) xs.

(** [s.startswith(p)], [s.endswith(p)], [needle in hay]. *)
Fixpoint startswith (s p : str) : bool :=
  match p, s with
  | [], _ => true
  | a :: p', b :: s' => (a =? b)%N && startswith s' p'
  | _ :: _, [] => false
  end.

Definition endswith (s p : str) : bool := startswith (rev s) (rev p).

Fixpoint str_in (needle hay : str) : bool :=
  startswith hay needle
  || match hay with
     | [] => false
     | _ :: t => str_in needle t
     end.

(** [str.isspace] for one character: the code points CPython's
    [Py_UNICODE_ISSPACE] accepts.  [str.strip], [str.split] without a
    separator and the [\s] class of [re] all use it. *)
Definition isspace (c : char) : bool :=
  ((9 <=? c) && (c <=? 13) || (28 <=? c) && (c <=? 32)
   || (c =? 133) || (c =? 160) || (c =? 5760)
   || (8192 <=? c) && (c <=? 8202)
   || (c =? 8232) || (c =? 8233) || (c =? 8239) || (c =? 8287)
   || (c =? 12288))%N.

Fixpoint dropwhile (p : char -> bool) (s : str) : str :=
  match s with
  | [] => []
  | c :: t => if p c then dropwhile p t else s
  end.

Fixpoint takewhile (p : char -> bool) (s : str) : str :=
  match s with
  | [] => []
  | c :: t => if p c then c :: takewhile p t else []
  end.

Definition lstrip (s : str) : str := dropwhile isspace s.
Definition rstrip (s : str) : str := rev (dropwhile isspace (rev s)).
Definition strip (s : str) : str := rstrip (lstrip s).

(** [s.split(sep)] for a one-character separator: the pieces between the
    separators, always at least one piece. *)
Fixpoint split_char (sep : char) (s : str) : list str :=
  match s with
  | [] => [[]]
  | c :: t =>
      if (c =? sep)%N then [] :: split_char sep t
      else match split_char sep t with
           | [] => [[c]]
           | piece :: pieces => (c :: piece) :: pieces
           end
  end.

(** [s.split()]: the maximal runs of non-whitespace characters. *)
Fixpoint split_ws_go (cur : str) (s : str) : list str :=
  match s with
  | [] => match cur with [] => [] | _ => [rev cur] end
  | c :: t =>
      if isspace c
      then match cur with
           | [] => split_ws_go [] t
           | _ => rev cur :: split_ws_go [] t
           end
      else split_ws_go (c :: cur) t
  end.

Definition split_ws (s : str) : list str := split_ws_go [] s.

(** [s.split(sep)] for a non-empty separator string, scanning left to
    right; [skip] counts the characters of a separator still to pass. *)
Fixpoint split_str_go (sep : str) (skip : nat) (cur : str) (s : str)
  : list str :=
  match s with
  | [] => [rev cur]
  | c :: t =>
      match skip with
      | S k => split_str_go sep k cur t
      | O =>
          if startswith s sep
          then rev cur :: split_str_go sep (len sep - 1) [] t
          else split_str_go sep 0 (c :: cur) t
      end
  end.

Definition split_str (s sep : str) : list str := split_str_go sep 0 [] s.

(** [s.replace(old, new)] for a non-empty [old]. *)
Fixpoint replace_go (old new : str) (skip : nat) (s : str) : str :=
  match s with
  | [] => []
  | c :: t =>
      match skip with
      | S k => replace_go old new k t
      | O =>
          if startswith s old
          then new ++ replace_go old new (len old - 1) t
          else c :: replace_go old new 0 t
      end
  end.

Definition replace (s old new : str) : str := replace_go old new 0 s.

(** [sep.join(xs)]. *)
Fixpoint join (sep : str) (xs : list str) : str :=
  match xs with
  | [] => []
  | [x] => x
  | x :: rest => x ++ sep ++ join sep rest
  end.

(** [str(n)] for a natural number, as an f-string renders it. *)
Fixpoint digits (fuel n : nat) (acc : str) : str :=
  match fuel with
  | O => acc
  | S f =>
      let acc' := (48 + N.of_nat (n mod 10))%N :: acc in
      if (n / 10 =? 0)%nat then acc' else digits f (n / 10) acc'
  end.

Definition str_of_nat (n : nat) : str := digits (S n) n [].

(** [xs[:m]] for a Python integer [m]: a negative bound counts from the
    end. *)
Definition slice_to {A} (xs : list A) (m : Z) : list A :=
  if (0 <=? m)%Z then firstn (Z.to_nat m) xs
  else firstn (List.length xs - Z.to_nat (- m)) xs.

(** The parts of Python's Unicode database the sources reach through
    [str.lower], [str.title] and the [\d] and [\w] classes of [re].  The
    development is parametric in them; [ascii_db] is their restriction
    to ASCII text, where it agrees with CPython. *)
Class UnicodeDb := {
  lower : str -> str;
  title : str -> str;
  isdecimal : char -> bool;
  isword : char -> bool
}.

Definition is_upper_ascii (c : char) : bool := ((65 <=? c) && (c <=? 90))%N.
Definition is_lower_ascii (c : char) : bool := ((97 <=? c) && (c <=? 122))%N.
Definition is_digit_ascii (c : char) : bool := ((48 <=? c) && (c <=? 57))%N.

Definition lower_ascii_char (c : char) : char :=
  if is_upper_ascii c then (c + 32)%N else c.
Definition upper_ascii_char (c : char) : char :=
  if is_lower_ascii c then (c - 32)%N else c.

(** [str.title]: a cased character is upper-cased when the previous
    character is not cased and lower-cased when it is. *)
Fixpoint title_ascii_go (prev_cased : bool) (s : str) : str :=
  match s with
  | [] => []
  | c :: t =>
      let cased := is_upper_ascii c || is_lower_ascii c in
      (if prev_cased then lower_ascii_char c else upper_ascii_char c)
        :: title_ascii_go cased t
  end.

Definition ascii_db : UnicodeDb := {|
  lower := List.map lower_ascii_char;
  title := title_ascii_go false;
  isdecimal := is_digit_ascii;
  isword := fun c =>
    is_upper_ascii c || is_lower_ascii c || is_digit_ascii c || (c =? 95)%N
|}.

End PyStr.

Import PyStr.

(** ** Exceptions *)

Inductive exn := ZeroDivisionError | IndexError | AttributeError.

Inductive result (A : Type) : Type :=
| Ok (a : A)
| Raise (e : exn).

Arguments Ok {A} a.
Arguments Raise {A} e.

Definition bind {A B} (r : result A) (k : A -> result B) : result B :=
  match r with
  | Ok a => k a
  | Raise e => Raise e
  end.

Declare Scope result_scope.
Delimit Scope result_scope with result.
Notation "x <- r ;; k" := (bind r (fun x => k))
  (at level 61, r at next level, right associativity) : result_scope.
Open Scope result_scope.

(** ** The [re] module

    The constructs the sources' patterns use: literals, character sets,
    sequence, alternation, a greedy optional, bounded and unbounded
    repetition of a character set (greedy or lazy), one capturing group,
    and the anchors [^], [$] and [\b].  [run] lists the ways a pattern
    matches at a position in the order a backtracking matcher tries them,
    so its head is the match Python reports. *)

Module Re.

Inductive regex :=
| Eps
| Lit (s : str)
| Set_ (p : char -> bool)
| Seq (a b : regex)
| Alt (a b : regex)
| Opt (a : regex)
| Rep (p : char -> bool) (lo : nat) (hi : option nat) (greedy : bool)
| Grp (a : regex)
| Bol
| Eol
| Wordb (w : char -> bool).

Definition plus (p : char -> bool) : regex := Rep p 1 None true.
Definition star (p : char -> bool) : regex := Rep p 0 None true.
Definition plus_lazy (p : char -> bool) : regex := Rep p 1 None false.

Fixpoint seqs (rs : list regex) : regex :=
  match rs with
  | [] => Eps
  | [r] => r
  | r :: rest => Seq r (seqs rest)
  end.

Fixpoint alts (rs : list regex) : regex :=
  match rs with
  | [] => Eps
  | [r] => r
  | r :: rest => Alt r (alts rest)
  end.

Definition one_of (cs : str) : char -> bool :=
  fun c => existsb (N.eqb c) cs.
Definition range (a b : char) : char -> bool :=
  fun c => ((a <=? c) && (c <=? b))%N.
Definition either (p q : char -> bool) : char -> bool :=
  fun c => p c || q c.
(** [.] without DOTALL *)
Definition dot : char -> bool := fun c => negb (c =? 10)%N.

Fixpoint group_count (r : regex) : nat :=
  match r with
  | Seq a b | Alt a b => group_count a + group_count b
  | Opt a => group_count a
  | Grp a => S (group_count a)
  | _ => 0
  end.

(** A position in the subject: the text before it (latest character
    first), the text after it, and what group 1 holds so far. *)
Record mstate := { seen : str; rest : str; g1 : option str }.

Definition start_at (before after : str) : mstate :=
  {| seen := before; rest := after; g1 := None |}.

Definition advance (k : nat) (st : mstate) : mstate :=
  {| seen := rev (firstn k (rest st)) ++ seen st;
     rest := skipn k (rest st);
     g1 := g1 st |}.

Definition consumed (st st' : mstate) : nat := len (rest st) - len (rest st').

Definition run_len (p : char -> bool) (hi : option nat) (s : str) : nat :=
  let n := len (takewhile p s) in
  match hi with
  | Some h => Nat.min n h
  | None => n
  end.

Definition counts (lo n : nat) (greedy : bool) : list nat :=
  let ks := seq lo (n + 1 - lo) in
  if greedy then rev ks else ks.

Definition at_word (w : char -> bool) (s : str) : bool :=
  match s with
  | [] => false
  | c :: _ => w c
  end.

Fixpoint run (r : regex) (st : mstate) : list mstate :=
  match r with
  | Eps => [st]
  | Lit s => if startswith (rest st) s then [advance (len s) st] else []
  | Set_ p =>
      match rest st with
      | c :: _ => if p c then [advance 1 st] else []
      | [] => []
      end
  | Seq a b => flat_map (run b) (run a st)
  | Alt a b => run a st ++ run b st
  | Opt a => run a st ++ [st]
  | Rep p lo hi greedy =>
      List.map (fun k => advance k st)
               (counts lo (run_len p hi (rest st)) greedy)
  | Grp a =>
      List.map (fun st' =>
                  {| seen := seen st'; rest := rest st';
                     g1 := Some (firstn (consumed st st') (rest st)) |})
               (run a st)
  | Bol => match seen st with [] => [st] | _ => [] end
  | Eol =>
      match rest st with
      | [] => [st]
      | [c] => if (c =? 10)%N then [st] else []
      | _ => []
      end
  | Wordb w =>
      if xorb (at_word w (seen st)) (at_word w (rest st)) then [st] else []
  end.

(** [re.match(p, s)]: a match at the start of [s]. *)
Definition re_match (p : regex) (s : str) : option mstate :=
  hd_error (run p (start_at [] s)).

(** [re.search(p, s)]: the match at the leftmost position that has one. *)
Fixpoint search_from (p : regex) (before after : str) : option mstate :=
  match run p (start_at before after) with
  | st :: _ => Some st
  | [] =>
      match after with
      | [] => None
      | c :: t => search_from p (c :: before) t
      end
  end.

Definition re_search (p : regex) (s : str) : option mstate :=
  search_from p [] s.

(** [m.group(1)] used as a string: [IndexError] when the pattern has no
    group, and a group that took no part is [None], which has no string
    methods. *)
Definition group1 (p : regex) (st : mstate) : result str :=
  if (group_count p =? 0)%nat then Raise IndexError
  else match g1 st with
       | Some g => Ok g
       | None => Raise AttributeError
       end.

(** The scan behind [re.sub] and [re.findall]: the subject cut into the
    characters outside every match and the successive non-overlapping
    matches.  After an empty match the same position is tried again for
    a match that is not empty, as CPython (3.7 and later) does; [skip]
    counts the characters of the last match still to pass. *)
Fixpoint scan (p : regex) (skip : nat) (before after : str)
  : list (char + mstate) :=
  let st := start_at before after in
  match skip with
  | S k =>
      match after with
      | [] => []
      | c :: t => scan p k (c :: before) t
      end
  | O =>
      let here := run p st in
      let step_over :=
        match after with
        | [] => []
        | c :: t => inl c :: scan p 0 (c :: before) t
        end in
      let jump (n : nat) :=
        match after with
        | [] => []
        | c :: t => scan p (n - 1) (c :: before) t
        end in
      match here with
      | [] => step_over
      | st1 :: _ =>
          if (consumed st st1 =? 0)%nat
          then inr st1 ::
               match find (fun st2 => negb (consumed st st2 =? 0)%nat) here with
               | Some st2 => inr st2 :: jump (consumed st st2)
               | None => step_over
               end
          else inr st1 :: jump (consumed st st1)
      end
  end.

(** [re.sub(p, repl, s)] for a replacement without group references. *)
Definition re_sub (p : regex) (repl : str) (s : str) : str :=
  flat_map (fun x => match x with inl c => [c] | inr _ => repl end)
           (scan p 0 [] s).

(** [re.findall(p, s)] for a pattern with one group: the group of each
    match, empty when it took no part. *)
Definition re_findall (p : regex) (s : str) : list str :=
  flat_map (fun x => match x with
                     | inl _ => []
                     | inr st => [match g1 st with Some g => g | None => [] end]
                     end)
           (scan p 0 [] s).

End Re.

Import Re.


(** ** Tool results and the exceptions a tool catches *)

(** What a handler's [except Exception] can catch: the exceptions of the
    core functions, a missing dictionary key, the [ValueError]s the
    sources raise with their message, and whatever a collaborator (the
    network, the Google client) raises, with its message. *)
Inductive raised :=
| Builtin (e : exn)
| KeyError (key : str)
| ValueError (message : str)
| Foreign (message : str).

Inductive outcome (A : Type) : Type :=
| Returns (a : A)
| Raises (e : raised).

Arguments Returns {A} a.
Arguments Raises {A} e.

Definition and_next {A B} (o : outcome A) (k : A -> outcome B) : outcome B :=
  match o with
  | Returns a => k a
  | Raises e => Raises e
  end.

Declare Scope outcome_scope.
Delimit Scope outcome_scope with outcome.
Notation "x <~ o ;; k" := (and_next o (fun x => k))
  (at level 61, o at next level, right associativity) : outcome_scope.
Open Scope outcome_scope.

Definition of_result {A} (r : result A) : outcome A :=
  match r with
  | Ok a => Returns a
  | Raise e => Raises (Builtin e)
  end.

(** [CallToolResult(content=[TextContent(type="text", text=...)], isError=...)] *)
Record CallToolResult := { text : str; isError : bool }.

Definition success (t : str) : CallToolResult := {| text := t; isError := false |}.
Definition failure (t : str) : CallToolResult := {| text := t; isError := true |}.

(** A value looked up with [args.get(key)]: absent is [None]; [not v] holds
    for an absent or empty value. *)
Definition missing (v : option str) : bool :=
  match v with
  | None | Some [] => true
  | Some _ => false
  end.

(** A value inside an f-string: [None] prints as its name. *)
Definition shown (v : option str) : str :=
  match v with
  | Some s => s
  | None => py "None"
  end.

Definition default_to {A} (d : A) (v : option A) : A :=
  match v with
  | Some x => x
  | None => d
  end.

(** [s.strip(chars)] *)
Definition strip_chars (chars s : str) : str :=
  let drop := dropwhile (fun c => existsb (N.eqb c) chars) in
  rev (drop (rev (drop s))).

(** [text * n] *)
Definition times (t : str) (n : nat) : str := List.concat (repeat t n).

(** [enumerate(xs, start)] *)
Fixpoint enumerate_from {A} (start : nat) (xs : list A) : list (nat * A) :=
  match xs with
  | [] => []
  | x :: rest => (start, x) :: enumerate_from (S start) rest
  end.

(** ** business_requirements_server.py *)

Module BusinessRequirementsUserStoryServer.
Section WithUnicode.

Context {db : UnicodeDb}.

Definition ws1 : regex := plus isspace.
Definition ws0 : regex := star isspace.
Definition upper_AZ : char -> bool := range 65%N 90%N.
Definition lower_az : char -> bool := range 97%N 122%N.
Definition lits (ws : list string) : regex := alts (List.map (fun w => Lit (py w)) ws).
(** [w] followed by an optional [c], as in [provides?] *)
Definition lit_opt (w c : string) : regex := Seq (Lit (py w)) (Opt (Lit (py c))).

(** The analysis dictionary of [analyze_document_structure]. *)
Record analysis := {
  total_lines : nat;
  total_words : nat;
  total_chars : nat;
  headers : list str;
  requirements : list str;
  features : list str;
  user_roles : list str;
  estimated_stories : nat;
  complexity_level : str
}.

(** [header_patterns], in the order of the source:
    [^#{1,6}\s+(.+)$], [^\d+\.\s+(.+)$], [^[A-Z][A-Z\s]+:?\s*$],
    [^(.+)\n=+$], [^(.+)\n-+$]. *)
Definition header_markdown : regex :=
  seqs [Bol; Rep (one_of (py "#")) 1 (Some 6) true; ws1; Grp (plus dot); Eol].
Definition header_numbered : regex :=
  seqs [Bol; plus isdecimal; Lit (py "."); ws1; Grp (plus dot); Eol].
Definition header_caps : regex :=
  seqs [Bol; Set_ upper_AZ; plus (either upper_AZ isspace);
        Opt (Lit (py ":")); ws0; Eol].
Definition header_underline_eq : regex :=
  seqs [Bol; Grp (plus dot); Lit nl; plus (one_of (py "=")); Eol].
Definition header_underline_dash : regex :=
  seqs [Bol; Grp (plus dot); Lit nl; plus (one_of (py "-")); Eol].

Definition header_patterns : list regex :=
  [header_markdown; header_numbered; header_caps;
   header_underline_eq; header_underline_dash].

(** The inner loop over [header_patterns] for one stripped, non-empty
    line: the header text to append, if any.  The first pattern that
    matches ends the loop, whether or not its text is kept. *)
Fixpoint header_of_line (patterns : list regex) (line : str)
  : result (option str) :=
  match patterns with
  | [] => Ok None
  | pattern :: later =>
      match re_match pattern line with
      | Some m =>
          g <- group1 pattern m ;;
          let header_text := strip g in
          if (3 <? len header_text)%nat && (len header_text <? 100)%nat
          then Ok (Some header_text)
          else Ok None
      | None => header_of_line later line
      end
  end.

Fixpoint find_headers (lines : list str) (found : list str)
  : result (list str) :=
  match lines with
  | [] => Ok found
  | l :: later =>
      let line := strip l in
      match line with
      | [] => find_headers later found
      | _ =>
          h <- header_of_line header_patterns line ;;
          match h with
          | Some header_text => find_headers later (found ++ [header_text])
          | None => find_headers later found
          end
      end
  end.

Definition requirement_keywords : list str :=
  List.map py
    ["shall"; "should"; "must"; "will"; "needs to"; "required to";
     "user can"; "system shall"; "application must"; "feature should";
     "requirement:"; "req:"; "user story:"; "as a"; "i want"; "so that"]%string.

(** The body of the second loop for one line: the stripped line when it
    is kept. *)
Definition requirement_line (l : str) : option str :=
  let line := strip l in
  if (20 <? len line)%nat
  then
    let line_lower := lower line in
    if existsb (fun keyword => str_in keyword line_lower) requirement_keywords
    then Some line
    else None
  else None.

Fixpoint find_requirements (lines : list str) (found : list str) : list str :=
  match lines with
  | [] => found
  | l :: later =>
      match requirement_line l with
      | Some line => find_requirements later (found ++ [line])
      | None => find_requirements later found
      end
  end.

(** [user_role_patterns]:
    [\bas an?\s+([a-z]+(?:\s+[a-z]+)?)\b],
    [\b([a-z]+(?:\s+[a-z]+)?)\s+(?:can|should|must|will)\b],
    [\buser\s+type:?\s*([a-z]+(?:\s+[a-z]+)?)\b],
    [\brole:?\s*([a-z]+(?:\s+[a-z]+)?)\b]. *)
Definition role_words : regex :=
  Grp (Seq (plus lower_az) (Opt (Seq ws1 (plus lower_az)))).

Definition user_role_patterns : list regex :=
  [seqs [Wordb isword; Lit (py "as a"); Opt (Lit (py "n")); ws1;
         role_words; Wordb isword];
   seqs [Wordb isword; role_words; ws1;
         lits ["can"; "should"; "must"; "will"]%string; Wordb isword];
   seqs [Wordb isword; Lit (py "user"); ws1; Lit (py "type");
         Opt (Lit (py ":")); ws0; role_words; Wordb isword];
   seqs [Wordb isword; Lit (py "role"); Opt (Lit (py ":")); ws0;
         role_words; Wordb isword]].

Definition add_role (roles : list str) (found : str) : list str :=
  let role := strip found in
  if negb (len role =? 0)%nat && (len role <? 20)%nat
     && negb (str_mem role (List.map py ["user"; "system"; "application"]%string))
  then if negb (str_mem role roles) then roles ++ [role] else roles
  else roles.

Definition find_roles (content_lower : str) : list str :=
  fold_left
    (fun roles pattern => fold_left add_role (re_findall pattern content_lower) roles)
    user_role_patterns [].

Definition common_roles : list str :=
  List.map py ["admin"; "manager"; "customer"; "operator"; "viewer"]%string.

Definition analyze_document_structure (content : str) : result analysis :=
  let lines := split_char 10%N content in
  found_headers <- find_headers lines [] ;;
  let found_requirements := find_requirements lines [] in
  let content_lower := lower content in
  let roles := find_roles content_lower in
  let roles :=
    match roles with
    | [] => filter (fun role => str_in role content_lower) common_roles
    | _ => roles
    end in
  let n := List.length found_requirements in
  Ok {| total_lines := List.length lines;
        total_words := List.length (split_ws content);
        total_chars := len content;
        headers := found_headers;
        requirements := found_requirements;
        features := [];
        user_roles := roles;
        estimated_stories := Nat.min (Nat.max n 3) 15;
        complexity_level :=
          if (20 <? n)%nat then py "High"
          else if (n <? 5)%nat then py "Low"
          else py "Medium" |}.

(** [requirement_patterns], in the order of the source:
    [(?:shall|should|must|will|needs?\s+to|required\s+to)\s+(.+)],
    [(?:user|system|application)\s+(?:can|shall|should|must|will)\s+(.+)],
    [(?:the\s+)?(?:system|application|software)\s+(?:provides?|enables?|allows?|supports?)\s+(.+)],
    [(?:users?\s+)?(?:can|should|must|will|able\s+to)\s+(.+)],
    [(?:feature|functionality|capability):\s*(.+)],
    [(?:requirement|req):\s*(.+)],
    [as\s+an?\s+\w+,?\s+i\s+want\s+(?:to\s+)?(.+?)(?:\s+so\s+that|$)]. *)
Definition requirement_patterns : list regex :=
  [seqs [alts [Lit (py "shall"); Lit (py "should"); Lit (py "must");
               Lit (py "will");
               seqs [lit_opt "need" "s"; ws1; Lit (py "to")];
               seqs [Lit (py "required"); ws1; Lit (py "to")]];
         ws1; Grp (plus dot)];
   seqs [lits ["user"; "system"; "application"]%string; ws1;
         lits ["can"; "shall"; "should"; "must"; "will"]%string;
         ws1; Grp (plus dot)];
   seqs [Opt (Seq (Lit (py "the")) ws1);
         lits ["system"; "application"; "software"]%string; ws1;
         alts [lit_opt "provide" "s"; lit_opt "enable" "s";
               lit_opt "allow" "s"; lit_opt "support" "s"];
         ws1; Grp (plus dot)];
   seqs [Opt (Seq (lit_opt "user" "s") ws1);
         alts [Lit (py "can"); Lit (py "should"); Lit (py "must");
               Lit (py "will"); seqs [Lit (py "able"); ws1; Lit (py "to")]];
         ws1; Grp (plus dot)];
   seqs [lits ["feature"; "functionality"; "capability"]%string;
         Lit (py ":"); ws0; Grp (plus dot)];
   seqs [lits ["requirement"; "req"]%string; Lit (py ":"); ws0; Grp (plus dot)];
   seqs [Lit (py "as"); ws1; lit_opt "a" "n"; ws1; plus isword;
         Opt (Lit (py ",")); ws1; Lit (py "i"); ws1; Lit (py "want"); ws1;
         Opt (Seq (Lit (py "to")) ws1); Grp (plus_lazy dot);
         Alt (seqs [ws1; Lit (py "so"); ws1; Lit (py "that")]) Eol]].

(** The loop over [requirement_patterns] for one lower-cased line: the
    first pattern found in the line ends the loop, and its group is kept
    when longer than 10 characters. *)
Fixpoint phrase_of_line (patterns : list regex) (line_lower : str)
  : result (list str) :=
  match patterns with
  | [] => Ok []
  | pattern :: later =>
      match re_search pattern line_lower with
      | Some m =>
          g <- group1 pattern m ;;
          let requirement := strip g in
          if (10 <? len requirement)%nat
          then Ok [re_sub ws1 (py " ") requirement]
          else Ok []
      | None => phrase_of_line later line_lower
      end
  end.

(** [^[\*\-\+•]\s+], [^\d+\.?\s+] and [^[\*\-\+•\d\.]\s*] *)
Definition bullet_marker : regex :=
  seqs [Bol; Set_ (one_of (py "*-+•")); ws1].
Definition number_marker : regex :=
  seqs [Bol; plus isdecimal; Opt (Lit (py ".")); ws1].
Definition list_marker : regex :=
  seqs [Bol; Set_ (either (one_of (py "*-+•.")) isdecimal); ws0].

Definition bullet_words : list str :=
  List.map py ["user"; "system"; "shall"; "should"; "must"; "can"; "will"]%string.

(** The second check on a line: a bullet or numbered item with its
    marker removed. *)
Definition bullet_of_line (line : str) : list str :=
  match re_match bullet_marker line, re_match number_marker line with
  | None, None => []
  | _, _ =>
      let cleaned_line := re_sub list_marker [] line in
      if (15 <? len cleaned_line)%nat
      then
        let line_lower := lower cleaned_line in
        if existsb (fun word => str_in word line_lower) bullet_words
        then [cleaned_line]
        else []
      else []
  end.

(** The body of the loop over the lines: what one line appends. *)
Definition requirements_of_line (feature_focus : str) (l : str)
  : result (list str) :=
  let line := strip l in
  if (len line <? 10)%nat || startswith line (py "#") then Ok []
  else
    let line_lower := lower line in
    if negb (len feature_focus =? 0)%nat
       && negb (str_in (lower feature_focus) line_lower)
    then Ok []
    else
      phrases <- phrase_of_line requirement_patterns line_lower ;;
      Ok (phrases ++ bullet_of_line line).

Fixpoint collect_requirements (feature_focus : str) (lines : list str)
                              (found : list str) : result (list str) :=
  match lines with
  | [] => Ok found
  | l :: later =>
      more <- requirements_of_line feature_focus l ;;
      collect_requirements feature_focus later (found ++ more)
  end.

Definition extract_requirements_from_document
           (content : str) (feature_focus : str) : result (list str) :=
  let lines := split_char 10%N content in
  found <- collect_requirements feature_focus lines [] ;;
  Ok (firstn 20 found).

(** The three substitutions of [extract_action_from_requirement]:
    [^(?:the\s+)?(?:system|application|user|users?)\s+(?:can|should|must|will|shall)\s+],
    [^(?:provides?|enables?|allows?|supports?|implements?)\s+],
    [^(?:to\s+)?]. *)
Definition subject_prefix : regex :=
  seqs [Bol; Opt (Seq (Lit (py "the")) ws1);
        alts [Lit (py "system"); Lit (py "application"); Lit (py "user");
              lit_opt "user" "s"];
        ws1; lits ["can"; "should"; "must"; "will"; "shall"]%string; ws1].
Definition verb_prefix : regex :=
  seqs [Bol;
        alts [lit_opt "provide" "s"; lit_opt "enable" "s"; lit_opt "allow" "s";
              lit_opt "support" "s"; lit_opt "implement" "s"];
        ws1].
Definition to_prefix : regex :=
  seqs [Bol; Opt (Seq (Lit (py "to")) ws1)].

Definition extract_action_from_requirement (requirement : str) : str :=
  let req_lower := lower requirement in
  let req_lower := re_sub subject_prefix [] req_lower in
  let req_lower := re_sub verb_prefix [] req_lower in
  let req_lower := re_sub to_prefix [] req_lower in
  let req_lower := strip req_lower in
  let req_lower :=
    if endswith req_lower (py ".") then removelast req_lower else req_lower in
  match req_lower with
  | [] => lower requirement
  | _ => req_lower
  end.

(** [benefit_patterns]: [so\s+that\s+(.+)], [in\s+order\s+to\s+(.+)],
    [to\s+ensure\s+(.+)], [enabling\s+(.+)], [resulting\s+in\s+(.+)]. *)
Definition benefit_patterns : list regex :=
  [seqs [Lit (py "so"); ws1; Lit (py "that"); ws1; Grp (plus dot)];
   seqs [Lit (py "in"); ws1; Lit (py "order"); ws1; Lit (py "to"); ws1;
         Grp (plus dot)];
   seqs [Lit (py "to"); ws1; Lit (py "ensure"); ws1; Grp (plus dot)];
   seqs [Lit (py "enabling"); ws1; Grp (plus dot)];
   seqs [Lit (py "resulting"); ws1; Lit (py "in"); ws1; Grp (plus dot)]].

(** [benefit_mapping], in insertion order. *)
Definition benefit_mapping : list (str * str) :=
  List.map (fun kv => (py (fst kv), py (snd kv)))
    [("login", "I can securely access my account and data");
     ("register", "I can create an account and use the system");
     ("search", "I can quickly find the information I need");
     ("view", "I can see relevant information");
     ("edit", "I can keep information current and accurate");
     ("delete", "I can remove unwanted or obsolete data");
     ("create", "I can add new content to the system");
     ("save", "my work is preserved and secure");
     ("upload", "I can share files with the system");
     ("download", "I can access files when needed");
     ("manage", "I can control and organize my data");
     ("configure", "I can customize the system to my needs");
     ("monitor", "I can track important metrics and status");
     ("approve", "I can control workflow and quality");
     ("report", "I can generate insights and documentation")]%string.

Fixpoint inferred_benefit (mapping : list (str * str)) (req_lower : str) : str :=
  match mapping with
  | [] => py "I can accomplish my business objectives efficiently"
  | (keyword, benefit) :: later =>
      if str_in keyword req_lower then benefit
      else inferred_benefit later req_lower
  end.

Fixpoint explicit_benefit (patterns : list regex) (req_lower : str)
  : result (option str) :=
  match patterns with
  | [] => Ok None
  | pattern :: later =>
      match re_search pattern req_lower with
      | Some m => g <- group1 pattern m ;; Ok (Some (strip g))
      | None => explicit_benefit later req_lower
      end
  end.

Definition extract_benefit_from_requirement (requirement : str) : result str :=
  let req_lower := lower requirement in
  found <- explicit_benefit benefit_patterns req_lower ;;
  match found with
  | Some benefit => Ok benefit
  | None => Ok (inferred_benefit benefit_mapping req_lower)
  end.

Definition generate_standard_story
           (story_num : nat) (user_persona action benefit : str) : str :=
  List.concat
    [py "**User Story "; str_of_nat story_num; py ":**"; nl;
     py "As a "; user_persona; py ", I want to "; action;
     py ", so that "; benefit; py "."; nl; nl;
     py "**Acceptance Criteria:**"; nl;
     py "• Given that I am a "; user_persona; nl;
     py "• When I "; action; nl;
     py "• Then "; benefit; nl;
     py "• And the system provides appropriate feedback"].

Definition generate_detailed_story
           (story_num : nat) (user_persona action benefit
            original_requirement : str) : str :=
  List.concat
    [py "**User Story "; str_of_nat story_num; py ":**"; nl;
     py "As a "; user_persona; py ", I want to "; action;
     py ", so that "; benefit; py "."; nl; nl;
     py "**Original Requirement:**"; nl; original_requirement; nl; nl;
     py "**Acceptance Criteria:**"; nl;
     py "• Given that I am a "; user_persona;
     py " with appropriate permissions"; nl;
     py "• When I "; action; nl;
     py "• Then "; benefit; nl;
     py "• And the system responds within acceptable time limits"; nl;
     py "• And appropriate logging and audit trails are maintained"; nl;
     py "• And error handling is graceful and informative"; nl; nl;
     py "**Definition of Done:**"; nl;
     py "• Feature is implemented and tested"; nl;
     py "• User acceptance testing is completed"; nl;
     py "• Documentation is updated"].

Definition generate_agile_story
           (story_num : nat) (user_persona action benefit : str) : str :=
  List.concat
    [py "**Story #"; str_of_nat story_num; py ":** "; title action; nl; nl;
     py "**User Story:**"; nl;
     py "As a "; user_persona; py ", I want to "; action;
     py ", so that "; benefit; py "."; nl; nl;
     py "**Acceptance Criteria:**"; nl;
     py "- [ ] Given a "; user_persona; nl;
     py "- [ ] When they "; action; nl;
     py "- [ ] Then "; benefit; nl;
     py "- [ ] And system provides feedback"; nl; nl;
     py "**Story Points:** TBD"; nl;
     py "**Priority:** TBD"].

Definition generate_default_story (user_persona : str) : str :=
  List.concat
    [py "**User Story 1:**"; nl;
     py "As a "; user_persona;
     py ", I want to use the system features, so that I can accomplish my goals efficiently.";
     nl; nl;
     py "**Acceptance Criteria:**"; nl;
     py "• Given that I have access to the system"; nl;
     py "• When I use the available features"; nl;
     py "• Then I can complete my tasks"; nl;
     py "• And the system provides helpful feedback"].

(** [a % b] on non-negative integers, and [xs[i]]. *)
Definition py_mod (a b : nat) : result nat :=
  match b with
  | O => Raise ZeroDivisionError
  | S _ => Ok (a mod b)
  end.

Definition index {A} (xs : list A) (i : nat) : result A :=
  match nth_error xs i with
  | Some x => Ok x
  | None => Raise IndexError
  end.

(** The story one turn of the loop builds. *)
Definition render_story (story_format : str) (i : nat)
           (user_persona action benefit requirement : str) : str :=
  if str_eqb story_format (py "detailed")
  then generate_detailed_story (i + 1) user_persona action benefit requirement
  else if str_eqb story_format (py "agile")
  then generate_agile_story (i + 1) user_persona action benefit
  else generate_standard_story (i + 1) user_persona action benefit.

(** The loop of [generate_user_stories] from index [i] on. *)
Fixpoint stories_loop (user_personas : list str) (story_format : str)
         (max_stories : Z) (i : nat) (todo : list str) (stories : list str)
  : result (list str) :=
  match todo with
  | [] => Ok stories
  | requirement :: later =>
      if (max_stories <=? Z.of_nat i)%Z then Ok stories
      else
        k <- py_mod i (List.length user_personas) ;;
        user_persona <- index user_personas k ;;
        let action := extract_action_from_requirement requirement in
        benefit <- extract_benefit_from_requirement requirement ;;
        let story :=
          render_story story_format i user_persona action benefit requirement in
        stories_loop user_personas story_format max_stories (S i) later
                     (stories ++ [story])
  end.

Definition generate_user_stories
           (requirements : list str) (user_personas : list str)
           (story_format : str) (max_stories : Z) : result (list str) :=
  match requirements with
  | [] =>
      Ok [generate_default_story
            match user_personas with
            | first :: _ => first
            | [] => py "user"
            end]
  | _ =>
      stories_loop user_personas story_format max_stories 0
                   (slice_to requirements max_stories) []
  end.

(** *** The tools of the server

    The network and the library calls a tool makes are taken as given:
    the GitHub token of the environment, [urlparse(url).path] (which is
    a path or the [ValueError] of an address [urlparse] refuses), the
    HTTP status and the JSON object of a GET, [base64.b64decode], the two
    UTF-8 decoders, and the text of a built-in exception.  Arguments and
    JSON values are taken to have the types of the tools' schemas. *)

(** The JSON object of a file on the contents API. *)
Record response := { encoding : option str; content : option str }.

(** The arguments of a tool call. *)
Record arguments := {
  repo_url : option str;
  file_path : option str;
  branch : option str;
  user_personas_arg : option (list str);
  feature_focus_arg : option str;
  story_format_arg : option str;
  max_stories_arg : option Z
}.

Section Tools.

Context (github_token : option str)
        (urlparse_path : str -> outcome str)
        (http_status : str -> list (str * str) -> outcome nat)
        (http_json : str -> list (str * str) -> outcome response)
        (b64decode : str -> outcome (list N))
        (decode_utf8 : list N -> option str)
        (decode_utf8_ignore : list N -> str)
        (builtin_message : exn -> str).

(** [str(e)] *)
Definition message_of (e : raised) : str :=
  match e with
  | Builtin b => builtin_message b
  | KeyError key => py "'" ++ key ++ py "'"
  | ValueError message => message
  | Foreign message => message
  end.

Definition parse_github_url (url : str) : outcome (str * str) :=
  parts <~ (if startswith url (py "git@github.com:")
            then Returns
                   (split_char 47%N
                      (replace (replace url (py "git@github.com:") [])
                               (py ".git") []))
            else
              parsed_path <~ urlparse_path url ;;
              Returns (split_char 47%N (strip_chars (py "/") parsed_path))) ;;
  match parts with
  | owner :: repo :: _ => Returns (owner, repo)
  | _ => Raises (ValueError (py "Invalid GitHub URL format: " ++ url))
  end.

Definition request_headers : list (str * str) :=
  [(py "Accept", py "application/vnd.github.v3+json");
   (py "User-Agent", py "BusinessRequirementsUserStoryGenerator/1.0")]
  ++ match github_token with
     | Some (c :: t) => [(py "Authorization", py "token " ++ c :: t)]
     | _ => []
     end.

Definition fetch_github_api (url : str) : outcome response :=
  status <~ http_status url request_headers ;;
  if (status =? 200)%nat then http_json url request_headers
  else if (status =? 404)%nat
  then Raises (ValueError (py "Repository or file not found"))
  else if (status =? 403)%nat
  then Raises (ValueError
                 (py "Access denied. Check GitHub token or repository permissions"))
  else Raises (ValueError (py "GitHub API error: " ++ str_of_nat status)).

Definition contents_url (owner repo : str) (path : option str) (ref : str) : str :=
  List.concat [py "https://api.github.com/repos/"; owner; py "/"; repo;
               py "/contents/"; shown path; py "?ref="; ref].

Definition get_file_content (owner repo : str) (path : option str) (ref : str)
  : outcome str :=
  answer <~ fetch_github_api (contents_url owner repo path ref) ;;
  match encoding answer with
  | Some e =>
      if str_eqb e (py "base64")
      then match content answer with
           | None => Raises (KeyError (py "content"))
           | Some encoded =>
               bytes <~ b64decode encoded ;;
               match decode_utf8 bytes with
               | Some decoded => Returns decoded
               | None =>
                   again <~ b64decode encoded ;;
                   Returns (decode_utf8_ignore again)
               end
           end
      else Returns (default_to [] (content answer))
  | None => Returns (default_to [] (content answer))
  end.

(** What the handlers do with an uncaught exception of their body. *)
Definition caught (prefix : string) (body : outcome str) : CallToolResult :=
  match body with
  | Returns t => success t
  | Raises e => failure (py prefix ++ message_of e)
  end.

(** [parse_github_url(repo_url)] on a looked-up value: [None] has no
    [startswith]. *)
Definition parse_looked_up (url : option str) : outcome (str * str) :=
  match url with
  | Some u => parse_github_url u
  | None => Raises (Builtin AttributeError)
  end.

Definition read_business_requirements (args : arguments) : CallToolResult :=
  let ref := default_to (py "main") (branch args) in
  if missing (repo_url args) || missing (file_path args)
  then failure (py "Error: repo_url and file_path are required")
  else
    caught "Error reading business requirements: "
      (parsed <~ parse_looked_up (repo_url args) ;;
       let '(owner, repo) := parsed in
       document <~ get_file_content owner repo (file_path args) ref ;;
       Returns
         (List.concat
            [py "Business Requirements Document"; nl;
             py "Repository: "; owner; py "/"; repo; nl;
             py "File: "; shown (file_path args); nl;
             py "Branch: "; ref; nl;
             py "Content Length: "; str_of_nat (len document);
             py " characters"; nl; nl;
             times (py "=") 50; nl;
             py "DOCUMENT CONTENT:"; nl;
             times (py "=") 50; nl; nl;
             document])).

(** The numbered lines of the two listings of the analysis report. *)
Definition numbered (render : str -> str) (items : list str) : str :=
  List.concat
    (List.map
       (fun numbered_item =>
          List.concat [str_of_nat (fst numbered_item); py ". ";
                       render (snd numbered_item); nl])
       (enumerate_from 1 items)).

Definition sample (req : str) : str :=
  firstn 100 req ++ (if (100 <? len req)%nat then py "..." else []).

Definition analysis_report (owner repo : str) (path : option str) (a : analysis)
  : str :=
  List.concat
    [py "Requirements Document Analysis"; nl;
     py "Repository: "; owner; py "/"; repo; py "/"; shown path; nl; nl;
     py "📊 DOCUMENT STATISTICS:"; nl;
     py "• Total lines: "; str_of_nat (total_lines a); nl;
     py "• Total words: "; str_of_nat (total_words a); nl;
     py "• Total characters: "; str_of_nat (total_chars a); nl; nl;
     py "🔍 STRUCTURE ANALYSIS:"; nl;
     py "• Headers found: "; str_of_nat (List.length (headers a)); nl;
     py "• Requirements identified: ";
     str_of_nat (List.length (requirements a)); nl;
     py "• Features mentioned: "; str_of_nat (List.length (features a)); nl;
     py "• User roles found: "; str_of_nat (List.length (user_roles a)); nl; nl;
     match headers a with
     | [] => []
     | _ =>
         List.concat
           [py "📋 DOCUMENT SECTIONS:"; nl;
            numbered (fun header => header) (firstn 10 (headers a));
            if (10 <? List.length (headers a))%nat
            then List.concat
                   [py "... and "; str_of_nat (List.length (headers a) - 10);
                    py " more sections"; nl]
            else [];
            nl]
     end;
     match requirements a with
     | [] => []
     | _ =>
         List.concat
           [py "✅ SAMPLE REQUIREMENTS FOUND:"; nl;
            numbered sample (firstn 5 (requirements a));
            if (5 <? List.length (requirements a))%nat
            then List.concat
                   [py "... and "; str_of_nat (List.length (requirements a) - 5);
                    py " more requirements"; nl]
            else [];
            nl]
     end;
     match user_roles a with
     | [] => []
     | _ =>
         List.concat
           [py "👥 USER ROLES IDENTIFIED:"; nl;
            List.concat
              (List.map (fun role => List.concat [py "• "; role; nl])
                        (user_roles a));
            nl]
     end;
     py "🎯 RECOMMENDED USER STORY APPROACH:"; nl;
     py "• Suggested user personas: ";
     join (py ", ")
          match user_roles a with
          | [] => List.map py ["user"; "admin"; "manager"]%string
          | _ => user_roles a
          end;
     nl;
     py "• Estimated user stories: "; str_of_nat (estimated_stories a); nl;
     py "• Complexity level: "; complexity_level a; nl].

Definition analyze_requirements_structure (args : arguments) : CallToolResult :=
  let ref := default_to (py "main") (branch args) in
  caught "Error analyzing requirements: "
    (parsed <~ parse_looked_up (repo_url args) ;;
     let '(owner, repo) := parsed in
     document <~ get_file_content owner repo (file_path args) ref ;;
     a <~ of_result (analyze_document_structure document) ;;
     Returns (analysis_report owner repo (file_path args) a)).

Definition stories_report (owner repo : str) (args : arguments)
           (user_stories : list str) : str :=
  let personas :=
    default_to (List.map py ["user"; "admin"; "manager"]%string)
               (user_personas_arg args) in
  let focus := default_to [] (feature_focus_arg args) in
  List.concat
    [py "USER STORIES GENERATED FROM BUSINESS REQUIREMENTS"; nl;
     py "Repository: "; owner; py "/"; repo; py "/"; shown (file_path args); nl;
     py "Generated: "; str_of_nat (List.length user_stories);
     py " user stories"; nl;
     py "User Personas: "; join (py ", ") personas; nl;
     match focus with
     | [] => []
     | _ => List.concat [py "Feature Focus: "; focus; nl]
     end;
     py "Story Format: "; default_to (py "standard") (story_format_arg args);
     nl; nl;
     times (py "=") 60; nl; nl;
     join (nl ++ nl) user_stories].

(** The stories the tool builds once it has the document. *)
Definition stories_of_document (args : arguments) (document : str)
  : outcome (list str) :=
  found <~ of_result
             (extract_requirements_from_document
                document (default_to [] (feature_focus_arg args))) ;;
  of_result
    (generate_user_stories
       found
       (default_to (List.map py ["user"; "admin"; "manager"]%string)
                   (user_personas_arg args))
       (default_to (py "standard") (story_format_arg args))
       (default_to 10%Z (max_stories_arg args))).

Definition generate_user_stories_from_requirements (args : arguments)
  : CallToolResult :=
  let ref := default_to (py "main") (branch args) in
  caught "Error generating user stories: "
    (parsed <~ parse_looked_up (repo_url args) ;;
     let '(owner, repo) := parsed in
     document <~ get_file_content owner repo (file_path args) ref ;;
     user_stories <~ stories_of_document args document ;;
     Returns (stories_report owner repo args user_stories)).

(** [call_tool]: the dispatch on the tool's name. *)
Definition call_tool (name : str) (args : arguments) : outcome CallToolResult :=
  if str_eqb name (py "read_business_requirements")
  then Returns (read_business_requirements args)
  else if str_eqb name (py "generate_user_stories_from_requirements")
  then Returns (generate_user_stories_from_requirements args)
  else if str_eqb name (py "analyze_requirements_structure")
  then Returns (analyze_requirements_structure args)
  else Raises (ValueError (py "Unknown tool: " ++ name)).

End Tools.

End WithUnicode.
End BusinessRequirementsUserStoryServer.

(** ** server.py *)

Module UserStoryMCPServer.
Section WithUnicode.

Context {db : UnicodeDb}.

Definition requirement_keywords : list str :=
  List.map py
    ["user"; "customer"; "shall"; "should"; "must"; "requirement";
     "need"; "want"; "allow"; "enable"; "provide"; "feature";
     "functionality"; "capability"; "able to"; "should be able";
     "system must"; "application should"; "interface will"]%string.

(** [parts = req_lower.split(sep)] followed by [parts[1].strip()] when
    there is a second part. *)
Definition second_part (req_lower sep : str) : option str :=
  match split_str req_lower sep with
  | _ :: part :: _ => Some (strip part)
  | _ => None
  end.

Fixpoint first_split (seps : list str) (req_lower : str) : option str :=
  match seps with
  | [] => None
  | sep :: later =>
      if str_in sep req_lower
      then match second_part req_lower sep with
           | Some part => Some part
           | None => first_split later req_lower
           end
      else first_split later req_lower
  end.

Definition extract_action_from_requirement (requirement : str) : str :=
  let req_lower := lower requirement in
  match first_split (List.map py ["able to"; "shall"; "should"]%string) req_lower with
  | Some action => action
  | None => lower requirement
  end.

Definition any_in (words : list string) (req_lower : str) : bool :=
  existsb (fun word => str_in (py word) req_lower) words.

Definition extract_benefit_from_requirement (requirement : str) : str :=
  let req_lower := lower requirement in
  match first_split (List.map py ["so that"; "in order to"]%string) req_lower with
  | Some benefit => benefit
  | None =>
      if any_in ["login"; "authenticate"; "sign in"]%string req_lower
      then py "I can securely access the system"
      else if any_in ["search"; "find"; "locate"]%string req_lower
      then py "I can quickly find what I need"
      else if any_in ["save"; "store"; "persist"]%string req_lower
      then py "my data is preserved for future use"
      else if any_in ["delete"; "remove"]%string req_lower
      then py "I can manage my data effectively"
      else py "I can accomplish my goals efficiently"
  end.

Definition generate_default_stories : list str :=
  [List.concat
     [py "**User Story 1:**"; nl;
      py "As a user, I want to access the system, so that I can use its features.";
      nl; nl;
      py "**Acceptance Criteria:**"; nl;
      py "• Given that I have valid credentials"; nl;
      py "• When I attempt to log in"; nl;
      py "• Then I should be granted access"; nl;
      py "• And I should see the main interface"];
   List.concat
     [py "**User Story 2:**"; nl;
      py "As a user, I want to navigate through the application, so that I can find the features I need.";
      nl; nl;
      py "**Acceptance Criteria:**"; nl;
      py "• Given that I am logged in"; nl;
      py "• When I use the navigation menu"; nl;
      py "• Then I should be able to access different sections"; nl;
      py "• And the interface should be intuitive and responsive"]].

(** The body of the first loop for one line: the cleaned requirement when
    the line is kept. *)
Definition requirement_of_line (l : str) : option str :=
  let line := strip l in
  if (20 <? len line)%nat && negb (startswith line (py "#"))
  then
    if existsb (fun keyword => str_in keyword (lower line)) requirement_keywords
    then
      let cleaned_req := replace line (py "The system") (py "the system") in
      let cleaned_req := replace cleaned_req (py "User") (py "user") in
      Some cleaned_req
    else None
  else None.

Fixpoint find_requirements (lines : list str) (found : list str) : list str :=
  match lines with
  | [] => found
  | l :: later =>
      match requirement_of_line l with
      | Some cleaned_req => find_requirements later (found ++ [cleaned_req])
      | None => find_requirements later found
      end
  end.

Definition story_of (i : nat) (req : str) : str :=
  let story_num := i + 1 in
  let action := extract_action_from_requirement req in
  let benefit := extract_benefit_from_requirement req in
  List.concat
    [py "**User Story "; str_of_nat story_num; py ":**"; nl;
     py "As a user, I want to "; action; py ", so that "; benefit; py "."; nl; nl;
     py "**Acceptance Criteria:**"; nl;
     py "• Given that I am a user with appropriate access"; nl;
     py "• When I "; action; nl;
     py "• Then I should successfully complete the task"; nl;
     py "• And the system should provide appropriate feedback"; nl;
     py "• And the action should be logged/tracked as needed"].

Fixpoint stories_loop (i : nat) (todo : list str) (stories : list str) : list str :=
  match todo with
  | [] => stories
  | req :: later => stories_loop (S i) later (stories ++ [story_of i req])
  end.

Definition generate_stories_from_content (content feature_focus : str) : list str :=
  let lines := split_char 10%N content in
  let requirements := find_requirements lines [] in
  let requirements :=
    if negb (len feature_focus =? 0)%nat
    then filter (fun req => str_in (lower feature_focus) (lower req)) requirements
    else requirements in
  let stories := stories_loop 0 (firstn 5 requirements) [] in
  match stories with
  | [] => generate_default_stories
  | _ => stories
  end.

(** *** The tools of the server

    A Google Doc is the JSON object of the Docs API, read with the keys
    the source reads; authentication and the API call are taken as
    given. *)

(** An entry of a paragraph's [elements]: whether it has a [textRun], and
    whether that has a [content]. *)
Record text_run := { textRun : option (option str) }.

(** An entry of the body's [content]: whether it has a [paragraph], and
    whether that has [elements]. *)
Record element := { paragraph : option (option (list text_run)) }.

Record document := {
  title : option str;
  body : option (option (list element))
}.

Record arguments := {
  document_id : option str;
  feature_focus_arg : option str
}.

(** The loop over the runs of one paragraph. *)
Fixpoint text_of_runs (runs : list text_run) (text : str) : outcome str :=
  match runs with
  | [] => Returns text
  | run :: later =>
      match textRun run with
      | None => text_of_runs later text
      | Some None => Raises (KeyError (py "content"))
      | Some (Some piece) => text_of_runs later (text ++ piece)
      end
  end.

(** The loop over the elements of the body. *)
Fixpoint text_of_elements (elements : list element) (text : str) : outcome str :=
  match elements with
  | [] => Returns text
  | e :: later =>
      match paragraph e with
      | None => text_of_elements later text
      | Some p =>
          text <~ text_of_runs (default_to [] p) text ;;
          text_of_elements later text
      end
  end.

Definition extract_text_from_doc (d : document) : outcome str :=
  text_of_elements (default_to [] (default_to None (body d))) [].

Section Tools.

Context (authenticate_google : outcome unit)
        (documents_get : str -> outcome document)
        (builtin_message : exn -> str).

Definition message_of (e : raised) : str :=
  match e with
  | Builtin b => builtin_message b
  | KeyError key => py "'" ++ key ++ py "'"
  | ValueError message => message
  | Foreign message => message
  end.

(** The start of both handlers: [if not self.docs_service: await
    self.authenticate_google()].  The flag says whether the service is
    there afterwards. *)
Definition ensure_service (docs_service : bool) : outcome unit * bool :=
  if docs_service then (Returns tt, true)
  else match authenticate_google with
       | Returns _ => (Returns tt, true)
       | Raises e => (Raises e, false)
       end.

Definition caught (prefix : string) (body : outcome CallToolResult)
  : CallToolResult :=
  match body with
  | Returns r => r
  | Raises e => failure (py prefix ++ message_of e)
  end.

Definition read_google_doc (docs_service : bool) (args : arguments)
  : CallToolResult * bool :=
  let (ready, docs_service) := ensure_service docs_service in
  (caught "Error reading document: "
     (_ <~ ready ;;
      if missing (document_id args)
      then Returns (failure (py "Error: document_id is required"))
      else
        d <~ documents_get (default_to [] (document_id args)) ;;
        content <~ extract_text_from_doc d ;;
        Returns
          (success (py "Document: " ++ default_to (py "Untitled") (title d)
                    ++ nl ++ nl ++ py "Content:" ++ nl ++ content))),
   docs_service).

Definition generate_user_stories (docs_service : bool) (args : arguments)
  : CallToolResult * bool :=
  let (ready, docs_service) := ensure_service docs_service in
  (caught "Error generating stories: "
     (_ <~ ready ;;
      let feature_focus := default_to [] (feature_focus_arg args) in
      if missing (document_id args)
      then Returns (failure (py "Error: document_id is required"))
      else
        d <~ documents_get (default_to [] (document_id args)) ;;
        content <~ extract_text_from_doc d ;;
        let user_stories := generate_stories_from_content content feature_focus in
        Returns
          (success (py "Generated User Stories from: "
                    ++ default_to (py "Untitled") (title d) ++ nl ++ nl
                    ++ join (nl ++ nl) user_stories))),
   docs_service).

Definition call_tool (docs_service : bool) (name : str) (args : arguments)
  : outcome (CallToolResult * bool) :=
  if str_eqb name (py "read_google_doc")
  then Returns (read_google_doc docs_service args)
  else if str_eqb name (py "generate_user_stories")
  then Returns (generate_user_stories docs_service args)
  else Raises (ValueError (py "Unknown tool: " ++ name)).

End Tools.

End WithUnicode.
End UserStoryMCPServer.

Module BRS := BusinessRequirementsUserStoryServer.
Module GDS := UserStoryMCPServer.

(** ** Definitions used to state the properties *)

(** The benefit clause as a string: [extract_benefit_from_requirement]
    never raises (lemma [extract_benefit_ok]). *)
Definition benefit_of {db : UnicodeDb} (requirement : str) : str :=
  match BRS.extract_benefit_from_requirement requirement with
  | Ok benefit => benefit
  | Raise _ => []
  end.

(** The story built for the requirement at index [i]: the persona is
    [user_personas[i % len(user_personas)]]. *)
Definition story_at {db : UnicodeDb} (user_personas : list str)
           (story_format : str) (i : nat) (requirement : str) : str :=
  BRS.render_story story_format i
    (nth (i mod List.length user_personas) user_personas [])
    (BRS.extract_action_from_requirement requirement)
    (benefit_of requirement) requirement.

(** [[f(i, x) for i, x in enumerate(xs, start)]] *)
Fixpoint map_from {A B} (f : nat -> A -> B) (start : nat) (xs : list A) : list B :=
  match xs with
  | [] => []
  | x :: rest => f start x :: map_from f (S start) rest
  end.

(** The requirement lines of a document, in the words of the analysis:
    the trimmed text of each line that is longer than 20 characters once
    trimmed and whose lower-cased trimmed text contains a keyword, in
    document order, once per line. *)
Definition requirement_lines_of {db : UnicodeDb} (content : str) : list str :=
  List.map strip
    (filter (fun l =>
               (20 <? len (strip l))%nat
               && existsb (fun keyword => str_in keyword (lower (strip l)))
                          BRS.requirement_keywords)
            (split_char 10%N content)).

(** The requirements the pipeline of [server.py] keeps before it builds
    stories: the first two steps of [generate_stories_from_content]. *)
Definition kept_requirements {db : UnicodeDb} (content feature_focus : str)
  : list str :=
  let found := GDS.find_requirements (split_char 10%N content) [] in
  if negb (len feature_focus =? 0)%nat
  then filter (fun req => str_in (lower feature_focus) (lower req)) found
  else found.

(** The bound on a header's trimmed length. *)
Definition header_ok (h : str) : Prop :=
  3 < len (strip h) /\ len (strip h) < 100.

(** A pattern whose group 1 takes part in every match. *)
Fixpoint groups_always (r : regex) : bool :=
  match r with
  | Grp _ => true
  | Seq a b => groups_always a || groups_always b
  | Alt a b => groups_always a && groups_always b
  | _ => false
  end.

(** ** The stripping rules in words

    What [extract_action_from_requirement] is meant to remove, written
    without regular expressions: words and runs of whitespace taken off
    the front of the text. *)

Definition orelse {A} (a b : option A) : option A :=
  match a with
  | Some _ => a
  | None => b
  end.

Definition and_then {A B} (a : option A) (f : A -> option B) : option B :=
  match a with
  | Some x => f x
  | None => None
  end.

Fixpoint first_of {A B} (f : A -> option B) (xs : list A) : option B :=
  match xs with
  | [] => None
  | x :: later => orelse (f x) (first_of f later)
  end.

(** The text after the word [w], when the text starts with it. *)
Definition after_word (w s : str) : option str :=
  if startswith s w then Some (skipn (len w) s) else None.

(** The text after its leading whitespace, when it has some. *)
Definition after_spaces (s : str) : option str :=
  match s with
  | c :: t => if isspace c then Some (dropwhile isspace t) else None
  | [] => None
  end.

Definition after_word_spaces (w s : str) : option str :=
  and_then (after_word w s) after_spaces.

Definition subject_words : list str :=
  List.map py ["system"; "application"; "user"; "users"]%string.
Definition modal_words : list str :=
  List.map py ["can"; "should"; "must"; "will"; "shall"]%string.
Definition verb_words : list str :=
  List.map py ["provides"; "provide"; "enables"; "enable"; "allows"; "allow";
               "supports"; "support"; "implements"; "implement"]%string.

(** A subject word, whitespace, a modal word, whitespace. *)
Definition after_subject_modal (s : str) : option str :=
  first_of
    (fun subject =>
       and_then (after_word_spaces subject s)
                (fun t => first_of (fun modal => after_word_spaces modal t)
                                   modal_words))
    subject_words.

(** Rule 1: an optional [the], then subject and modal. *)
Definition strip_subject (s : str) : str :=
  match orelse (and_then (after_word_spaces (py "the") s) after_subject_modal)
               (after_subject_modal s) with
  | Some t => t
  | None => s
  end.

(** Rule 2: one of the verbs and the whitespace after it. *)
Definition strip_verb (s : str) : str :=
  match first_of (fun verb => after_word_spaces verb s) verb_words with
  | Some t => t
  | None => s
  end.

(** Rule 3: a leading [to] and the whitespace after it. *)
Definition strip_to (s : str) : str :=
  match after_word_spaces (py "to") s with
  | Some t => t
  | None => s
  end.

Definition drop_period (s : str) : str :=
  if endswith s (py ".") then removelast s else s.

(** The action of a lower-cased phrase: each rule once, in order, then the
    trim, the period and the fallback. *)
Definition action_once (req_lower : str) : str :=
  match drop_period (strip (strip_to (strip_verb (strip_subject req_lower)))) with
  | [] => req_lower
  | action => action
  end.

(** ** Matching read on the remaining text

    For a pattern without [^] and [\b], what the first match leaves
    depends on the remaining text only: [first_rest r f s] is the first
    result of [f] on what a match of [r] at the start of [s] leaves, in
    the order of [run]. *)

Fixpoint position_free (r : regex) : bool :=
  match r with
  | Seq a b | Alt a b => position_free a && position_free b
  | Opt a | Grp a => position_free a
  | Bol | Wordb _ => false
  | _ => true
  end.

Fixpoint first_rest {A} (r : regex) (f : str -> option A) (s : str) : option A :=
  match r with
  | Eps => f s
  | Lit w => if startswith s w then f (skipn (len w) s) else None
  | Set_ p =>
      match s with
      | c :: t => if p c then f t else None
      | [] => None
      end
  | Seq a b => first_rest a (first_rest b f) s
  | Alt a b => orelse (first_rest a f s) (first_rest b f s)
  | Opt a => orelse (first_rest a f s) (f s)
  | Rep p lo hi greedy =>
      first_of (fun k => f (skipn k s)) (counts lo (run_len p hi s) greedy)
  | Grp a => first_rest a f s
  | Eol =>
      match s with
      | [] => f s
      | [c] => if (c =? 10)%N then f s else None
      | _ => None
      end
  | Bol | Wordb _ => None
  end.

(** The fewest characters a match of the pattern takes. *)
Fixpoint min_len (r : regex) : nat :=
  match r with
  | Lit w => len w
  | Set_ _ => 1
  | Seq a b => min_len a + min_len b
  | Alt a b => Nat.min (min_len a) (min_len b)
  | Rep _ lo _ _ => lo
  | Grp a => min_len a
  | _ => 0
  end.

(** Pieces of the rules and of the patterns, named for the proofs. *)

(** A word that does not start with whitespace. *)
Definition starts_plain (w : str) : bool :=
  match w with
  | x :: _ => negb (isspace x)
  | [] => false
  end.

(** A modal word and the whitespace after it. *)
Definition after_modal (s : str) : option str :=
  first_of (fun modal => after_word_spaces modal s) modal_words.

(** The subject and modal part of [subject_prefix], and the body of
    [verb_prefix]. *)
Definition subject_modal_body : regex :=
  seqs [alts [Lit (py "system"); Lit (py "application"); Lit (py "user");
              BRS.lit_opt "user" "s"];
        BRS.ws1; BRS.lits ["can"; "should"; "must"; "will"; "shall"]%string;
        BRS.ws1].

Definition verb_body : regex :=
  Seq (alts [BRS.lit_opt "provide" "s"; BRS.lit_opt "enable" "s";
             BRS.lit_opt "allow" "s"; BRS.lit_opt "support" "s";
             BRS.lit_opt "implement" "s"])
      BRS.ws1.


(** ** Definitions used to state the properties of the tools and of the pipeline *)

(** A role the analysis may report. *)
Definition role_ok (role : str) : Prop :=
  role <> [] /\ len role < 20
  /\ ~ In role [py "user"; py "system"; py "application"].

(** A line that mentions the feature focus. *)
Definition mentions {db : UnicodeDb} (feature_focus l : str) : bool :=
  str_in (lower feature_focus) (lower (strip l)).

(** [x] occurs in [s] as a contiguous piece. *)
Definition substring (x s : str) : Prop :=
  exists pre post, s = pre ++ x ++ post.

(** The sentence every rendered story carries. *)
Definition story_sentence (user_persona action benefit : str) : str :=
  List.concat [py "As a "; user_persona; py ", I want to "; action;
               py ", so that "; benefit; py "."].

(** ** A fixed setting for the checks on concrete input

    An [urlparse] that refuses an address with a bracket in it, a GitHub
    that answers 404 for an address with [missing] in it and 200
    otherwise, with a plain-text document (the release notes for an
    address with [NOTES] in it, the requirements otherwise), and the
    messages CPython 3.11 gives the built-in exceptions. *)
Module Offline.

Definition urlparse_path (url : str) : outcome str :=
  if str_in (py "[") url then Raises (ValueError (py "Invalid IPv6 URL"))
  else if startswith url (py "https://github.com") then Returns (skipn 18 url)
  else Returns url.

Definition requirements_md : str :=
  py "# Reports" ++ nl
  ++ py "The system shall export monthly reports as pdf." ++ nl
  ++ py "Users can search the archive by date." ++ nl.

Definition release_notes : str :=
  py "RELEASE NOTES" ++ nl ++ py "Nothing to report." ++ nl.

Definition http_status (url : str) (headers : list (str * str)) : outcome nat :=
  if str_in (py "missing") url then Returns 404 else Returns 200.

Definition http_json (url : str) (headers : list (str * str))
  : outcome BRS.response :=
  Returns {| BRS.encoding := None;
             BRS.content :=
               Some (if str_in (py "NOTES") url then release_notes
                     else requirements_md) |}.

Definition b64decode (encoded : str) : outcome (list N) :=
  Raises (Foreign (py "Incorrect padding")).

Definition decode_utf8 (bytes : list N) : option str := Some bytes.

Definition decode_utf8_ignore (bytes : list N) : str := bytes.

Definition builtin_message (e : exn) : str :=
  match e with
  | ZeroDivisionError => py "integer modulo by zero"
  | IndexError => py "no such group"
  | AttributeError => py "'NoneType' object has no attribute 'startswith'"
  end.

Definition arguments_for (path : string) (personas : option (list str))
  : BRS.arguments :=
  {| BRS.repo_url := Some (py "https://github.com/acme/shop");
     BRS.file_path := Some (py path);
     BRS.branch := None;
     BRS.user_personas_arg := personas;
     BRS.feature_focus_arg := None;
     BRS.story_format_arg := None;
     BRS.max_stories_arg := None |}.

Definition read_business_requirements :=
  BRS.read_business_requirements None urlparse_path http_status http_json
    b64decode decode_utf8 decode_utf8_ignore builtin_message.

Definition generate_user_stories_from_requirements :=
  BRS.generate_user_stories_from_requirements (db := ascii_db)
    None urlparse_path http_status http_json
    b64decode decode_utf8 decode_utf8_ignore builtin_message.

Definition analyze_requirements_structure :=
  BRS.analyze_requirements_structure (db := ascii_db)
    None urlparse_path http_status http_json
    b64decode decode_utf8 decode_utf8_ignore builtin_message.

End Offline.

(** The text runs of a document's paragraphs, in reading order, and the
    texts they hold. *)
Definition runs_of (d : GDS.document) : list GDS.text_run :=
  flat_map (fun e =>
              match GDS.paragraph e with
              | Some (Some runs) => runs
              | _ => []
              end)
           (default_to [] (default_to None (GDS.body d))).

Definition pieces_of (runs : list GDS.text_run) : list str :=
  flat_map (fun run =>
              match GDS.textRun run with
              | Some (Some piece) => [piece]
              | _ => []
              end)
           runs.

Definition lacks_content (run : GDS.text_run) : Prop :=
  GDS.textRun run = Some None.

(** [clause] is the trimmed text between the first occurrence of [kw] in
    [r] and the next one, or the end of [r]. *)
Definition clause_after (kw r clause : str) : Prop :=
  exists before part tail,
    r = before ++ kw ++ part ++ tail
    /\ str_in kw (before ++ removelast kw) = false
    /\ (tail = [] /\ str_in kw part = false
        \/ startswith tail kw = true
           /\ str_in kw (part ++ removelast kw) = false)
    /\ clause = strip part.

(** * Properties *)

(** ** Text *)

Lemma str_eqb_eq (a b : str) : str_eqb a b = true <-> a = b.
Proof.
  revert b; induction a as [|x a IH]; intros [|y b]; simpl;
    try (split; congruence).
  rewrite andb_true_iff, N.eqb_eq, IH. split.
  - intros [-> ->]; reflexivity.
  - intros E; injection E; auto.
Qed.

Lemma dropwhile_fixed (p : char -> bool) (s : str) :
  dropwhile p (dropwhile p s) = dropwhile p s.
Proof.
  induction s as [|c t IH]; simpl; auto.
  destruct (p c) eqn:E; auto. simpl. now rewrite E.
Qed.

(** What is left of a string after [dropwhile] on its reverse still starts
    as the string did. *)
Lemma dropwhile_rev_head (p : char -> bool) (c : char) (t : str) :
  p c = false -> exists t', rev (dropwhile p (rev (c :: t))) = c :: t'.
Proof.
  intros Hc. revert c Hc.
  induction t as [|d t IH] using rev_ind; intros c Hc.
  - simpl. rewrite Hc. simpl. eauto.
  - replace (rev (c :: t ++ [d])) with (d :: rev (c :: t))
      by (simpl; rewrite rev_app_distr; reflexivity).
    simpl dropwhile. destruct (p d).
    + apply IH, Hc.
    + exists (t ++ [d]). simpl. rewrite rev_app_distr, rev_involutive. reflexivity.
Qed.

Lemma lstrip_rstrip (s : str) : lstrip (rstrip (lstrip s)) = rstrip (lstrip s).
Proof.
  unfold lstrip at 2 3.
  assert (H : dropwhile isspace s = []
              \/ exists c t, dropwhile isspace s = c :: t /\ isspace c = false).
  { induction s as [|c t IH]; simpl; auto.
    destruct (isspace c) eqn:E; auto. right; eauto. }
  destruct H as [-> | (c & t & -> & Hc)]; [reflexivity|].
  unfold rstrip. destruct (dropwhile_rev_head isspace c t Hc) as [t' ->].
  unfold lstrip; simpl. now rewrite Hc.
Qed.

Lemma rstrip_fixed (s : str) : rstrip (rstrip s) = rstrip s.
Proof.
  unfold rstrip. now rewrite rev_involutive, dropwhile_fixed.
Qed.

(** [strip] is idempotent: a stripped string is its own trimmed form. *)
Lemma strip_strip (s : str) : strip (strip s) = strip s.
Proof.
  unfold strip. now rewrite lstrip_rstrip, rstrip_fixed.
Qed.

Lemma split_char_no_sep (sep : char) (s line : str) :
  In line (split_char sep s) -> ~ In sep line.
Proof.
  revert line; induction s as [|c t IH]; simpl; intros line.
  - intros [<- | []]; auto.
  - destruct (N.eqb_spec c sep) as [->|Hne].
    + intros [<- | H]; auto.
    + destruct (split_char sep t) as [|piece pieces].
      * intros [<- | []]. simpl; intuition congruence.
      * intros [<- | H].
        -- simpl. intros [E | H]; [congruence|]. apply (IH piece); simpl; auto.
        -- apply IH; simpl; auto.
Qed.

(** ** Matching *)

Lemma advance_g1 (k : nat) (st : mstate) : g1 (advance k st) = g1 st.
Proof. reflexivity. Qed.

(** A match never forgets group 1. *)
Lemma run_keeps_g1 (r : regex) :
  forall st st', In st' (run r st) -> g1 st <> None -> g1 st' <> None.
Proof.
  induction r; intros st st'; simpl.
  - intros [<- | []]; auto.
  - destruct (startswith (rest st) s); simpl; [intros [<- | []]; auto | tauto].
  - destruct (rest st) as [|c t]; [tauto|].
    destruct (p c); simpl; [intros [<- | []]; auto | tauto].
  - rewrite in_flat_map. intros (mid & Hmid & Hst') H. eauto.
  - rewrite in_app_iff. intros [H | H]; eauto.
  - rewrite in_app_iff. intros [H | [<- | []]]; eauto.
  - rewrite in_map_iff. intros (k & <- & _). auto.
  - rewrite in_map_iff. intros (mid & <- & _) _. simpl. congruence.
  - destruct (seen st); simpl; [intros [<- | []]; auto | tauto].
  - destruct (rest st) as [|c [|d t]]; simpl; try tauto.
    + intros [<- | []]; auto.
    + destruct (c =? 10)%N; simpl; [intros [<- | []]; auto | tauto].
  - destruct (xorb _ _); simpl; [intros [<- | []]; auto | tauto].
Qed.

(** A pattern whose group is on every path leaves group 1 set. *)
Lemma run_sets_g1 (r : regex) :
  groups_always r = true ->
  forall st st', In st' (run r st) -> g1 st' <> None.
Proof.
  induction r; simpl; try discriminate; intros G st st'.
  - rewrite in_flat_map. intros (mid & Hmid & Hst').
    apply orb_true_iff in G as [G | G].
    + eapply run_keeps_g1; eauto.
    + eauto.
  - apply andb_true_iff in G as [Ga Gb].
    rewrite in_app_iff. intros [H | H]; eauto.
  - rewrite in_map_iff. intros (mid & <- & _). simpl. congruence.
Qed.

Lemma groups_always_count (r : regex) :
  groups_always r = true -> group_count r <> 0.
Proof.
  induction r; simpl; try discriminate; intros G.
  - apply orb_true_iff in G as [G | G]; [apply IHr1 in G | apply IHr2 in G]; lia.
  - apply andb_true_iff in G as [G _]. apply IHr1 in G. lia.
Qed.

Lemma search_from_run (p : regex) (after before : str) (st : mstate) :
  search_from p before after = Some st ->
  exists b a, In st (run p (start_at b a)).
Proof.
  revert before; induction after as [|c t IH]; intros before; simpl.
  - destruct (run p (start_at before [])) eqn:E; [discriminate|].
    intros [= ->]. exists before, []. rewrite E. simpl; auto.
  - destruct (run p (start_at before (c :: t))) eqn:E.
    + apply IH.
    + intros [= ->]. exists before, (c :: t). rewrite E. simpl; auto.
Qed.

Lemma group1_after_run (p : regex) (st0 st : mstate) :
  groups_always p = true -> In st (run p st0) ->
  exists g, group1 p st = Ok g.
Proof.
  intros G H. unfold group1.
  destruct (Nat.eqb_spec (group_count p) 0) as [E | _].
  - now apply groups_always_count in G.
  - destruct (g1 st) eqn:Eg; eauto.
    now apply (run_sets_g1 p G st0 st) in H.
Qed.

Lemma group1_after_search (p : regex) (s : str) (st : mstate) :
  groups_always p = true -> re_search p s = Some st ->
  exists g, group1 p st = Ok g.
Proof.
  intros G H. apply search_from_run in H as (b & a & H).
  eapply group1_after_run; eauto.
Qed.

(** ** The phrase deriver never raises *)

Section Deriver.
Context {db : UnicodeDb}.

Lemma explicit_benefit_total (patterns : list regex) (req_lower : str) :
  forallb groups_always patterns = true ->
  exists found, BRS.explicit_benefit patterns req_lower = Ok found.
Proof.
  induction patterns as [|p later IH]; simpl; intros G; eauto.
  apply andb_true_iff in G as [Gp Gl].
  destruct (re_search p req_lower) as [m|] eqn:E; auto.
  destruct (group1_after_search p req_lower m Gp E) as [g ->]. simpl. eauto.
Qed.

Lemma extract_benefit_ok (requirement : str) :
  BRS.extract_benefit_from_requirement requirement = Ok (benefit_of requirement).
Proof.
  unfold benefit_of.
  destruct (BRS.extract_benefit_from_requirement requirement) eqn:E; auto.
  unfold BRS.extract_benefit_from_requirement in E.
  destruct (explicit_benefit_total BRS.benefit_patterns (lower requirement))
    as [found Hf]; [reflexivity|].
  rewrite Hf in E. simpl in E. destruct found; discriminate.
Qed.

End Deriver.

(** ** Story synthesis *)

Section Synthesis.
Context {db : UnicodeDb}.

Lemma map_from_length {A B} (f : nat -> A -> B) (xs : list A) :
  forall start, List.length (map_from f start xs) = List.length xs.
Proof. induction xs; simpl; auto. Qed.

Lemma map_from_nth {A B} (f : nat -> A -> B) (xs : list A) :
  forall start i y,
    nth_error (map_from f start xs) i = Some y ->
    exists x, nth_error xs i = Some x /\ y = f (start + i) x.
Proof.
  induction xs as [|x rest IH]; intros start [|i] y; simpl; try discriminate.
  - intros [= <-]. exists x. now rewrite Nat.add_0_r.
  - intros H. apply IH in H as (x' & Hx & ->). exists x'.
    now rewrite Nat.add_succ_r.
Qed.

Lemma index_mod (user_personas : list str) (i : nat) :
  user_personas <> [] ->
  BRS.index user_personas (i mod List.length user_personas)
  = Ok (nth (i mod List.length user_personas) user_personas []).
Proof.
  intros NE. unfold BRS.index.
  assert (L : i mod List.length user_personas < List.length user_personas).
  { apply Nat.mod_upper_bound. destruct user_personas; simpl; congruence. }
  destruct (nth_error user_personas _) eqn:E.
  - now rewrite (nth_error_nth _ _ _ E).
  - apply nth_error_None in E. lia.
Qed.

(** The loop with a non-empty persona list: it stops at [max_stories] or at
    the end of the list, and never raises. *)
Lemma stories_loop_ok (user_personas : list str) (story_format : str)
      (max_stories : Z) (todo : list str) :
  user_personas <> [] ->
  forall i stories,
    BRS.stories_loop user_personas story_format max_stories i todo stories
    = Ok (stories ++
          map_from (story_at user_personas story_format) i
                   (firstn (Z.to_nat (max_stories - Z.of_nat i)) todo)).
Proof.
  intros NE. induction todo as [|requirement later IH]; intros i stories.
  - simpl. rewrite firstn_nil. simpl. now rewrite app_nil_r.
  - simpl. destruct (Z.leb_spec max_stories (Z.of_nat i)) as [Hle | Hlt].
    + replace (Z.to_nat (max_stories - Z.of_nat i)) with 0 by lia.
      simpl. now rewrite app_nil_r.
    + unfold BRS.py_mod.
      destruct (List.length user_personas) eqn:EL;
        [destruct user_personas; simpl in EL; congruence|].
      rewrite <- EL. simpl bind. rewrite index_mod by assumption. simpl bind.
      rewrite extract_benefit_ok. simpl bind. rewrite IH.
      replace (Z.to_nat (max_stories - Z.of_nat i))
        with (S (Z.to_nat (max_stories - Z.of_nat (S i)))) by lia.
      simpl. rewrite <- app_assoc. reflexivity.
Qed.

(** [generate_user_stories] on a non-empty requirement list and a
    non-empty persona list. *)
Lemma generate_user_stories_ok
      (requirements user_personas : list str) (story_format : str)
      (max_stories : Z) :
  requirements <> [] -> user_personas <> [] ->
  BRS.generate_user_stories requirements user_personas story_format max_stories
  = Ok (map_from (story_at user_personas story_format) 0
                 (firstn (Z.to_nat max_stories) requirements)).
Proof.
  intros NR NP. unfold BRS.generate_user_stories.
  destruct requirements as [|r R]; [congruence|].
  rewrite stories_loop_ok by assumption. simpl app. f_equal. f_equal.
  rewrite Z.sub_0_r. unfold slice_to.
  destruct (Z.leb_spec 0 max_stories) as [H | H].
  - rewrite firstn_firstn. now rewrite Nat.min_id.
  - replace (Z.to_nat max_stories) with 0 by lia. reflexivity.
Qed.

End Synthesis.

(** ** The synthesizer's properties *)

(** C1 (the code departs from the claim).  With at least one requirement,
    a positive [max_stories] and an empty persona list,
    [generate_user_stories] raises [ZeroDivisionError] at
    [i % len(user_personas)]: no default persona is substituted on this
    path, although the path for an empty requirement list does
    substitute it. *)
Theorem generate_user_stories_empty_personas_raises
        {db : UnicodeDb} (requirement : str) (later : list str)
        (story_format : str) (max_stories : positive) :
  BRS.generate_user_stories (requirement :: later) [] story_format
                            (Z.pos max_stories)
  = Raise ZeroDivisionError.
Proof.
  unfold BRS.generate_user_stories, slice_to.
  change (0 <=? Z.pos max_stories)%Z with true. cbv iota.
  destruct (Pos2Nat.is_succ max_stories) as [n Hn].
  change (Z.to_nat (Z.pos max_stories)) with (Pos.to_nat max_stories).
  rewrite Hn. reflexivity.
Qed.

(** C3 (the code departs from the claim).  One requirement, no persona,
    the standard format and [max_stories = 10]: the call raises instead of
    returning a list of [min(1, 10) = 1] story.  The defect is the one of
    C1. *)
Theorem generate_user_stories_no_list_without_personas :
  BRS.generate_user_stories (db := ascii_db)
    [py "export monthly reports as pdf"] [] (py "standard") 10
  = Raise ZeroDivisionError.
Proof. reflexivity. Qed.

(** With a persona to assign, the list has [min(len(requirements),
    max_stories)] stories. *)
Theorem generate_user_stories_length
        {db : UnicodeDb} (requirements user_personas : list str)
        (story_format : str) (max_stories : Z) :
  requirements <> [] -> user_personas <> [] -> (0 < max_stories)%Z ->
  exists stories,
    BRS.generate_user_stories requirements user_personas story_format max_stories
    = Ok stories
    /\ List.length stories
       = Nat.min (List.length requirements) (Z.to_nat max_stories).
Proof.
  intros NR NP _. eexists. split.
  - apply generate_user_stories_ok; assumption.
  - rewrite map_from_length, length_firstn. apply Nat.min_comm.
Qed.

Lemma generate_user_stories_length_witness :
  exists stories,
    BRS.generate_user_stories (db := ascii_db)
      [py "export monthly reports"; py "search the archive"; py "delete drafts"]
      [py "admin"] (py "agile") 2
    = Ok stories
    /\ List.length stories = Nat.min 3 (Z.to_nat 2).
Proof.
  apply (generate_user_stories_length (db := ascii_db)
           [py "export monthly reports"; py "search the archive"; py "delete drafts"]
           [py "admin"] (py "agile") 2); [discriminate | discriminate | lia].
Defined.

(** C10.  With no requirement and a non-empty persona list the result is
    the single default story for the first persona, whatever the format
    and [max_stories]: the same fixed text around the persona. *)
Theorem default_story_uses_first_persona
        {db : UnicodeDb} (user_personas : list str) (story_format : str)
        (max_stories : Z) :
  user_personas <> [] ->
  BRS.generate_user_stories [] user_personas story_format max_stories
  = Ok [BRS.generate_default_story (nth 0 user_personas [])]
  /\ BRS.generate_default_story (nth 0 user_personas [])
     = py "**User Story 1:**" ++ nl ++ py "As a " ++ nth 0 user_personas []
       ++ py ", I want to use the system features, so that I can accomplish my goals efficiently."
       ++ nl ++ nl ++ py "**Acceptance Criteria:**" ++ nl
       ++ py "• Given that I have access to the system" ++ nl
       ++ py "• When I use the available features" ++ nl
       ++ py "• Then I can complete my tasks" ++ nl
       ++ py "• And the system provides helpful feedback"
  /\ forall other_format other_max,
      BRS.generate_user_stories [] user_personas other_format other_max
      = BRS.generate_user_stories [] user_personas story_format max_stories.
Proof.
  intros NP. destruct user_personas as [|p ps]; [congruence|].
  split; [reflexivity|]. split; [|reflexivity].
  unfold BRS.generate_default_story. cbn [List.concat].
  rewrite app_nil_r. reflexivity.
Qed.

Lemma default_story_uses_first_persona_witness :
  BRS.generate_user_stories (db := ascii_db) [] [py "admin"; py "manager"]
                            (py "agile") 10
  = Ok [BRS.generate_default_story (py "admin")].
Proof.
  exact (proj1 (default_story_uses_first_persona (db := ascii_db)
                  [py "admin"; py "manager"] (py "agile") 10%Z
                  ltac:(discriminate))).
Defined.

(** [generate_stories_from_content] builds its stories from the first five
    kept requirements. *)
Lemma stories_from_kept {db : UnicodeDb} (content feature_focus : str) :
  GDS.generate_stories_from_content content feature_focus
  = match GDS.stories_loop 0 (firstn 5 (kept_requirements content feature_focus)) [] with
    | [] => GDS.generate_default_stories
    | stories => stories
    end.
Proof.
  unfold GDS.generate_stories_from_content, kept_requirements. cbv zeta.
  destruct (GDS.stories_loop 0 _ []); reflexivity.
Qed.

(** C2 (amended).  An empty requirement list gives exactly one story in
    [generate_user_stories], the default story of the first persona, or
    of [user] when there is no persona; the pipeline of [server.py]
    returns its two default stories when it keeps no requirement. *)
Theorem empty_requirements_default_stories {db : UnicodeDb} :
  (forall (user_personas : list str) (story_format : str) (max_stories : Z),
      let user_persona :=
        match user_personas with
        | first :: _ => first
        | [] => py "user"
        end in
      BRS.generate_user_stories [] user_personas story_format max_stories
      = Ok [BRS.generate_default_story user_persona]
      /\ BRS.generate_default_story user_persona
         = py "**User Story 1:**" ++ nl ++ py "As a " ++ user_persona
           ++ py ", I want to use the system features, so that I can accomplish my goals efficiently."
           ++ nl ++ nl ++ py "**Acceptance Criteria:**" ++ nl
           ++ py "• Given that I have access to the system" ++ nl
           ++ py "• When I use the available features" ++ nl
           ++ py "• Then I can complete my tasks" ++ nl
           ++ py "• And the system provides helpful feedback")
  /\ (forall content feature_focus : str,
         kept_requirements content feature_focus = [] ->
         GDS.generate_stories_from_content content feature_focus
         = GDS.generate_default_stories
         /\ List.length (GDS.generate_stories_from_content content feature_focus)
            = 2).
Proof.
  split.
  - intros user_personas story_format max_stories user_persona. split.
    + destruct user_personas; reflexivity.
    + unfold BRS.generate_default_story. cbn [List.concat].
      rewrite app_nil_r. reflexivity.
  - intros content feature_focus H.
    assert (E : GDS.generate_stories_from_content content feature_focus
                = GDS.generate_default_stories).
    { unfold GDS.generate_stories_from_content. unfold kept_requirements in H.
      cbv zeta in *. rewrite H. reflexivity. }
    rewrite E. split; reflexivity.
Qed.

Lemma empty_requirements_default_stories_witness :
  BRS.generate_user_stories (db := ascii_db) [] [] (py "agile") 3
  = Ok [BRS.generate_default_story (py "user")]
  /\ kept_requirements (db := ascii_db) (py "Meeting notes from Tuesday") [] = []
  /\ GDS.generate_stories_from_content (db := ascii_db)
       (py "Meeting notes from Tuesday") []
     = GDS.generate_default_stories.
Proof.
  split; [|split; [reflexivity|]].
  - exact (proj1 (proj1 (empty_requirements_default_stories (db := ascii_db))
                        [] (py "agile") 3%Z)).
  - apply (proj2 (empty_requirements_default_stories (db := ascii_db))
             (py "Meeting notes from Tuesday") []).
    reflexivity.
Defined.

(** C2 as stated fails: a document in which [server.py] finds no
    requirement yields two stories, not one. *)
Lemma two_default_stories_counterexample :
  kept_requirements (db := ascii_db) (py "Meeting notes from Tuesday") [] = []
  /\ List.length (GDS.generate_stories_from_content (db := ascii_db)
                    (py "Meeting notes from Tuesday") []) = 2
  /\ List.length (GDS.generate_stories_from_content (db := ascii_db)
                    (py "Meeting notes from Tuesday") []) <> 1.
Proof. vm_compute. repeat split; discriminate. Qed.

(** ** Requirement extraction *)

Section Extraction.
Context {db : UnicodeDb}.

Lemma phrase_of_line_total (patterns : list regex) (line_lower : str) :
  forallb groups_always patterns = true ->
  exists phrases, BRS.phrase_of_line patterns line_lower = Ok phrases.
Proof.
  induction patterns as [|p later IH]; simpl; intros G; eauto.
  apply andb_true_iff in G as [Gp Gl].
  destruct (re_search p line_lower) as [m|] eqn:E; auto.
  destruct (group1_after_search p line_lower m Gp E) as [g ->]. simpl.
  destruct (_ <? _)%nat; eauto.
Qed.

Lemma requirements_of_line_total (feature_focus l : str) :
  exists more, BRS.requirements_of_line feature_focus l = Ok more.
Proof.
  unfold BRS.requirements_of_line.
  destruct (_ || _); eauto. destruct (_ && _); eauto.
  destruct (phrase_of_line_total BRS.requirement_patterns (lower (strip l)))
    as [phrases ->]; [reflexivity|]. simpl. eauto.
Qed.

Lemma collect_requirements_total (feature_focus : str) (lines : list str) :
  forall found,
  exists all, BRS.collect_requirements feature_focus lines found = Ok all.
Proof.
  induction lines as [|l later IH]; intros found; simpl; eauto.
  destruct (requirements_of_line_total feature_focus l) as [more ->]. simpl.
  apply IH.
Qed.

End Extraction.

(** C4.  Extraction returns, for every document and every feature focus,
    a list of at most 20 phrases. *)
Theorem extract_requirements_at_most_20
        {db : UnicodeDb} (content feature_focus : str) :
  exists phrases,
    BRS.extract_requirements_from_document content feature_focus = Ok phrases
    /\ List.length phrases <= 20.
Proof.
  unfold BRS.extract_requirements_from_document.
  destruct (collect_requirements_total feature_focus
              (split_char 10%N content) []) as [found ->].
  cbn [bind]. eexists. split; [reflexivity|]. apply firstn_le_length.
Qed.

(** ** Structural analysis *)

Section Analysis.
Context {db : UnicodeDb}.

Lemma header_of_line_bounds (patterns : list regex) (line h : str) :
  BRS.header_of_line patterns line = Ok (Some h) -> header_ok h.
Proof.
  induction patterns as [|p later IH]; simpl; [discriminate|].
  destruct (re_match p line) as [m|]; [|exact IH].
  destruct (group1 p m) as [g|]; simpl; [|discriminate].
  destruct (Nat.ltb_spec 3 (len (strip g))); simpl; [|discriminate].
  destruct (Nat.ltb_spec (len (strip g)) 100); simpl; [|discriminate].
  intros [= <-]. unfold header_ok. rewrite strip_strip. auto.
Qed.

Lemma find_headers_bounds (lines : list str) :
  forall found hs,
    BRS.find_headers lines found = Ok hs ->
    Forall header_ok found -> Forall header_ok hs.
Proof.
  induction lines as [|l later IH]; intros found hs; cbn [BRS.find_headers].
  - intros [= <-]; auto.
  - destruct (strip l) as [|c t] eqn:El; [apply IH|].
    destruct (BRS.header_of_line BRS.header_patterns (c :: t)) as [[h|]|] eqn:Eh;
      cbn [bind]; try discriminate.
    + intros H F. apply (IH _ _ H). apply Forall_app. split; [assumption|].
      constructor; [|constructor]. eapply header_of_line_bounds; eauto.
    + apply IH.
Qed.

Lemma analyze_headers (content : str) (a : BRS.analysis) :
  BRS.analyze_document_structure content = Ok a ->
  BRS.find_headers (split_char 10%N content) [] = Ok (BRS.headers a).
Proof.
  unfold BRS.analyze_document_structure.
  destruct (BRS.find_headers (split_char 10%N content) []); simpl;
    [|discriminate].
  intros [= <-]. reflexivity.
Qed.

Lemma analyze_requirements (content : str) (a : BRS.analysis) :
  BRS.analyze_document_structure content = Ok a ->
  BRS.requirements a = BRS.find_requirements (split_char 10%N content) [].
Proof.
  unfold BRS.analyze_document_structure.
  destruct (BRS.find_headers (split_char 10%N content) []); simpl;
    [|discriminate].
  intros [= <-]. reflexivity.
Qed.

Lemma find_requirements_in (lines : list str) :
  forall found x,
    In x (BRS.find_requirements lines found) <->
    In x found \/ exists l, In l lines /\ BRS.requirement_line l = Some x.
Proof.
  induction lines as [|l later IH]; intros found x; simpl.
  - split; [auto | intros [H | (l & [] & _)]; auto].
  - destruct (BRS.requirement_line l) as [line|] eqn:E; rewrite IH.
    + rewrite in_app_iff. simpl. split.
      * intros [[H | [<- | []]] | (l' & Hl' & H')]; eauto 6.
      * intros [H | (l' & [<- | Hl'] & H')]; eauto 6.
        rewrite E in H'. injection H' as <-. auto.
    + split.
      * intros [H | (l' & Hl' & H')]; eauto 6.
      * intros [H | (l' & [<- | Hl'] & H')]; eauto 6. congruence.
Qed.

Lemma requirement_line_some (l x : str) :
  BRS.requirement_line l = Some x <->
  x = strip l /\ 20 < len (strip l)
  /\ existsb (fun keyword => str_in keyword (lower (strip l)))
             BRS.requirement_keywords = true.
Proof.
  unfold BRS.requirement_line.
  destruct (Nat.ltb_spec 20 (len (strip l))).
  - destruct (existsb _ _); split.
    + intros [= <-]; auto.
    + intros (-> & _); reflexivity.
    + discriminate.
    + intros (_ & _ & ?); discriminate.
  - split; [discriminate | intros (_ & ? & _); lia].
Qed.

End Analysis.

(** C8.  Every header the analysis returns has a trimmed length strictly
    between 3 and 100. *)
Theorem headers_within_bounds
        {db : UnicodeDb} (content : str) (a : BRS.analysis) :
  BRS.analyze_document_structure content = Ok a ->
  Forall (fun h => 3 < len (strip h) /\ len (strip h) < 100) (BRS.headers a).
Proof.
  intros H. apply analyze_headers in H.
  apply (find_headers_bounds _ _ _ H). constructor.
Qed.

Lemma headers_within_bounds_witness :
  let content :=
    py "# Project Overview" ++ nl ++ py "1. Scope of the work" ++ nl
    ++ py "# ab" ++ nl
    ++ py "The system shall allow administrators to export reports" in
  exists a,
    BRS.analyze_document_structure (db := ascii_db) content = Ok a
    /\ BRS.headers a = [py "Project Overview"; py "Scope of the work"]
    /\ Forall (fun h => 3 < len (strip h) /\ len (strip h) < 100) (BRS.headers a).
Proof.
  intros content. eexists. split; [vm_compute; reflexivity|].
  split; [reflexivity|].
  apply (headers_within_bounds (db := ascii_db) content).
  vm_compute. reflexivity.
Defined.

(** ** The underline rules *)

Lemma startswith_length (s p : str) :
  startswith s p = true -> len p <= len s.
Proof.
  revert s; induction p as [|a p IH]; intros [|b s]; simpl; try lia;
    try discriminate.
  intros H. apply andb_true_iff in H as [_ H]. apply IH in H.
  unfold len in *. lia.
Qed.

Lemma takewhile_length (p : char -> bool) (s : str) :
  len (takewhile p s) <= len s.
Proof.
  induction s as [|c t IH]; simpl; auto.
  destruct (p c); simpl; unfold len in *; lia.
Qed.

Lemma counts_bound (lo n : nat) (greedy : bool) (k : nat) :
  In k (counts lo n greedy) -> lo <= k <= n.
Proof.
  unfold counts. intros H.
  assert (H' : In k (seq lo (n + 1 - lo))).
  { destruct greedy; [apply in_rev|]; assumption. }
  apply in_seq in H'. lia.
Qed.

Lemma run_len_bound (p : char -> bool) (hi : option nat) (s : str) :
  run_len p hi s <= len s.
Proof.
  unfold run_len. pose proof (takewhile_length p s).
  destruct hi; lia.
Qed.

(** Every match leaves a suffix of the text it started from, at least
    [min_len] characters further on. *)
Lemma run_span (r : regex) :
  forall st st',
    In st' (run r st) ->
    exists k, min_len r <= k /\ k <= len (rest st)
              /\ rest st' = skipn k (rest st).
Proof.
  induction r; intros st st'; simpl.
  - intros [<- | []]. exists 0. repeat split; lia.
  - destruct (startswith (rest st) s) eqn:E; simpl; [|intros []].
    intros [<- | []]. exists (len s). repeat split; auto.
    now apply startswith_length.
  - destruct (rest st) as [|c t] eqn:E; [intros []|].
    destruct (p c); simpl; [|intros []].
    intros [<- | []]. exists 1. simpl. rewrite E. repeat split; simpl; lia.
  - rewrite in_flat_map. intros (mid & Hmid & Hst').
    apply IHr1 in Hmid as (k1 & M1 & L1 & E1).
    apply IHr2 in Hst' as (k2 & M2 & L2 & E2).
    exists (k1 + k2). rewrite E2, E1, skipn_skipn. rewrite E1 in L2.
    unfold len in *. rewrite length_skipn in L2. repeat split; try lia.
    f_equal. lia.
  - rewrite in_app_iff. intros [H | H];
      [apply IHr1 in H | apply IHr2 in H]; destruct H as (k & M & L & E);
      exists k; repeat split; auto; lia.
  - rewrite in_app_iff. intros [H | [<- | []]].
    + apply IHr in H as (k & M & L & E). exists k. repeat split; auto; lia.
    + exists 0. repeat split; lia.
  - rewrite in_map_iff. intros (k & <- & Hk). exists k.
    apply counts_bound in Hk. pose proof (run_len_bound p hi (rest st)).
    repeat split; auto; lia.
  - rewrite in_map_iff. intros (mid & <- & Hmid). simpl. eauto.
  - destruct (seen st); simpl; [|intros []].
    intros [<- | []]. exists 0. repeat split; lia.
  - intros H. assert (Hin : In st' [st]).
    { destruct (rest st) as [|c [|d t]]; auto;
        [destruct (c =? 10)%N; auto; destruct H | destruct H]. }
    destruct Hin as [<- | []]. exists 0. repeat split; lia.
  - destruct (xorb _ _); simpl; [|intros []].
    intros [<- | []]. exists 0. repeat split; lia.
Qed.

Lemma run_consumed (r : regex) (st st' : mstate) :
  In st' (run r st) ->
  min_len r <= consumed st st' /\ rest st' = skipn (consumed st st') (rest st).
Proof.
  intros H. apply run_span in H as (k & M & L & E).
  assert (C : consumed st st' = k).
  { unfold consumed, len in *. rewrite E, length_skipn. lia. }
  rewrite C. auto.
Qed.

Lemma skipn_in {A} (k : nat) (l : list A) (x : A) :
  In x (skipn k l) -> In x l.
Proof.
  revert l; induction k as [|k IH]; intros [|a l]; simpl; auto.
Qed.

(** A pattern that asks for a newline after its group cannot match a text
    without one. *)
Lemma newline_needed (tail : regex) (line : str) :
  ~ In 10%N line ->
  re_match (seqs [Bol; Grp (plus dot); Lit nl; tail]) line = None.
Proof.
  intros NoNl. unfold re_match.
  destruct (run _ _) as [|st l] eqn:E; [reflexivity|].
  exfalso. assert (H : In st (st :: l)) by (simpl; auto).
  rewrite <- E in H. clear E l. simpl in H.
  rewrite app_nil_r in H.
  apply in_flat_map in H as (mid & Hmid & H).
  apply in_map_iff in Hmid as (mid' & <- & Hmid').
  apply in_map_iff in Hmid' as (k & <- & _).
  apply in_flat_map in H as (mid & Hmid & _). simpl in Hmid.
  destruct (startswith (skipn k line) nl) eqn:Es; [|destruct Hmid].
  apply NoNl. apply (@skipn_in char k). unfold nl in Es.
  destruct (skipn k line) as [|c t]; cbn [startswith] in Es; [discriminate|].
  apply andb_true_iff in Es as [Ec _]. apply N.eqb_eq in Ec. subst c.
  left; reflexivity.
Qed.

Lemma dropwhile_in (p : char -> bool) (s : str) (x : char) :
  In x (dropwhile p s) -> In x s.
Proof.
  induction s as [|c t IH]; simpl; auto.
  destruct (p c); simpl; auto.
Qed.

Lemma strip_in (s : str) (x : char) : In x (strip s) -> In x s.
Proof.
  unfold strip, rstrip, lstrip. intros H.
  apply in_rev in H. apply dropwhile_in in H. apply in_rev in H.
  now apply dropwhile_in in H.
Qed.

(** The two underline rules are tried on single lines, which hold no
    newline: they match no line of any document. *)
Theorem underline_rules_never_match (content line : str) :
  In line (split_char 10%N content) ->
  re_match BRS.header_underline_eq (strip line) = None
  /\ re_match BRS.header_underline_dash (strip line) = None.
Proof.
  intros H. apply split_char_no_sep in H.
  assert (N : ~ In 10%N (strip line)) by (intros X; apply H, strip_in, X).
  split; apply (newline_needed (Seq _ Eol)); assumption.
Qed.

Lemma underline_rules_never_match_witness :
  let content := py "Introduction" ++ nl ++ py "============" in
  In (py "Introduction") (split_char 10%N content)
  /\ re_match BRS.header_underline_eq (strip (py "Introduction")) = None.
Proof.
  intros content. split; [vm_compute; auto|].
  apply (underline_rules_never_match content).
  vm_compute. auto.
Defined.

(** C7 (the code departs from the claim).  A heading of twelve characters
    underlined with [=]: the analysis returns no header. *)
Theorem underlined_heading_not_found :
  exists a,
    BRS.analyze_document_structure (db := ascii_db)
      (py "Introduction" ++ nl ++ py "============") = Ok a
    /\ BRS.total_lines a = 2
    /\ BRS.headers a = [].
Proof. eexists. split; [vm_compute; reflexivity|]. split; reflexivity. Qed.

(** ** Substitution at the start of the text *)

Lemma flat_map_inl (repl : str) (s : str) :
  flat_map (fun x : char + mstate =>
              match x with inl c => [c] | inr _ => repl end)
           (List.map inl s) = s.
Proof. induction s; simpl; congruence. Qed.

Lemma scan_eq (p : regex) (skip : nat) (before after : str) :
  scan p skip before after =
    let st := start_at before after in
    match skip with
    | S k =>
        match after with
        | [] => []
        | c :: t => scan p k (c :: before) t
        end
    | O =>
        let here := run p st in
        let step_over :=
          match after with
          | [] => []
          | c :: t => inl c :: scan p 0 (c :: before) t
          end in
        let jump (n : nat) :=
          match after with
          | [] => []
          | c :: t => scan p (n - 1) (c :: before) t
          end in
        match here with
        | [] => step_over
        | st1 :: _ =>
            if (consumed st st1 =? 0)%nat
            then inr st1 ::
                 match find (fun st2 => negb (consumed st st2 =? 0)%nat) here with
                 | Some st2 => inr st2 :: jump (consumed st st2)
                 | None => step_over
                 end
            else inr st1 :: jump (consumed st st1)
        end
    end.
Proof. destruct after; reflexivity. Qed.

(** Away from the start of the text a pattern under [^] matches nothing. *)
Lemma scan_off_start (body : regex) (after : str) :
  forall before,
    before <> [] -> scan (Seq Bol body) 0 before after = List.map inl after.
Proof.
  induction after as [|c t IH]; intros before NE; rewrite scan_eq; cbv zeta.
  - simpl. destruct before; [congruence | reflexivity].
  - simpl run. destruct before as [|b bs]; [congruence|]. simpl.
    f_equal. apply IH. discriminate.
Qed.

Lemma scan_skip (p : regex) (n : nat) :
  forall before after,
    n <= len after -> before <> [] \/ 0 < n ->
    exists before',
      before' <> []
      /\ scan p n before after = scan p 0 before' (skipn n after).
Proof.
  induction n as [|n IH]; intros before after L NE.
  - exists before. split; [|reflexivity]. destruct NE; [assumption | lia].
  - destruct after as [|c t]; [simpl in L; lia|].
    rewrite scan_eq. cbv zeta. simpl skipn.
    apply IH; [simpl in L; unfold len in *; lia | left; discriminate].
Qed.

(** [re.sub] of a pattern anchored at the start, with an empty
    replacement: the text loses what the first match takes. *)
Lemma re_sub_cut (p : regex) (s : str) (st1 : mstate) (l : list mstate) :
  (forall before, before <> [] -> forall after,
        scan p 0 before after = List.map inl after) ->
  run p (start_at [] s) = st1 :: l ->
  0 < consumed (start_at [] s) st1 ->
  rest st1 = skipn (consumed (start_at [] s) st1) s ->
  re_sub p [] s = rest st1.
Proof.
  intros Off E Pos R. unfold re_sub. rewrite scan_eq. cbv zeta. rewrite E.
  destruct (Nat.eqb_spec (consumed (start_at [] s) st1) 0) as [Z | _]; [lia|].
  set (n := consumed (start_at [] s) st1) in *.
  simpl flat_map. destruct s as [|c t].
  - subst n. unfold consumed, len in Pos. simpl in Pos. lia.
  - destruct (scan_skip p (n - 1) [c] t) as (before' & NE & ->).
    + subst n. unfold consumed, len. cbn [rest start_at List.length]. lia.
    + left; discriminate.
    + rewrite Off by assumption. rewrite flat_map_inl, R.
      destruct n; [lia|]. simpl. now rewrite Nat.sub_0_r.
Qed.

Lemma re_sub_keep (p : regex) (s : str) :
  (forall before, before <> [] -> forall after,
        scan p 0 before after = List.map inl after) ->
  (run p (start_at [] s) = [] \/ run p (start_at [] s) = [start_at [] s]) ->
  re_sub p [] s = s.
Proof.
  intros Off E. unfold re_sub. rewrite scan_eq. cbv zeta.
  assert (Step : flat_map (fun x : char + mstate =>
                             match x with inl c => [c] | inr _ => [] end)
                          match s with
                          | [] => []
                          | c :: t => inl c :: scan p 0 [c] t
                          end = s).
  { destruct s as [|c t]; [reflexivity|]. rewrite Off by discriminate.
    simpl. now rewrite flat_map_inl. }
  destruct E as [-> | ->]; [exact Step|].
  unfold consumed at 1. rewrite Nat.sub_diag. simpl Nat.eqb. cbv iota.
  simpl find. unfold consumed at 1. rewrite Nat.sub_diag. simpl.
  exact Step.
Qed.

Lemma re_sub_prefix (body : regex) (s : str) :
  0 < min_len body ->
  re_sub (Seq Bol body) [] s
  = match hd_error (run body (start_at [] s)) with
    | Some st1 => rest st1
    | None => s
    end.
Proof.
  intros Pos.
  assert (E : run (Seq Bol body) (start_at [] s) = run body (start_at [] s)).
  { simpl. apply app_nil_r. }
  destruct (run body (start_at [] s)) as [|st1 l] eqn:Eb; simpl hd_error.
  - apply re_sub_keep; [intros; now apply scan_off_start | auto].
  - assert (H : In st1 (run body (start_at [] s))) by (rewrite Eb; simpl; auto).
    apply run_consumed in H as [M R].
    apply (re_sub_cut _ _ st1 l);
      [intros; now apply scan_off_start | assumption | lia | exact R].
Qed.

Lemma re_sub_opt_prefix (body : regex) (s : str) :
  0 < min_len body ->
  re_sub (Seq Bol (Opt body)) [] s
  = match hd_error (run body (start_at [] s)) with
    | Some st1 => rest st1
    | None => s
    end.
Proof.
  intros Pos.
  assert (E : run (Seq Bol (Opt body)) (start_at [] s)
              = run body (start_at [] s) ++ [start_at [] s]).
  { simpl. apply app_nil_r. }
  destruct (run body (start_at [] s)) as [|st1 l] eqn:Eb; simpl hd_error.
  - apply re_sub_keep; [intros; now apply scan_off_start | auto].
  - assert (H : In st1 (run body (start_at [] s))) by (rewrite Eb; simpl; auto).
    apply run_consumed in H as [M R].
    apply (re_sub_cut _ _ st1 (l ++ [start_at [] s]));
      [intros; now apply scan_off_start | assumption | lia | exact R].
Qed.

(** ** First matches on the remaining text *)

Lemma hd_error_app {A} (a b : list A) :
  hd_error (a ++ b) = orelse (hd_error a) (hd_error b).
Proof. destruct a; reflexivity. Qed.

Lemma orelse_none {A} (a : option A) : orelse a None = a.
Proof. destruct a; reflexivity. Qed.

Lemma flat_map_nested {A B C} (f : A -> list B) (g : B -> list C) (l : list A) :
  flat_map g (flat_map f l) = flat_map (fun x => flat_map g (f x)) l.
Proof.
  induction l as [|x l IH]; simpl; auto.
  now rewrite flat_map_app, IH.
Qed.

Lemma flat_map_of_map {A B C} (f : A -> B) (g : B -> list C) (l : list A) :
  flat_map g (List.map f l) = flat_map (fun x => g (f x)) l.
Proof. induction l as [|x l IH]; simpl; congruence. Qed.

Lemma hd_flat_map_first_of {A B} (K : A -> list B) (l : list A) :
  hd_error (flat_map K l) = first_of (fun x => hd_error (K x)) l.
Proof.
  induction l as [|x l IH]; simpl; auto.
  now rewrite hd_error_app, IH.
Qed.

Lemma first_of_ext {A B} (f g : A -> option B) (l : list A) :
  (forall x, f x = g x) -> first_of f l = first_of g l.
Proof. intros E. induction l as [|x l IH]; simpl; congruence. Qed.

Lemma first_of_none {A B} (f : A -> option B) (l : list A) :
  (forall x, In x l -> f x = None) -> first_of f l = None.
Proof.
  induction l as [|x l IH]; simpl; auto.
  intros H. rewrite (H x), IH; auto.
Qed.

(** The head of [run], followed by a continuation that looks at the
    remaining text only, is [first_rest]. *)
Lemma first_rest_run {B} (r : regex) :
  position_free r = true ->
  forall (K : mstate -> list B) (f : str -> option B) (st : mstate),
    (forall x, hd_error (K x) = f (rest x)) ->
    hd_error (flat_map K (run r st)) = first_rest r f (rest st).
Proof.
  induction r; simpl; try discriminate; intros PF K f st HK.
  - rewrite app_nil_r. apply HK.
  - destruct (startswith (rest st) s); simpl; [|reflexivity].
    rewrite app_nil_r. apply HK.
  - destruct (rest st) as [|c t] eqn:E; [reflexivity|].
    destruct (p c); simpl; [|reflexivity].
    rewrite app_nil_r, HK. simpl. now rewrite E.
  - apply andb_true_iff in PF as [Pa Pb].
    rewrite flat_map_nested. apply IHr1; [assumption|].
    intros x. now apply IHr2.
  - apply andb_true_iff in PF as [Pa Pb].
    rewrite flat_map_app, hd_error_app.
    now rewrite (IHr1 Pa K f st HK), (IHr2 Pb K f st HK).
  - rewrite flat_map_app, hd_error_app. rewrite (IHr PF K f st HK).
    simpl. now rewrite app_nil_r, HK.
  - rewrite flat_map_of_map, hd_flat_map_first_of.
    apply first_of_ext. intros k. apply HK.
  - rewrite flat_map_of_map. apply IHr; [assumption|].
    intros x. exact (HK _).
  - destruct (rest st) as [|c [|d t]] eqn:E; simpl.
    + now rewrite app_nil_r, HK, E.
    + destruct (c =? 10)%N; simpl; [|reflexivity].
      now rewrite app_nil_r, HK, E.
    + reflexivity.
Qed.

Lemma hd_run_rest (r : regex) (st : mstate) (s : str) :
  position_free r = true ->
  match hd_error (run r st) with
  | Some st1 => rest st1
  | None => s
  end
  = match first_rest r Some (rest st) with
    | Some t => t
    | None => s
    end.
Proof.
  intros PF.
  rewrite <- (first_rest_run r PF (fun x => [rest x]) Some st)
    by reflexivity.
  destruct (run r st) as [|st1 l]; reflexivity.
Qed.

Lemma first_rest_ext {A} (r : regex) :
  forall (f g : str -> option A) (s : str),
    (forall t, f t = g t) -> first_rest r f s = first_rest r g s.
Proof.
  induction r; simpl; intros f g t E.
  - apply E.
  - destruct (startswith t s); auto.
  - destruct t as [|c t]; auto. destruct (p c); auto.
  - apply IHr1. intros u. now apply IHr2.
  - now rewrite (IHr1 f g t E), (IHr2 f g t E).
  - now rewrite (IHr f g t E), E.
  - apply first_of_ext. intros k. apply E.
  - now apply IHr.
  - reflexivity.
  - destruct t as [|c [|d t]]; auto. destruct (c =? 10)%N; auto.
  - reflexivity.
Qed.

(** Whitespace *)

Lemma skipn_takewhile (p : char -> bool) (s : str) :
  skipn (len (takewhile p s)) s = dropwhile p s.
Proof.
  induction s as [|c t IH]; simpl; auto.
  destruct (p c); simpl; auto.
Qed.

Lemma skipn_inside_run (p : char -> bool) (s : str) :
  forall k, k < len (takewhile p s) ->
            exists c t, skipn k s = c :: t /\ p c = true.
Proof.
  induction s as [|c t IH]; simpl; intros k L; [lia|].
  destruct (p c) eqn:E; simpl in L; [|lia].
  destruct k as [|k]; simpl; eauto.
  apply IH. unfold len in *. lia.
Qed.

Lemma after_spaces_run (s : str) :
  after_spaces s
  = match len (takewhile isspace s) with
    | O => None
    | S _ => Some (dropwhile isspace s)
    end.
Proof.
  destruct s as [|c t]; simpl; auto. destruct (isspace c); reflexivity.
Qed.

Lemma first_rest_ws1 {A} (f : str -> option A) (s : str) :
  first_rest BRS.ws1 f s
  = match len (takewhile isspace s) with
    | O => None
    | S m => orelse (f (dropwhile isspace s))
                    (first_of (fun k => f (skipn k s)) (rev (seq 1 m)))
    end.
Proof.
  unfold BRS.ws1, plus. simpl. unfold run_len, counts.
  destruct (len (takewhile isspace s)) as [|m] eqn:E; [reflexivity|].
  rewrite Nat.add_sub, seq_S, rev_app_distr.
  change (1 + m) with (S m). cbn [rev app first_of].
  now rewrite <- E, skipn_takewhile.
Qed.

(** The last whitespace of a pattern takes the whole run. *)
Lemma first_rest_ws1_last (s : str) :
  first_rest BRS.ws1 Some s = after_spaces s.
Proof.
  rewrite first_rest_ws1, after_spaces_run.
  destruct (len (takewhile isspace s)); reflexivity.
Qed.

(** Whitespace before something that cannot start with whitespace takes
    the whole run too. *)
Lemma first_rest_ws1_then {A} (f : str -> option A) (s : str) :
  (forall c t, isspace c = true -> f (c :: t) = None) ->
  first_rest BRS.ws1 f s = and_then (after_spaces s) f.
Proof.
  intros Hf. rewrite first_rest_ws1, after_spaces_run.
  destruct (len (takewhile isspace s)) as [|m] eqn:E; [reflexivity|].
  simpl. rewrite first_of_none; [apply orelse_none|].
  intros k Hk. apply in_rev, in_seq in Hk.
  destruct (skipn_inside_run isspace s k) as (c & t & -> & Hc); [lia|].
  now apply Hf.
Qed.

(** ** The three stripping rules *)

Lemma orelse_assoc {A} (a b c : option A) :
  orelse (orelse a b) c = orelse a (orelse b c).
Proof. destruct a; reflexivity. Qed.

Lemma orelse_again {A} (a b : option A) :
  orelse a (orelse b a) = orelse a (orelse b None).
Proof. destruct a, b; reflexivity. Qed.

Lemma and_then_assoc {A B C} (o : option A) (f : A -> option B)
      (g : B -> option C) :
  and_then (and_then o f) g = and_then o (fun x => and_then (f x) g).
Proof. destruct o; reflexivity. Qed.

Lemma and_then_orelse {A B} (o : option A) (f g : A -> option B) :
  and_then o (fun x => orelse (f x) (g x))
  = orelse (and_then o f) (and_then o g).
Proof. destruct o; reflexivity. Qed.

Lemma and_then_ext {A B} (o : option A) (f g : A -> option B) :
  (forall x, f x = g x) -> and_then o f = and_then o g.
Proof. intros E. destruct o; simpl; auto. Qed.

Lemma startswith_app (s a b : str) :
  startswith s (a ++ b) = startswith s a && startswith (skipn (len a) s) b.
Proof.
  revert s; induction a as [|x a IH]; intros [|y s]; simpl; auto.
  rewrite IH. now rewrite andb_assoc.
Qed.

Lemma after_word_app (a b s : str) :
  after_word (a ++ b) s = and_then (after_word a s) (after_word b).
Proof.
  unfold after_word. rewrite startswith_app.
  destruct (startswith s a); simpl; [|reflexivity].
  unfold after_word, len.
  now rewrite length_app, skipn_skipn, (Nat.add_comm (List.length b)).
Qed.

Lemma first_rest_lit {A} (w : str) (f : str -> option A) (s : str) :
  first_rest (Lit w) f s = and_then (after_word w s) f.
Proof. simpl. unfold after_word. destruct (startswith s w); reflexivity. Qed.

Lemma first_rest_alt {A} (a b : regex) (f : str -> option A) (s : str) :
  first_rest (Alt a b) f s = orelse (first_rest a f s) (first_rest b f s).
Proof. reflexivity. Qed.

Lemma first_rest_seq {A} (a b : regex) (f : str -> option A) (s : str) :
  first_rest (Seq a b) f s = first_rest a (first_rest b f) s.
Proof. reflexivity. Qed.

Lemma first_rest_lits {A} (ws : list string) (f : str -> option A) (s : str) :
  ws <> [] ->
  first_rest (BRS.lits ws) f s
  = first_of (fun w => and_then (after_word w s) f) (List.map py ws).
Proof.
  unfold BRS.lits. induction ws as [|w ws IH]; [congruence|]. intros _.
  destruct ws as [|w2 ws].
  - cbn [List.map alts first_of]. now rewrite first_rest_lit, orelse_none.
  - change (alts (List.map (fun w => Lit (py w)) (w :: w2 :: ws)))
      with (Alt (Lit (py w)) (alts (List.map (fun w => Lit (py w)) (w2 :: ws)))).
    change (List.map py (w :: w2 :: ws)) with (py w :: List.map py (w2 :: ws)).
    cbn [first_rest first_of]. f_equal.
    + exact (first_rest_lit (py w) f s).
    + apply IH. discriminate.
Qed.

Lemma first_rest_lit_opt {A} (w c : string) (f : str -> option A) (s : str) :
  first_rest (BRS.lit_opt w c) f s
  = orelse (and_then (after_word (py w ++ py c) s) f)
           (and_then (after_word (py w) s) f).
Proof.
  unfold BRS.lit_opt.
  change (first_rest (Seq (Lit (py w)) (Opt (Lit (py c)))) f s)
    with (first_rest (Lit (py w))
            (fun t => orelse (first_rest (Lit (py c)) f t) (f t)) s).
  rewrite first_rest_lit, after_word_app, and_then_assoc, <- and_then_orelse.
  apply and_then_ext. intros t. now rewrite first_rest_lit.
Qed.

(** A word that does not start with whitespace is not found where the text
    starts with whitespace. *)
Lemma after_word_at_space (w : str) (c : char) (t : str) :
  starts_plain w = true -> isspace c = true -> after_word w (c :: t) = None.
Proof.
  destruct w as [|x w]; simpl; [discriminate|]. intros Hx Hc.
  unfold after_word. simpl.
  destruct (N.eqb_spec x c) as [-> | _]; [|reflexivity].
  rewrite Hc in Hx. discriminate.
Qed.

Lemma first_word_at_space {A} (ws : list str) (g : str -> str -> option A)
      (c : char) (t : str) :
  forallb starts_plain ws = true -> isspace c = true ->
  first_of (fun w => and_then (after_word w (c :: t)) (g w)) ws = None.
Proof.
  intros Hws Hc. apply first_of_none. intros w Hw.
  rewrite forallb_forall in Hws. now rewrite after_word_at_space by auto.
Qed.

Lemma after_modal_at_space (c : char) (t : str) :
  isspace c = true -> after_modal (c :: t) = None.
Proof.
  intros Hc. unfold after_modal, after_word_spaces.
  now apply (first_word_at_space modal_words (fun _ => after_spaces)).
Qed.

Lemma after_subject_modal_at_space (c : char) (t : str) :
  isspace c = true -> after_subject_modal (c :: t) = None.
Proof.
  intros Hc. unfold after_subject_modal, after_word_spaces.
  apply first_of_none. intros w Hw.
  rewrite after_word_at_space; auto.
  revert w Hw. apply forallb_forall. reflexivity.
Qed.

(** modal word, whitespace *)
Lemma modal_rest (s : str) :
  first_rest (Seq (BRS.lits ["can"; "should"; "must"; "will"; "shall"]%string)
                  BRS.ws1) Some s
  = after_modal s.
Proof.
  cbn [first_rest].
  rewrite (first_rest_ext _ _ after_spaces) by apply first_rest_ws1_last.
  now rewrite first_rest_lits by discriminate.
Qed.

(** whitespace, modal word, whitespace *)
Lemma spaces_modal_rest (s : str) :
  first_rest
    (Seq BRS.ws1
         (Seq (BRS.lits ["can"; "should"; "must"; "will"; "shall"]%string)
              BRS.ws1)) Some s
  = and_then (after_spaces s) after_modal.
Proof.
  change (first_rest BRS.ws1
            (first_rest
               (Seq (BRS.lits ["can"; "should"; "must"; "will"; "shall"]%string)
                    BRS.ws1) Some) s
          = and_then (after_spaces s) after_modal).
  rewrite (first_rest_ext _ _ after_modal) by apply modal_rest.
  apply first_rest_ws1_then. intros c t. apply after_modal_at_space.
Qed.

Lemma subject_modal_rest (s : str) :
  first_rest subject_modal_body Some s = after_subject_modal s.
Proof.
  unfold subject_modal_body. cbn [seqs].
  change (first_rest
            (alts [Lit (py "system"); Lit (py "application"); Lit (py "user");
                   BRS.lit_opt "user" "s"])
            (first_rest
               (Seq BRS.ws1
                    (Seq (BRS.lits ["can"; "should"; "must"; "will"; "shall"]%string)
                         BRS.ws1)) Some) s
          = after_subject_modal s).
  rewrite (first_rest_ext _ _ (fun t => and_then (after_spaces t) after_modal))
    by apply spaces_modal_rest.
  cbn [alts]. rewrite !first_rest_alt, first_rest_lit_opt, !first_rest_lit.
  change (py "user" ++ py "s") with (py "users").
  rewrite orelse_again.
  unfold after_subject_modal, subject_words, after_word_spaces.
  cbn [List.map first_of]. rewrite !and_then_assoc. reflexivity.
Qed.

Lemma subject_rest (s : str) :
  first_rest (Seq (Opt (Seq (Lit (py "the")) BRS.ws1)) subject_modal_body) Some s
  = orelse (and_then (after_word_spaces (py "the") s) after_subject_modal)
           (after_subject_modal s).
Proof.
  rewrite first_rest_seq.
  rewrite (first_rest_ext _ _ after_subject_modal) by apply subject_modal_rest.
  change (first_rest (Opt (Seq (Lit (py "the")) BRS.ws1)) after_subject_modal s)
    with (orelse (first_rest (Lit (py "the"))
                    (first_rest BRS.ws1 after_subject_modal) s)
                 (after_subject_modal s)).
  rewrite first_rest_lit. unfold after_word_spaces. rewrite and_then_assoc.
  rewrite (and_then_ext _ (first_rest BRS.ws1 after_subject_modal)
             (fun t => and_then (after_spaces t) after_subject_modal));
    [reflexivity|].
  intros t. apply first_rest_ws1_then. intros c u.
  apply after_subject_modal_at_space.
Qed.

Lemma verb_rest (s : str) :
  first_rest verb_body Some s
  = first_of (fun verb => after_word_spaces verb s) verb_words.
Proof.
  unfold verb_body. rewrite first_rest_seq.
  rewrite (first_rest_ext _ _ after_spaces) by apply first_rest_ws1_last.
  cbn [alts]. rewrite !first_rest_alt, !first_rest_lit_opt.
  rewrite !orelse_assoc.
  unfold verb_words, after_word_spaces. cbn [List.map first_of].
  rewrite orelse_none. reflexivity.
Qed.

Lemma to_rest (s : str) :
  first_rest (Seq (Lit (py "to")) BRS.ws1) Some s
  = after_word_spaces (py "to") s.
Proof.
  rewrite first_rest_seq.
  rewrite (first_rest_ext _ _ after_spaces) by apply first_rest_ws1_last.
  apply first_rest_lit.
Qed.

(** Rule 1 *)
Lemma re_sub_subject_prefix (s : str) :
  re_sub BRS.subject_prefix [] s = strip_subject s.
Proof.
  change BRS.subject_prefix
    with (Seq Bol (Seq (Opt (Seq (Lit (py "the")) BRS.ws1)) subject_modal_body)).
  rewrite re_sub_prefix by (vm_compute; lia).
  rewrite hd_run_rest by reflexivity.
  change (rest (start_at [] s)) with s. now rewrite subject_rest.
Qed.

(** Rule 2 *)
Lemma re_sub_verb_prefix (s : str) :
  re_sub BRS.verb_prefix [] s = strip_verb s.
Proof.
  change BRS.verb_prefix with (Seq Bol verb_body).
  rewrite re_sub_prefix by (vm_compute; lia).
  rewrite hd_run_rest by reflexivity.
  change (rest (start_at [] s)) with s. now rewrite verb_rest.
Qed.

(** Rule 3 *)
Lemma re_sub_to_prefix (s : str) :
  re_sub BRS.to_prefix [] s = strip_to s.
Proof.
  change BRS.to_prefix
    with (Seq Bol (Opt (Seq (Lit (py "to")) BRS.ws1))).
  rewrite re_sub_opt_prefix by (vm_compute; lia).
  rewrite hd_run_rest by reflexivity.
  change (rest (start_at [] s)) with s. now rewrite to_rest.
Qed.

(** C9 (amended).  The action is the lower-cased phrase with each of the
    three stripping rules applied once, in order, then trimmed, without
    one trailing period, and the lower-cased phrase itself when nothing is
    left. *)
Theorem action_rules_applied_once {db : UnicodeDb} (requirement : str) :
  BRS.extract_action_from_requirement requirement
  = action_once (lower requirement).
Proof.
  unfold BRS.extract_action_from_requirement, action_once, drop_period.
  rewrite re_sub_subject_prefix, re_sub_verb_prefix, re_sub_to_prefix.
  destruct (if endswith _ _ then _ else _); reflexivity.
Qed.

(** C9 as stated fails: the action derived from [to to run] is [to run],
    which the third rule still matches and would shorten again. *)
Lemma action_rules_not_repeated_counterexample :
  BRS.extract_action_from_requirement (db := ascii_db) (py "to to run")
  = py "to run"
  /\ re_sub BRS.to_prefix [] (py "to run") = py "run"
  /\ py "run" <> py "to run".
Proof. vm_compute. repeat split; discriminate. Qed.

(** ** The all-caps header rule *)

Section CapsHeader.
Context {db : UnicodeDb}.

Lemma group1_after_match (p : regex) (line : str) (m : mstate) :
  groups_always p = true -> re_match p line = Some m ->
  exists g, group1 p m = Ok g.
Proof.
  intros G H. apply (group1_after_run p (start_at [] line)); [assumption|].
  unfold re_match in H. destruct (run p (start_at [] line)); [discriminate|].
  injection H as <-. simpl; auto.
Qed.

(** One line either yields a result or raises [IndexError]. *)
Lemma header_of_line_cases (line : str) :
  (exists h, BRS.header_of_line BRS.header_patterns line = Ok h)
  \/ BRS.header_of_line BRS.header_patterns line = Raise IndexError.
Proof.
  unfold BRS.header_patterns. cbn [BRS.header_of_line].
  repeat
    match goal with
    | |- context [match re_match ?p line with _ => _ end] =>
        let E := fresh "E" in
        destruct (re_match p line) eqn:E;
        [ first
            [ destruct (group1_after_match p line _ eq_refl E) as [g ->];
              cbn [bind]; destruct (_ && _); eauto
            | right; reflexivity ]
        | ]
    end.
  eauto.
Qed.

Lemma find_headers_raises (lines : list str) (l : str) :
  In l lines ->
  strip l <> [] ->
  BRS.header_of_line BRS.header_patterns (strip l) = Raise IndexError ->
  forall found, BRS.find_headers lines found = Raise IndexError.
Proof.
  intros Hin NE Hl. induction lines as [|l0 later IH]; [destruct Hin|].
  intros found. cbn [BRS.find_headers].
  destruct (strip l0) as [|c t] eqn:E0.
  - destruct Hin as [-> | Hin]; [congruence | now apply IH].
  - rewrite <- E0.
    destruct (header_of_line_cases (strip l0)) as [[h Hh] | Hr].
    + rewrite Hh. cbn [bind].
      destruct Hin as [-> | Hin]; [congruence|].
      destruct h; now apply IH.
    + rewrite Hr. reflexivity.
Qed.

End CapsHeader.

(** A line that only the all-caps rule matches makes the whole analysis
    raise [IndexError]: that rule has no group, and the loop asks for
    [group(1)]. *)
Theorem analysis_raises_on_caps_header
        {db : UnicodeDb} (content l : str) (m : mstate) :
  In l (split_char 10%N content) ->
  re_match BRS.header_markdown (strip l) = None ->
  re_match BRS.header_numbered (strip l) = None ->
  re_match BRS.header_caps (strip l) = Some m ->
  BRS.analyze_document_structure content = Raise IndexError.
Proof.
  intros Hin H1 H2 H3. unfold BRS.analyze_document_structure.
  rewrite (find_headers_raises (split_char 10%N content) l); auto.
  - intros E. rewrite E in H3. discriminate.
  - unfold BRS.header_patterns. cbn [BRS.header_of_line].
    rewrite H1, H2, H3. reflexivity.
Qed.

Lemma analysis_raises_on_caps_header_witness :
  BRS.analyze_document_structure (db := ascii_db)
    (py "INTRODUCTION" ++ nl ++ py "The system shall export reports.")
  = Raise IndexError.
Proof.
  destruct (re_match BRS.header_caps (strip (py "INTRODUCTION"))) as [m|] eqn:E;
    [|vm_compute in E; discriminate].
  apply (analysis_raises_on_caps_header (db := ascii_db) _ (py "INTRODUCTION") m);
    [vm_compute; auto | vm_compute; reflexivity | vm_compute; reflexivity
    | exact E].
Defined.

(** ** Further properties of the analysis and of the deriver *)

(** The benefit clause is always produced: no pattern of
    [benefit_patterns] lacks its group. *)
Theorem benefit_never_raises {db : UnicodeDb} (requirement : str) :
  exists benefit,
    BRS.extract_benefit_from_requirement requirement = Ok benefit.
Proof. eexists. apply extract_benefit_ok. Qed.

(** The estimate is the number of requirement lines clamped to 3..15, and
    the tier is High above 20 lines, Low below 5 and Medium between. *)
Theorem estimate_and_tier
        {db : UnicodeDb} (content : str) (a : BRS.analysis) :
  BRS.analyze_document_structure content = Ok a ->
  let n := List.length (BRS.requirements a) in
  BRS.estimated_stories a = Nat.min (Nat.max n 3) 15
  /\ 3 <= BRS.estimated_stories a <= 15
  /\ BRS.complexity_level a
     = (if (20 <? n)%nat then py "High"
        else if (n <? 5)%nat then py "Low" else py "Medium").
Proof.
  unfold BRS.analyze_document_structure.
  destruct (BRS.find_headers (split_char 10%N content) []); cbn [bind];
    [|discriminate].
  intros [= <-]. cbn [BRS.requirements BRS.estimated_stories BRS.complexity_level].
  repeat split; lia.
Qed.

Lemma estimate_and_tier_witness :
  exists a,
    BRS.analyze_document_structure (db := ascii_db)
      (py "The system shall export monthly reports") = Ok a
    /\ BRS.estimated_stories a = 3
    /\ BRS.complexity_level a = py "Low".
Proof.
  eexists. split; [vm_compute; reflexivity|].
  destruct (estimate_and_tier (db := ascii_db)
              (py "The system shall export monthly reports") _ eq_refl)
    as (E & _ & T).
  split; [exact E | exact T].
Defined.

(** * Properties of the profile, the pipeline and the tools *)

(** ** When the analysis returns *)

Section AnalysisReturns.
Context {db : UnicodeDb}.

Lemma header_of_line_ok (line : str) :
  (re_match BRS.header_markdown line = None ->
   re_match BRS.header_numbered line = None ->
   re_match BRS.header_caps line = None) ->
  exists h, BRS.header_of_line BRS.header_patterns line = Ok h.
Proof.
  intros H. unfold BRS.header_patterns. cbn [BRS.header_of_line].
  destruct (re_match BRS.header_markdown line) as [m|] eqn:E1.
  { destruct (group1_after_match BRS.header_markdown line m eq_refl E1) as [g ->].
    cbn [bind]. destruct (_ && _); eauto. }
  destruct (re_match BRS.header_numbered line) as [m|] eqn:E2.
  { destruct (group1_after_match BRS.header_numbered line m eq_refl E2) as [g ->].
    cbn [bind]. destruct (_ && _); eauto. }
  rewrite H by reflexivity.
  destruct (re_match BRS.header_underline_eq line) as [m|] eqn:E4.
  { destruct (group1_after_match BRS.header_underline_eq line m eq_refl E4) as [g ->].
    cbn [bind]. destruct (_ && _); eauto. }
  destruct (re_match BRS.header_underline_dash line) as [m|] eqn:E5.
  { destruct (group1_after_match BRS.header_underline_dash line m eq_refl E5) as [g ->].
    cbn [bind]. destruct (_ && _); eauto. }
  eauto.
Qed.

Lemma find_headers_ok (lines : list str) :
  (forall l, In l lines ->
             exists h, BRS.header_of_line BRS.header_patterns (strip l) = Ok h) ->
  forall found, exists hs, BRS.find_headers lines found = Ok hs.
Proof.
  induction lines as [|l later IH]; intros H found; cbn [BRS.find_headers];
    [eauto|].
  assert (Hl : forall l', In l' later ->
                 exists h, BRS.header_of_line BRS.header_patterns (strip l') = Ok h)
    by (intros; apply H; simpl; auto).
  destruct (strip l) as [|c t] eqn:E; [now apply IH|].
  rewrite <- E. destruct (H l) as [h ->]; [simpl; auto|].
  cbn [bind]. destruct h; now apply IH.
Qed.

End AnalysisReturns.

(** The analysis returns a profile exactly when no line is reached by the
    all-caps rule, that is, matched by it and by neither rule before it. *)
Theorem analysis_returns_iff_no_caps_header {db : UnicodeDb} (content : str) :
  (exists a, BRS.analyze_document_structure content = Ok a)
  <-> (forall l,
          In l (split_char 10%N content) ->
          re_match BRS.header_markdown (strip l) = None ->
          re_match BRS.header_numbered (strip l) = None ->
          re_match BRS.header_caps (strip l) = None).
Proof.
  split.
  - intros [a Ha] l Hin H1 H2.
    destruct (re_match BRS.header_caps (strip l)) as [m|] eqn:H3; [|reflexivity].
    exfalso. apply analyze_headers in Ha.
    rewrite (find_headers_raises (split_char 10%N content) l) in Ha;
      [discriminate | assumption | |].
    + intros E. rewrite E in H3. discriminate.
    + unfold BRS.header_patterns. cbn [BRS.header_of_line].
      rewrite H1, H2, H3. reflexivity.
  - intros H. unfold BRS.analyze_document_structure.
    destruct (find_headers_ok (split_char 10%N content)) with (found := @nil str)
      as [hs ->].
    + intros l Hl. apply header_of_line_ok. now apply H.
    + cbn [bind]. eauto.
Qed.

Lemma analysis_returns_iff_no_caps_header_witness :
  exists a,
    BRS.analyze_document_structure (db := ascii_db)
      (py "# Release notes" ++ nl ++ py "The system shall export reports")
    = Ok a.
Proof.
  apply (proj2 (analysis_returns_iff_no_caps_header (db := ascii_db)
                  (py "# Release notes" ++ nl
                   ++ py "The system shall export reports"))).
  intros l Hl. vm_compute in Hl.
  destruct Hl as [<- | [<- | []]]; intros _ _; vm_compute; reflexivity.
Defined.

(** ** The requirement lines of a profile *)







(** The analysis of a document with an all-caps line returns no
    requirement line at all, although the line holds a keyword. *)
Example all_caps_requirement_line :
  BRS.analyze_document_structure (db := ascii_db)
    (py "THE SYSTEM SHALL EXPORT REPORTS")
  = Raise IndexError
  /\ requirement_lines_of (db := ascii_db) (py "THE SYSTEM SHALL EXPORT REPORTS")
     = [py "THE SYSTEM SHALL EXPORT REPORTS"].
Proof. vm_compute. split; reflexivity. Qed.

(** ** The roles of a profile *)

Lemma str_mem_in (x : str) (xs : list str) : str_mem x xs = true <-> In x xs.
Proof.
  unfold str_mem. rewrite existsb_exists. split.
  - intros (y & Hy & E). apply str_eqb_eq in E. now subst.
  - intros H. exists x. split; [assumption | now apply str_eqb_eq].
Qed.

Lemma add_role_keeps (roles : list str) (found : str) :
  NoDup roles /\ Forall role_ok roles ->
  NoDup (BRS.add_role roles found) /\ Forall role_ok (BRS.add_role roles found).
Proof.
  intros [ND F]. unfold BRS.add_role.
  destruct (negb (len (strip found) =? 0)) eqn:E1; [|auto].
  destruct (Nat.ltb_spec (len (strip found)) 20) as [E2|]; [|auto].
  destruct (str_mem (strip found) _) eqn:E3; [auto|].
  destruct (str_mem (strip found) roles) eqn:E4; simpl; [auto|].
  split.
  - apply NoDup_app; [assumption | repeat constructor; auto | ].
    intros x Hx [<- | []].
    apply str_mem_in in Hx. exact (eq_true_false_abs _ Hx E4).
  - apply Forall_app. split; [assumption|]. constructor; [|constructor].
    repeat split.
    + intros E. rewrite E in E1. discriminate.
    + assumption.
    + intros H. apply str_mem_in in H. exact (eq_true_false_abs _ H E3).
Qed.

Lemma fold_add_role_keeps (founds roles : list str) :
  NoDup roles /\ Forall role_ok roles ->
  NoDup (fold_left BRS.add_role founds roles)
  /\ Forall role_ok (fold_left BRS.add_role founds roles).
Proof.
  revert roles; induction founds as [|f fs IH]; intros roles H; simpl; auto.
  apply IH, add_role_keeps, H.
Qed.

Lemma find_roles_keeps {db : UnicodeDb} (content_lower : str) :
  NoDup (BRS.find_roles content_lower)
  /\ Forall role_ok (BRS.find_roles content_lower).
Proof.
  unfold BRS.find_roles.
  assert (G : forall patterns roles,
             NoDup roles /\ Forall role_ok roles ->
             NoDup (fold_left
                      (fun roles pattern =>
                         fold_left BRS.add_role (re_findall pattern content_lower) roles)
                      patterns roles)
             /\ Forall role_ok
                  (fold_left
                     (fun roles pattern =>
                        fold_left BRS.add_role (re_findall pattern content_lower) roles)
                     patterns roles)).
  { induction patterns as [|p ps IH]; intros roles H; simpl; auto.
    apply IH, fold_add_role_keeps, H. }
  apply G. split; constructor.
Qed.

Lemma common_roles_ok : NoDup BRS.common_roles /\ Forall role_ok BRS.common_roles.
Proof.
  split.
  - repeat constructor; vm_compute; intuition discriminate.
  - repeat constructor; vm_compute; try lia; intuition discriminate.
Qed.

Lemma analyze_roles {db : UnicodeDb} (content : str) (a : BRS.analysis) :
  BRS.analyze_document_structure content = Ok a ->
  BRS.user_roles a
  = match BRS.find_roles (lower content) with
    | [] => filter (fun role => str_in role (lower content)) BRS.common_roles
    | _ :: _ => BRS.find_roles (lower content)
    end.
Proof.
  unfold BRS.analyze_document_structure.
  destruct (BRS.find_headers (split_char 10%N content) []); cbn [bind];
    [|discriminate].
  intros [= <-]. reflexivity.
Qed.

(** The roles are distinct, non-empty, shorter than 20 characters, and
    never one of the generic words user, system and application. *)
Theorem user_roles_distinct_and_specific
        {db : UnicodeDb} (content : str) (a : BRS.analysis) :
  BRS.analyze_document_structure content = Ok a ->
  NoDup (BRS.user_roles a)
  /\ Forall (fun role =>
               role <> [] /\ len role < 20
               /\ ~ In role [py "user"; py "system"; py "application"])
            (BRS.user_roles a).
Proof.
  intros H. rewrite (analyze_roles content a H).
  destruct (find_roles_keeps (lower content)) as [ND F].
  destruct (BRS.find_roles (lower content)) as [|r rs] eqn:E.
  - destruct common_roles_ok as [ND' F']. split.
    + now apply NoDup_filter.
    + apply Forall_forall. intros x Hx. apply filter_In in Hx as [Hx _].
      rewrite Forall_forall in F'. now apply F'.
  - split; assumption.
Qed.

Lemma user_roles_distinct_and_specific_witness :
  exists a,
    BRS.analyze_document_structure (db := ascii_db)
      (py "As an auditor I want to review changes. The auditor can export logs. User can log in.")
    = Ok a
    /\ BRS.user_roles a = [py "auditor i"; py "the auditor"]
    /\ NoDup (BRS.user_roles a).
Proof.
  eexists. split; [vm_compute; reflexivity|]. split; [reflexivity|].
  apply (user_roles_distinct_and_specific (db := ascii_db)
           (py "As an auditor I want to review changes. The auditor can export logs. User can log in.")).
  vm_compute. reflexivity.
Defined.

(** ** Counts of a profile *)

Lemma split_char_length (sep : char) (s : str) :
  List.length (split_char sep s) = S (count_occ N.eq_dec s sep).
Proof.
  induction s as [|c t IH]; simpl; [reflexivity|].
  destruct (N.eqb_spec c sep) as [-> | NE].
  - destruct (N.eq_dec sep sep); [|congruence]. simpl. now rewrite IH.
  - destruct (N.eq_dec c sep); [congruence|].
    destruct (split_char sep t); simpl in *; [discriminate | assumption].
Qed.

Lemma split_ws_go_length (s cur : str) :
  List.length (split_ws_go cur s) <= len s + (match cur with [] => 0 | _ => 1 end).
Proof.
  revert cur; induction s as [|c t IH]; intros cur; simpl.
  - destruct cur; simpl; lia.
  - destruct (isspace c).
    + destruct cur; simpl; specialize (IH []); simpl in IH; unfold len in *; lia.
    + specialize (IH (c :: cur)). simpl in IH. unfold len in *.
      destruct cur; lia.
Qed.

Lemma find_headers_length {db : UnicodeDb} (lines : list str) :
  forall found hs,
    BRS.find_headers lines found = Ok hs ->
    List.length hs <= List.length found + List.length lines.
Proof.
  induction lines as [|l later IH]; intros found hs; cbn [BRS.find_headers].
  - intros [= <-]. simpl. lia.
  - destruct (strip l) as [|c t].
    + intros H. apply IH in H. simpl. lia.
    + destruct (BRS.header_of_line BRS.header_patterns (c :: t)) as [[h|]|];
        cbn [bind]; try discriminate; intros H; apply IH in H;
        rewrite ?length_app in H; simpl in *; lia.
Qed.

Lemma find_requirements_length {db : UnicodeDb} (lines : list str) :
  forall found,
    List.length (BRS.find_requirements lines found)
    <= List.length found + List.length lines.
Proof.
  induction lines as [|l later IH]; intros found; simpl; [lia|].
  destruct (BRS.requirement_line l).
  - specialize (IH (found ++ [s])). rewrite length_app in IH. simpl in IH. lia.
  - specialize (IH found). lia.
Qed.

(** A document has one line more than it has newline characters, even
    when it is empty; it has no more words than characters, and no more
    headers or requirement lines than lines. *)
Theorem profile_counts {db : UnicodeDb} (content : str) (a : BRS.analysis) :
  BRS.analyze_document_structure content = Ok a ->
  BRS.total_lines a = S (count_occ N.eq_dec content 10%N)
  /\ BRS.total_chars a = len content
  /\ BRS.total_words a <= BRS.total_chars a
  /\ List.length (BRS.headers a) <= BRS.total_lines a
  /\ List.length (BRS.requirements a) <= BRS.total_lines a.
Proof.
  intros H.
  pose proof (find_headers_length _ _ _ (analyze_headers content a H)) as Hh.
  pose proof (find_requirements_length (split_char 10%N content) []) as Hr.
  rewrite <- (analyze_requirements content a H) in Hr.
  assert (E : BRS.total_lines a = List.length (split_char 10%N content)
              /\ BRS.total_chars a = len content
              /\ BRS.total_words a = List.length (split_ws content)).
  { revert H. unfold BRS.analyze_document_structure.
    destruct (BRS.find_headers (split_char 10%N content) []); cbn [bind];
      [|discriminate].
    intros [= <-]. repeat split. }
  destruct E as (-> & -> & ->). simpl in Hh, Hr.
  repeat split; auto.
  - apply split_char_length.
  - pose proof (split_ws_go_length content []). unfold split_ws. simpl in *. lia.
Qed.

Lemma profile_counts_witness :
  exists a,
    BRS.analyze_document_structure (db := ascii_db) [] = Ok a
    /\ BRS.total_lines a = 1 /\ BRS.total_chars a = 0.
Proof.
  eexists. split; [vm_compute; reflexivity|].
  destruct (profile_counts (db := ascii_db) [] _ eq_refl) as (L & C & _).
  split; [exact L | exact C].
Defined.

(** ** The feature focus *)

Lemma split_char_plain (sep : char) (s : str) :
  ~ In sep s -> split_char sep s = [s].
Proof.
  induction s as [|c t IH]; simpl; intros H; [reflexivity|].
  destruct (N.eqb_spec c sep) as [-> | _]; [tauto|].
  rewrite IH by tauto. reflexivity.
Qed.

Lemma split_char_app (sep : char) (s t : str) :
  ~ In sep s -> split_char sep (s ++ sep :: t) = s :: split_char sep t.
Proof.
  induction s as [|c s IH]; simpl; intros H.
  - now rewrite N.eqb_refl.
  - destruct (N.eqb_spec c sep) as [-> | _]; [tauto|].
    rewrite IH by tauto. reflexivity.
Qed.

(** Joining lines with the separator and splitting again gives the lines
    back. *)
Lemma split_join (sep : char) (ls : list str) :
  ls <> [] -> Forall (fun l => ~ In sep l) ls ->
  split_char sep (join [sep] ls) = ls.
Proof.
  induction ls as [|l ls IH]; [congruence|]. intros _ F.
  inversion_clear F as [|? ? Hl Hls]. destruct ls as [|l2 ls].
  - simpl. now apply split_char_plain.
  - change (join [sep] (l :: l2 :: ls)) with (l ++ sep :: join [sep] (l2 :: ls)).
    rewrite split_char_app by assumption. f_equal. apply IH; [discriminate | assumption].
Qed.

Section Focus.
Context {db : UnicodeDb}.

Lemma requirements_of_line_focus (feature_focus l : str) :
  feature_focus <> [] ->
  BRS.requirements_of_line feature_focus l
  = if mentions feature_focus l then BRS.requirements_of_line [] l else Ok [].
Proof.
  intros NE. unfold BRS.requirements_of_line, mentions.
  destruct (_ || _); [now destruct (str_in _ _)|].
  destruct feature_focus as [|c t]; [congruence|].
  cbn [len List.length Nat.eqb negb andb].
  now destruct (str_in _ _).
Qed.

Lemma collect_requirements_focus (feature_focus : str) (lines : list str) :
  feature_focus <> [] ->
  forall found,
    BRS.collect_requirements feature_focus lines found
    = BRS.collect_requirements [] (filter (mentions feature_focus) lines) found.
Proof.
  intros NE. induction lines as [|l later IH]; intros found; [reflexivity|].
  cbn [BRS.collect_requirements filter].
  rewrite requirements_of_line_focus by assumption.
  destruct (mentions feature_focus l).
  - cbn [BRS.collect_requirements].
    destruct (BRS.requirements_of_line [] l); cbn [bind]; auto.
  - cbn [bind]. rewrite app_nil_r. apply IH.
Qed.

End Focus.

(** A feature focus has the effect of deleting, before extraction, the
    lines that do not mention it. *)
Theorem feature_focus_filters_lines
        {db : UnicodeDb} (content feature_focus : str) :
  feature_focus <> [] ->
  BRS.extract_requirements_from_document content feature_focus
  = BRS.extract_requirements_from_document
      (join nl (filter (mentions feature_focus) (split_char 10%N content))) [].
Proof.
  intros NE. unfold BRS.extract_requirements_from_document.
  rewrite collect_requirements_focus by assumption. f_equal.
  destruct (filter (mentions feature_focus) (split_char 10%N content))
    as [|l ls] eqn:E.
  - reflexivity.
  - rewrite <- E. unfold nl. rewrite split_join; [reflexivity | |].
    + rewrite E. discriminate.
    + apply Forall_forall. intros x Hx. apply filter_In in Hx as [Hx _].
      now apply split_char_no_sep in Hx.
Qed.

Lemma feature_focus_filters_lines_witness :
  BRS.extract_requirements_from_document (db := ascii_db)
    (py "system must allow login now" ++ nl ++ py "system must allow export")
    (py "Login")
  = BRS.extract_requirements_from_document (db := ascii_db)
      (py "system must allow login now") [].
Proof.
  exact (feature_focus_filters_lines (db := ascii_db)
           (py "system must allow login now" ++ nl ++ py "system must allow export")
           (py "Login") ltac:(discriminate)).
Defined.

(** ** What one line can contribute *)

Lemma Ok_inj {A} (a b : A) : Ok a = Ok b -> a = b.
Proof. congruence. Qed.

Section PerLine.
Context {db : UnicodeDb}.

Lemma phrase_of_line_length (patterns : list regex) (line_lower : str)
      (phrases : list str) :
  BRS.phrase_of_line patterns line_lower = Ok phrases ->
  List.length phrases <= 1.
Proof.
  induction patterns as [|p later IH]; cbn [BRS.phrase_of_line].
  - intros [= <-]. simpl. lia.
  - destruct (re_search p line_lower); [|exact IH].
    destruct (group1 p m); cbn [bind]; [|discriminate].
    destruct (_ <? _)%nat; intros [= <-]; simpl; lia.
Qed.

Lemma bullet_of_line_length (line : str) :
  List.length (BRS.bullet_of_line line) <= 1.
Proof.
  unfold BRS.bullet_of_line.
  destruct (re_match BRS.bullet_marker line), (re_match BRS.number_marker line);
    try (simpl; lia);
    destruct (_ <? _)%nat; try (simpl; lia);
    destruct (existsb _ _); simpl; lia.
Qed.

Lemma requirements_of_line_length (feature_focus l : str) (more : list str) :
  BRS.requirements_of_line feature_focus l = Ok more ->
  List.length more <= 2.
Proof.
  unfold BRS.requirements_of_line.
  destruct (_ || _); [intros [= <-]; simpl; lia|].
  destruct (_ && _); [intros [= <-]; simpl; lia|].
  destruct (BRS.phrase_of_line _ _) eqn:E; cbn [bind]; [|discriminate].
  intros [= <-]. apply phrase_of_line_length in E.
  pose proof (bullet_of_line_length (strip l)). rewrite length_app. lia.
Qed.

Lemma requirements_of_line_skipped (feature_focus l : str) :
  len (strip l) < 10 \/ startswith (strip l) (py "#") = true ->
  BRS.requirements_of_line feature_focus l = Ok [].
Proof.
  intros H. unfold BRS.requirements_of_line.
  destruct (Nat.ltb_spec (len (strip l)) 10); [reflexivity|].
  destruct H as [H | ->]; [lia | reflexivity].
Qed.

Lemma collect_requirements_length (feature_focus : str) (lines : list str) :
  forall found all,
    BRS.collect_requirements feature_focus lines found = Ok all ->
    List.length all <= List.length found + 2 * List.length lines.
Proof.
  induction lines as [|l later IH]; intros found all;
    cbn [BRS.collect_requirements].
  - intros [= <-]. simpl. lia.
  - destruct (BRS.requirements_of_line feature_focus l) eqn:E; cbn [bind];
      [|discriminate].
    intros H. apply IH in H. apply requirements_of_line_length in E.
    rewrite length_app in H. simpl. lia.
Qed.

Lemma collect_requirements_skipped (feature_focus : str) (lines : list str) :
  Forall (fun l => len (strip l) < 10 \/ startswith (strip l) (py "#") = true)
         lines ->
  forall found, BRS.collect_requirements feature_focus lines found = Ok found.
Proof.
  induction 1 as [|l later Hl _ IH]; intros found; cbn [BRS.collect_requirements];
    [reflexivity|].
  rewrite requirements_of_line_skipped by assumption. cbn [bind].
  rewrite app_nil_r. apply IH.
Qed.

End PerLine.

(** A line gives at most two phrases, and none when its trimmed text is
    shorter than 10 characters or starts with [#]: a document of such lines
    only gives no phrase at all. *)
Theorem extraction_per_line
        {db : UnicodeDb} (content feature_focus : str) :
  (forall phrases,
      BRS.extract_requirements_from_document content feature_focus = Ok phrases ->
      List.length phrases <= 2 * S (count_occ N.eq_dec content 10%N))
  /\ (Forall (fun l => len (strip l) < 10 \/ startswith (strip l) (py "#") = true)
             (split_char 10%N content) ->
      BRS.extract_requirements_from_document content feature_focus = Ok []).
Proof.
  unfold BRS.extract_requirements_from_document. split.
  - intros phrases.
    destruct (BRS.collect_requirements _ _ _) eqn:E; cbn [bind]; [|discriminate].
    intros H. apply Ok_inj in H. subst phrases.
    apply collect_requirements_length in E.
    rewrite split_char_length in E. change (List.length (@nil str)) with 0 in E.
    rewrite length_firstn. lia.
  - intros F. rewrite collect_requirements_skipped by assumption. reflexivity.
Qed.

Lemma extraction_per_line_witness :
  BRS.extract_requirements_from_document (db := ascii_db)
    (py "# The system shall export reports" ++ nl ++ py "must do" ++ nl) []
  = Ok [].
Proof.
  apply (proj2 (extraction_per_line (db := ascii_db)
                  (py "# The system shall export reports" ++ nl ++ py "must do" ++ nl)
                  [])).
  apply Forall_forall. intros l Hl. vm_compute in Hl.
  destruct Hl as [<- | [<- | [<- | []]]];
    first [ right; vm_compute; reflexivity
          | left; apply Nat.ltb_lt; vm_compute; reflexivity ].
Defined.

(** ** More on story synthesis *)

Section MoreSynthesis.
Context {db : UnicodeDb}.

Lemma map_from_firstn {A B} (f : nat -> A -> B) (n : nat) (xs : list A) :
  forall start,
    map_from f start (firstn n xs) = firstn n (map_from f start xs).
Proof.
  revert n; induction xs as [|x xs IH]; intros [|n] start; simpl; auto.
  now rewrite IH.
Qed.

Lemma stories_loop_format (user_personas : list str) (max_stories : Z)
      (story_format : str) (todo : list str) :
  str_eqb story_format (py "detailed") = false ->
  str_eqb story_format (py "agile") = false ->
  forall i stories,
    BRS.stories_loop user_personas story_format max_stories i todo stories
    = BRS.stories_loop user_personas (py "standard") max_stories i todo stories.
Proof.
  intros D A. induction todo as [|r later IH]; intros i stories;
    cbn [BRS.stories_loop]; [reflexivity|].
  destruct (_ <=? _)%Z; [reflexivity|].
  destruct (BRS.py_mod i _); cbn [bind]; [|reflexivity].
  destruct (BRS.index user_personas a); cbn [bind]; [|reflexivity].
  destruct (BRS.extract_benefit_from_requirement r); cbn [bind]; [|reflexivity].
  rewrite IH. unfold BRS.render_story. rewrite D, A. reflexivity.
Qed.

End MoreSynthesis.

(** With [max_stories] zero or negative and at least one requirement the
    result is an empty list, whatever the persona list: no default story,
    and no failure even without personas. *)
Theorem no_stories_for_non_positive_max
        {db : UnicodeDb} (requirements user_personas : list str)
        (story_format : str) (max_stories : Z) :
  requirements <> [] -> (max_stories <= 0)%Z ->
  BRS.generate_user_stories requirements user_personas story_format max_stories
  = Ok [].
Proof.
  intros NE M. unfold BRS.generate_user_stories.
  destruct requirements as [|r R]; [congruence|].
  destruct (slice_to (r :: R) max_stories) as [|x xs]; [reflexivity|].
  cbn [BRS.stories_loop].
  destruct (Z.leb_spec max_stories (Z.of_nat 0)); [reflexivity | lia].
Qed.

Lemma no_stories_for_non_positive_max_witness :
  BRS.generate_user_stories (db := ascii_db)
    [py "export monthly reports"; py "search the archive"] []
    (py "standard") (-1)
  = Ok [].
Proof.
  apply (no_stories_for_non_positive_max (db := ascii_db)); [discriminate | lia].
Defined.

(** The stories do not depend on [max_stories] except for their number:
    the result is the first [max_stories] stories of the full list. *)
Theorem max_stories_truncates
        {db : UnicodeDb} (requirements user_personas : list str)
        (story_format : str) :
  requirements <> [] -> user_personas <> [] ->
  exists all,
    BRS.generate_user_stories requirements user_personas story_format
      (Z.of_nat (List.length requirements)) = Ok all
    /\ List.length all = List.length requirements
    /\ forall max_stories,
        BRS.generate_user_stories requirements user_personas story_format
                                  max_stories
        = Ok (firstn (Z.to_nat max_stories) all).
Proof.
  intros NR NP. eexists. split; [|split].
  - rewrite generate_user_stories_ok by assumption.
    rewrite Nat2Z.id, firstn_all. reflexivity.
  - apply map_from_length.
  - intros M. rewrite generate_user_stories_ok by assumption.
    now rewrite map_from_firstn.
Qed.

Lemma max_stories_truncates_witness :
  exists all,
    BRS.generate_user_stories (db := ascii_db)
      [py "export monthly reports"; py "search the archive"] [py "admin"]
      (py "agile") 2 = Ok all
    /\ List.length all = 2
    /\ forall max_stories,
        BRS.generate_user_stories (db := ascii_db)
          [py "export monthly reports"; py "search the archive"] [py "admin"]
          (py "agile") max_stories
        = Ok (firstn (Z.to_nat max_stories) all).
Proof.
  apply (max_stories_truncates (db := ascii_db)
           [py "export monthly reports"; py "search the archive"] [py "admin"]
           (py "agile")); discriminate.
Defined.

(** Every format other than [detailed] and [agile] is rendered as the
    standard format. *)
Theorem unknown_format_is_standard
        {db : UnicodeDb} (requirements user_personas : list str)
        (story_format : str) (max_stories : Z) :
  story_format <> py "detailed" -> story_format <> py "agile" ->
  BRS.generate_user_stories requirements user_personas story_format max_stories
  = BRS.generate_user_stories requirements user_personas (py "standard")
                              max_stories.
Proof.
  intros D A. unfold BRS.generate_user_stories.
  destruct requirements; [reflexivity|].
  apply stories_loop_format.
  - destruct (str_eqb story_format (py "detailed")) eqn:E; [|reflexivity].
    apply str_eqb_eq in E. congruence.
  - destruct (str_eqb story_format (py "agile")) eqn:E; [|reflexivity].
    apply str_eqb_eq in E. congruence.
Qed.

Lemma unknown_format_is_standard_witness :
  BRS.generate_user_stories (db := ascii_db)
    [py "export monthly reports"] [py "admin"] (py "Agile") 10
  = BRS.generate_user_stories (db := ascii_db)
      [py "export monthly reports"] [py "admin"] (py "standard") 10.
Proof.
  apply (unknown_format_is_standard (db := ascii_db)); discriminate.
Defined.

(** ** Pieces of text *)

Lemma substring_refl (s : str) : substring s s.
Proof. exists [], []. now rewrite app_nil_r. Qed.

Lemma substring_trans (a b c : str) :
  substring a b -> substring b c -> substring a c.
Proof.
  intros (p1 & q1 & ->) (p2 & q2 & ->). exists (p2 ++ p1), (q1 ++ q2).
  now rewrite <- !app_assoc.
Qed.

Lemma suffix_substring (pre x : str) : substring x (pre ++ x).
Proof. exists pre, []. now rewrite app_nil_r. Qed.

Lemma prefix_substring (x post : str) : substring x (x ++ post).
Proof. now exists [], post. Qed.

Lemma skipn_substring (k : nat) (s : str) : substring (skipn k s) s.
Proof. rewrite <- (firstn_skipn k s) at 2. apply suffix_substring. Qed.

Lemma firstn_substring (k : nat) (s : str) : substring (firstn k s) s.
Proof. rewrite <- (firstn_skipn k s) at 2. apply prefix_substring. Qed.

Lemma dropwhile_substring (p : char -> bool) (s : str) :
  substring (dropwhile p s) s.
Proof.
  induction s as [|c t IH]; simpl; [apply substring_refl|].
  destruct (p c); [|apply substring_refl].
  eapply substring_trans; [exact IH|]. apply (suffix_substring [c]).
Qed.

Lemma rev_substring (x s : str) : substring x s -> substring (rev x) (rev s).
Proof.
  intros (p & q & ->). exists (rev q), (rev p).
  now rewrite !rev_app_distr, <- app_assoc.
Qed.

Lemma strip_substring (s : str) : substring (strip s) s.
Proof.
  unfold strip, rstrip, lstrip.
  eapply substring_trans; [|apply (dropwhile_substring isspace s)].
  rewrite <- (rev_involutive (dropwhile isspace s)) at 2.
  apply rev_substring, dropwhile_substring.
Qed.

Lemma removelast_substring (s : str) : substring (removelast s) s.
Proof.
  destruct s as [|c t]; [apply substring_refl|].
  rewrite (app_removelast_last c (l := c :: t)) at 2 by discriminate.
  apply prefix_substring.
Qed.

Lemma startswith_prefix (x post : str) : startswith (x ++ post) x = true.
Proof.
  induction x as [|c x IH]; simpl; [now destruct post|].
  now rewrite N.eqb_refl.
Qed.

Lemma str_in_eq (needle hay : str) :
  str_in needle hay
  = startswith hay needle
    || match hay with
       | [] => false
       | _ :: t => str_in needle t
       end.
Proof. destruct hay; reflexivity. Qed.

(** [x in s] holds for every piece [x] of [s]. *)
Lemma substring_str_in (x s : str) : substring x s -> str_in x s = true.
Proof.
  intros (pre & post & ->). induction pre as [|c pre IH].
  - rewrite str_in_eq. cbn [app]. now rewrite startswith_prefix.
  - rewrite str_in_eq. cbn [app]. rewrite IH. apply orb_true_r.
Qed.

Lemma concat_substring (pre mid post : list str) :
  substring (List.concat mid) (List.concat (pre ++ mid ++ post)).
Proof.
  exists (List.concat pre), (List.concat post). now rewrite !concat_app.
Qed.

Lemma piece_substring (pre post : list str) (x : str) :
  substring x (List.concat (pre ++ [x] ++ post)).
Proof.
  exists (List.concat pre), (List.concat post).
  rewrite !concat_app. simpl. now rewrite app_nil_r.
Qed.

(** ** What a rendered story contains *)

Section Rendering.
Context {db : UnicodeDb}.

Lemma render_story_sentence (story_format : str) (i : nat)
      (user_persona action benefit requirement : str) :
  substring (story_sentence user_persona action benefit)
            (BRS.render_story story_format i user_persona action benefit
                              requirement).
Proof.
  unfold BRS.render_story, story_sentence, BRS.generate_detailed_story,
    BRS.generate_agile_story, BRS.generate_standard_story.
  destruct (str_eqb story_format (py "detailed"));
    [|destruct (str_eqb story_format (py "agile"))];
    match goal with
    | |- substring (List.concat ?mid) _ =>
        first
          [ apply (concat_substring
                     [py "**User Story "; str_of_nat (i + 1); py ":**"; nl] mid)
          | apply (concat_substring
                     [py "**Story #"; str_of_nat (i + 1); py ":** ";
                      title action; nl; nl; py "**User Story:**"; nl] mid) ]
    end.
Qed.

Lemma render_detailed_requirement (i : nat)
      (user_persona action benefit requirement : str) :
  substring requirement
            (BRS.render_story (py "detailed") i user_persona action benefit
                              requirement).
Proof.
  unfold BRS.render_story.
  change (str_eqb (py "detailed") (py "detailed")) with true. cbv iota.
  unfold BRS.generate_detailed_story.
  apply (piece_substring
           [py "**User Story "; str_of_nat (i + 1); py ":**"; nl;
            py "As a "; user_persona; py ", I want to "; action;
            py ", so that "; benefit; py "."; nl; nl;
            py "**Original Requirement:**"; nl]).
Qed.

Lemma render_agile_fields (i : nat)
      (user_persona action benefit requirement : str) :
  substring (py "**Story Points:** TBD")
            (BRS.render_story (py "agile") i user_persona action benefit
                              requirement)
  /\ substring (py "- [ ] Given a " ++ user_persona)
               (BRS.render_story (py "agile") i user_persona action benefit
                                 requirement).
Proof.
  unfold BRS.render_story.
  change (str_eqb (py "agile") (py "detailed")) with false.
  change (str_eqb (py "agile") (py "agile")) with true. cbv iota.
  unfold BRS.generate_agile_story. split.
  - eapply substring_trans;
      [|apply (piece_substring
                 [py "**Story #"; str_of_nat (i + 1); py ":** "; title action;
                  nl; nl; py "**User Story:**"; nl;
                  py "As a "; user_persona; py ", I want to "; action;
                  py ", so that "; benefit; py "."; nl; nl;
                  py "**Acceptance Criteria:**"; nl;
                  py "- [ ] Given a "; user_persona; nl;
                  py "- [ ] When they "; action; nl;
                  py "- [ ] Then "; benefit; nl;
                  py "- [ ] And system provides feedback"; nl; nl])].
    apply substring_refl.
  - replace (py "- [ ] Given a " ++ user_persona)
      with (List.concat [py "- [ ] Given a "; user_persona])
      by (simpl; now rewrite app_nil_r).
    apply (concat_substring
             [py "**Story #"; str_of_nat (i + 1); py ":** "; title action;
              nl; nl; py "**User Story:**"; nl;
              py "As a "; user_persona; py ", I want to "; action;
              py ", so that "; benefit; py "."; nl; nl;
              py "**Acceptance Criteria:**"; nl]
             [py "- [ ] Given a "; user_persona]).
Qed.

End Rendering.

Lemma nth_error_firstn_some {A} (l : list A) :
  forall n i x, nth_error (firstn n l) i = Some x -> nth_error l i = Some x.
Proof.
  induction l as [|a l IH]; intros [|n] [|i] x; simpl; try discriminate; auto.
  apply IH.
Qed.

Lemma persona_in_sentence (user_persona action benefit : str) :
  substring (py "As a " ++ user_persona ++ py ", I want to ")
            (story_sentence user_persona action benefit).
Proof.
  unfold story_sentence.
  replace (py "As a " ++ user_persona ++ py ", I want to ")
    with (List.concat [py "As a "; user_persona; py ", I want to "])
    by (cbn [List.concat]; now rewrite app_nil_r).
  apply (concat_substring [] [py "As a "; user_persona; py ", I want to "]).
Qed.

Lemma render_story_persona {db : UnicodeDb} (story_format : str) (i : nat)
      (user_persona action benefit requirement : str) :
  str_in (py "As a " ++ user_persona ++ py ", I want to ")
         (BRS.render_story story_format i user_persona action benefit
                           requirement) = true.
Proof.
  apply substring_str_in.
  eapply substring_trans;
    [apply persona_in_sentence | apply render_story_sentence].
Qed.

Lemma default_story_persona {db : UnicodeDb} (user_persona : str) :
  str_in (py "As a " ++ user_persona ++ py ", I want to ")
         (BRS.generate_default_story user_persona) = true.
Proof.
  apply substring_str_in. unfold BRS.generate_default_story.
  exists (py "**User Story 1:**" ++ nl).
  eexists. cbn [List.concat].
  replace (py ", I want to use the system features, so that I can accomplish my goals efficiently.")
    with (py ", I want to "
          ++ py "use the system features, so that I can accomplish my goals efficiently.")
    by (vm_compute; reflexivity).
  rewrite <- !app_assoc. reflexivity.
Qed.

(** C5.  With a non-empty persona list the call returns, and the story at
    index [i] is the one rendered for [user_personas[i % len(user_personas)]]
    and carries that persona in its sentence [As a P, I want to ...]; two
    personas and five requirements give stories that carry p0, p1, p0,
    p1, p0. *)
Theorem personas_assigned_cyclically {db : UnicodeDb} :
  (forall (user_personas requirements : list str) (story_format : str)
          (max_stories : Z),
      user_personas <> [] ->
      exists stories,
        BRS.generate_user_stories requirements user_personas story_format
                                  max_stories = Ok stories
        /\ forall i story,
            nth_error stories i = Some story ->
            let user_persona :=
              nth (i mod List.length user_personas) user_personas [] in
            str_in (py "As a " ++ user_persona ++ py ", I want to ") story = true
            /\ (forall requirement,
                   nth_error requirements i = Some requirement ->
                   str_in (story_sentence
                             user_persona
                             (BRS.extract_action_from_requirement requirement)
                             (benefit_of requirement)) story = true)
            /\ story =
                 match nth_error requirements i with
                 | Some requirement =>
                     BRS.render_story story_format i user_persona
                       (BRS.extract_action_from_requirement requirement)
                       (benefit_of requirement) requirement
                 | None => BRS.generate_default_story user_persona
                 end)
  /\ (forall (p0 p1 r0 r1 r2 r3 r4 story_format : str) (max_stories : Z),
         (5 <= max_stories)%Z ->
         let story i user_persona requirement :=
           BRS.render_story story_format i user_persona
             (BRS.extract_action_from_requirement requirement)
             (benefit_of requirement) requirement in
         exists stories,
           BRS.generate_user_stories [r0; r1; r2; r3; r4] [p0; p1] story_format
                                     max_stories
           = Ok stories
           /\ stories = [story 0 p0 r0; story 1 p1 r1; story 2 p0 r2;
                         story 3 p1 r3; story 4 p0 r4]
           /\ Forall2 (fun user_persona story =>
                         str_in (py "As a " ++ user_persona ++ py ", I want to ")
                                story = true)
                      [p0; p1; p0; p1; p0] stories).
Proof.
  split.
  - intros user_personas requirements story_format max_stories NP.
    destruct requirements as [|r R].
    + eexists. split; [reflexivity|].
      intros [|i] story; cbn [nth_error]; [|destruct i; discriminate].
      intros [= <-]. rewrite Nat.Div0.mod_0_l.
      destruct user_personas as [|p ps]; [congruence|]. cbn [nth].
      split; [apply default_story_persona|].
      split; [discriminate | reflexivity].
    + eexists. split; [apply generate_user_stories_ok; [discriminate | assumption]|].
      intros i story H. apply map_from_nth in H as (x & Hx & ->).
      apply nth_error_firstn_some in Hx. rewrite Hx. cbv zeta.
      split; [apply render_story_persona|]. split; [|reflexivity].
      intros requirement [= <-]. apply substring_str_in.
      apply render_story_sentence.
  - intros p0 p1 r0 r1 r2 r3 r4 story_format max_stories Hm. cbv zeta.
    eexists. split; [|split; [reflexivity|]].
    + rewrite generate_user_stories_ok by discriminate.
      replace (Z.to_nat max_stories) with (5 + (Z.to_nat max_stories - 5)) by lia.
      cbn [Nat.add firstn]. rewrite firstn_nil. reflexivity.
    + repeat constructor; apply render_story_persona.
Qed.

Lemma personas_assigned_cyclically_witness :
  exists stories,
    BRS.generate_user_stories (db := ascii_db)
      [py "export monthly reports"; py "search the archive";
       py "delete old drafts"; py "approve pending orders";
       py "upload scanned invoices"]
      [py "admin"; py "manager"] (py "standard") 10
    = Ok stories
    /\ Forall2 (fun user_persona story =>
                  str_in (py "As a " ++ user_persona ++ py ", I want to ")
                         story = true)
               [py "admin"; py "manager"; py "admin"; py "manager"; py "admin"]
               stories.
Proof.
  destruct (proj2 (personas_assigned_cyclically (db := ascii_db))
              (py "admin") (py "manager")
              (py "export monthly reports") (py "search the archive")
              (py "delete old drafts") (py "approve pending orders")
              (py "upload scanned invoices") (py "standard") 10%Z
              ltac:(lia))
    as (stories & H & _ & F).
  exists stories. split; assumption.
Defined.

(** Every story carries its sentence [As a P, I want to A, so that B.]; a
    detailed story also carries the requirement verbatim, and an agile
    story a checkbox line and the Story Points field. *)
Theorem stories_carry_their_parts
        {db : UnicodeDb} (requirements user_personas : list str)
        (story_format : str) (max_stories : Z) (stories : list str) :
  requirements <> [] -> user_personas <> [] ->
  BRS.generate_user_stories requirements user_personas story_format max_stories
  = Ok stories ->
  forall i story,
    nth_error stories i = Some story ->
    exists requirement,
      let user_persona :=
        nth (i mod List.length user_personas) user_personas [] in
      nth_error requirements i = Some requirement
      /\ str_in (story_sentence user_persona
                   (BRS.extract_action_from_requirement requirement)
                   (benefit_of requirement)) story = true
      /\ (story_format = py "detailed" -> str_in requirement story = true)
      /\ (story_format = py "agile" ->
          str_in (py "**Story Points:** TBD") story = true
          /\ str_in (py "- [ ] Given a " ++ user_persona) story = true).
Proof.
  intros NR NP H i story Hi.
  rewrite generate_user_stories_ok in H by assumption.
  apply Ok_inj in H. subst stories.
  apply map_from_nth in Hi as (requirement & Hr & ->).
  exists requirement. cbv zeta. split; [|split; [|split]].
  - now apply nth_error_firstn_some in Hr.
  - apply substring_str_in. unfold story_at. apply render_story_sentence.
  - intros ->. apply substring_str_in. unfold story_at.
    apply render_detailed_requirement.
  - intros ->. unfold story_at.
    split; apply substring_str_in; apply render_agile_fields.
Qed.

Lemma stories_carry_their_parts_witness :
  exists story requirement,
    nth_error [py "user must export data"] 0 = Some requirement
    /\ str_in requirement story = true
    /\ BRS.generate_user_stories (db := ascii_db) [py "user must export data"]
         [py "admin"] (py "detailed") 10 = Ok [story].
Proof.
  eexists.
  destruct (stories_carry_their_parts (db := ascii_db)
              [py "user must export data"] [py "admin"] (py "detailed") 10 _
              ltac:(discriminate) ltac:(discriminate) eq_refl 0 _ eq_refl)
    as (requirement & Hr & _ & Hd & _).
  exists requirement. split; [exact Hr|]. split; [exact (Hd eq_refl) | reflexivity].
Defined.

(** ** The pipeline of server.py *)

Lemma gds_stories_loop_length {db : UnicodeDb} (todo : list str) :
  forall i stories,
    List.length (GDS.stories_loop i todo stories)
    = List.length stories + List.length todo.
Proof.
  induction todo as [|r later IH]; intros i stories; simpl; [lia|].
  rewrite IH, length_app. simpl. lia.
Qed.

(** [generate_stories_from_content] never returns an empty list and never
    more than five stories: one story per kept requirement up to five, and
    the two default stories when none is kept. *)
Theorem google_doc_story_count
        {db : UnicodeDb} (content feature_focus : str) :
  let n := List.length (kept_requirements content feature_focus) in
  List.length (GDS.generate_stories_from_content content feature_focus)
  = (if (n =? 0)%nat then 2 else Nat.min 5 n)
  /\ 1 <= List.length (GDS.generate_stories_from_content content feature_focus)
     <= 5.
Proof.
  cbv zeta. rewrite stories_from_kept.
  pose proof (gds_stories_loop_length
                (firstn 5 (kept_requirements content feature_focus)) 0 []) as L.
  rewrite length_firstn in L. change (List.length (@nil str)) with 0 in L.
  set (n := List.length (kept_requirements content feature_focus)) in *.
  destruct (GDS.stories_loop 0 _ []) as [|s l] eqn:E.
  - change (List.length GDS.generate_default_stories) with 2.
    change (List.length (@nil str)) with 0 in L.
    destruct (Nat.eqb_spec n 0); lia.
  - rewrite L. cbn [List.length] in L. destruct (Nat.eqb_spec n 0); lia.
Qed.

(** ** Where the derived text comes from *)

Lemma first_of_some {A B} (f : A -> option B) (xs : list A) (y : B) :
  first_of f xs = Some y -> exists x, In x xs /\ f x = Some y.
Proof.
  induction xs as [|x xs IH]; simpl; [discriminate|].
  destruct (f x) eqn:E; simpl.
  - intros [= <-]. eauto.
  - intros H. apply IH in H as (x' & Hx & Hf). eauto.
Qed.

Lemma after_word_substring (w s t : str) :
  after_word w s = Some t -> substring t s.
Proof.
  unfold after_word. destruct (startswith s w); [|discriminate].
  intros [= <-]. apply skipn_substring.
Qed.

Lemma after_spaces_substring (s t : str) :
  after_spaces s = Some t -> substring t s.
Proof.
  destruct s as [|c u]; simpl; [discriminate|].
  destruct (isspace c); [|discriminate]. intros [= <-].
  eapply substring_trans; [apply dropwhile_substring|].
  apply (suffix_substring [c]).
Qed.

Lemma after_word_spaces_substring (w s t : str) :
  after_word_spaces w s = Some t -> substring t s.
Proof.
  unfold after_word_spaces. destruct (after_word w s) as [u|] eqn:E; simpl;
    [|discriminate].
  intros H. eapply substring_trans;
    [eapply after_spaces_substring | eapply after_word_substring]; eauto.
Qed.

Lemma after_subject_modal_substring (s t : str) :
  after_subject_modal s = Some t -> substring t s.
Proof.
  unfold after_subject_modal. intros H.
  apply first_of_some in H as (subject & _ & H).
  destruct (after_word_spaces subject s) as [u|] eqn:E; cbn [and_then] in H;
    [|discriminate].
  apply first_of_some in H as (modal & _ & H).
  eapply substring_trans; eapply after_word_spaces_substring; eauto.
Qed.

Lemma strip_subject_substring (s : str) : substring (strip_subject s) s.
Proof.
  unfold strip_subject.
  destruct (after_word_spaces (py "the") s) as [u|] eqn:E1; simpl.
  - destruct (after_subject_modal u) as [t|] eqn:E2; simpl.
    + eapply substring_trans;
        [eapply after_subject_modal_substring
        | eapply after_word_spaces_substring]; eauto.
    + destruct (after_subject_modal s) as [t|] eqn:E3;
        [now apply after_subject_modal_substring | apply substring_refl].
  - destruct (after_subject_modal s) as [t|] eqn:E3;
      [now apply after_subject_modal_substring | apply substring_refl].
Qed.

Lemma strip_verb_substring (s : str) : substring (strip_verb s) s.
Proof.
  unfold strip_verb.
  destruct (first_of _ verb_words) as [t|] eqn:E; [|apply substring_refl].
  apply first_of_some in E as (verb & _ & E).
  eapply after_word_spaces_substring; eauto.
Qed.

Lemma strip_to_substring (s : str) : substring (strip_to s) s.
Proof.
  unfold strip_to.
  destruct (after_word_spaces (py "to") s) as [t|] eqn:E;
    [eapply after_word_spaces_substring; eauto | apply substring_refl].
Qed.

(** The action is a piece of the lower-cased requirement: the deriver
    removes text from both ends and adds none. *)
Theorem action_is_piece_of_requirement {db : UnicodeDb} (requirement : str) :
  exists pre post,
    lower requirement
    = pre ++ BRS.extract_action_from_requirement requirement ++ post.
Proof.
  change (substring (BRS.extract_action_from_requirement requirement)
                    (lower requirement)).
  unfold BRS.extract_action_from_requirement.
  rewrite re_sub_subject_prefix, re_sub_verb_prefix, re_sub_to_prefix.
  set (a := strip _).
  assert (Ha : substring a (lower requirement)).
  { unfold a. eapply substring_trans; [apply strip_substring|].
    eapply substring_trans; [apply strip_to_substring|].
    eapply substring_trans; [apply strip_verb_substring|].
    apply strip_subject_substring. }
  assert (Hb : substring (if endswith a (py ".") then removelast a else a)
                         (lower requirement)).
  { destruct (endswith a (py ".")); [|assumption].
    eapply substring_trans; [apply removelast_substring | assumption]. }
  match goal with
  | |- substring (match ?x with _ => _ end) _ =>
      change (substring x (lower requirement)) in Hb; revert Hb; generalize x
  end.
  intros [|c l] Hb; [apply substring_refl | exact Hb].
Qed.

(** Group 1 of a match is a piece of the text the match ran on. *)
Lemma run_group_inside (r : regex) :
  forall st st' g,
    In st' (run r st) -> g1 st' = Some g ->
    g1 st = Some g \/ substring g (rest st).
Proof.
  induction r; intros st st' g; simpl.
  - intros [<- | []]; auto.
  - destruct (startswith (rest st) s); simpl; [intros [<- | []]; auto | intros []].
  - destruct (rest st) as [|c t]; [intros []|].
    destruct (p c); simpl; [intros [<- | []]; auto | intros []].
  - rewrite in_flat_map. intros (mid & Hmid & Hst') Hg.
    destruct (IHr2 _ _ _ Hst' Hg) as [H | H].
    + eapply IHr1; eauto.
    + right. apply run_span in Hmid as (k & _ & _ & E). rewrite E in H.
      eapply substring_trans; [exact H | apply skipn_substring].
  - rewrite in_app_iff. intros [H | H]; eauto.
  - rewrite in_app_iff. intros [H | [<- | []]]; eauto.
  - rewrite in_map_iff. intros (k & <- & _). auto.
  - rewrite in_map_iff. intros (mid & <- & _). simpl. intros [= <-].
    right. apply firstn_substring.
  - destruct (seen st); simpl; [intros [<- | []]; auto | intros []].
  - intros H Hg. left. rewrite <- Hg. f_equal.
    destruct (rest st) as [|c [|d t]]; simpl in H;
      [| destruct (c =? 10)%N; simpl in H |]; intuition.
  - destruct (xorb _ _); simpl; [intros [<- | []]; auto | intros []].
Qed.

Lemma search_from_group (p : regex) (after before : str) (st : mstate) (g : str) :
  search_from p before after = Some st -> g1 st = Some g ->
  substring g (rev before ++ after).
Proof.
  revert before; induction after as [|c t IH]; intros before; simpl.
  - destruct (run p (start_at before [])) eqn:E; [discriminate|].
    intros [= ->] Hg.
    destruct (run_group_inside p (start_at before []) st g) as [H | H];
      [rewrite E; simpl; auto | assumption | discriminate |].
    eapply substring_trans; [exact H | apply suffix_substring].
  - destruct (run p (start_at before (c :: t))) eqn:E.
    + intros H Hg. specialize (IH (c :: before) H Hg).
      simpl in IH. now rewrite <- app_assoc in IH.
    + intros [= ->] Hg.
      destruct (run_group_inside p (start_at before (c :: t)) st g) as [H | H];
        [rewrite E; simpl; auto | assumption | discriminate |].
      eapply substring_trans; [exact H | apply suffix_substring].
Qed.

Section Benefit.
Context {db : UnicodeDb}.

Lemma explicit_benefit_substring (patterns : list regex) (req_lower b : str) :
  BRS.explicit_benefit patterns req_lower = Ok (Some b) ->
  substring b req_lower.
Proof.
  induction patterns as [|p later IH]; cbn [BRS.explicit_benefit];
    [discriminate|].
  destruct (re_search p req_lower) as [m|] eqn:E; [|exact IH].
  unfold group1. destruct (_ =? _)%nat; cbn [bind]; [discriminate|].
  destruct (g1 m) as [g|] eqn:Eg; cbn [bind]; [|discriminate].
  intros [= <-]. eapply substring_trans; [apply strip_substring|].
  apply (search_from_group p req_lower [] m g E Eg).
Qed.

Lemma inferred_benefit_in (mapping : list (str * str)) (req_lower : str) :
  In (BRS.inferred_benefit mapping req_lower)
     (List.map snd mapping
      ++ [py "I can accomplish my business objectives efficiently"]).
Proof.
  induction mapping as [|[k v] later IH]; simpl; [auto|].
  destruct (str_in k req_lower); auto.
Qed.

End Benefit.

(** The benefit is either a piece of the lower-cased requirement (the
    clause after so that, in order to, to ensure, enabling or resulting
    in) or one of the sixteen fixed sentences. *)
Theorem benefit_is_clause_or_fixed {db : UnicodeDb} (requirement : str) :
  exists benefit,
    BRS.extract_benefit_from_requirement requirement = Ok benefit
    /\ ((exists pre post, lower requirement = pre ++ benefit ++ post)
        \/ In benefit
              (List.map snd BRS.benefit_mapping
               ++ [py "I can accomplish my business objectives efficiently"])).
Proof.
  exists (benefit_of requirement). split; [apply extract_benefit_ok|].
  unfold benefit_of, BRS.extract_benefit_from_requirement.
  destruct (BRS.explicit_benefit BRS.benefit_patterns (lower requirement))
    as [[b|]|e] eqn:E; cbn [bind].
  - left. now apply explicit_benefit_substring in E.
  - right. apply inferred_benefit_in.
  - destruct (explicit_benefit_total BRS.benefit_patterns (lower requirement))
      as [found Hf]; [reflexivity | congruence].
Qed.

(** ** Repository URLs *)

Lemma str_in_chars (needle hay : str) :
  str_in needle hay = true -> forall c, In c needle -> In c hay.
Proof.
  assert (P : forall s p, startswith s p = true -> forall c, In c p -> In c s).
  { intros s p; revert s; induction p as [|a p IH]; intros [|b s]; simpl;
      try discriminate; try tauto.
    intros H c [<- | Hc]; apply andb_true_iff in H as [E H].
    - apply N.eqb_eq in E. auto.
    - right. eapply IH; eauto. }
  induction hay as [|b hay IH]; rewrite str_in_eq; intros H c Hc.
  - rewrite orb_false_r in H. eapply P; eauto.
  - apply orb_true_iff in H as [H | H]; [eapply P; eauto | right; eauto].
Qed.

Lemma replace_go_skip (old new pre s : str) :
  replace_go old new (len pre) (pre ++ s) = replace_go old new 0 s.
Proof.
  induction pre as [|c pre IH]; [reflexivity|]. simpl. exact IH.
Qed.

Lemma replace_go_unfold (old new : str) (skip : nat) (s : str) :
  replace_go old new skip s
  = match s with
    | [] => []
    | c :: t =>
        match skip with
        | S k => replace_go old new k t
        | O =>
            if startswith s old
            then new ++ replace_go old new (len old - 1) t
            else c :: replace_go old new 0 t
        end
    end.
Proof. destruct s; reflexivity. Qed.

(** A leading occurrence is replaced and the scan goes on after it. *)
Lemma replace_leading (c : char) (old new s : str) :
  replace ((c :: old) ++ s) (c :: old) new = new ++ replace s (c :: old) new.
Proof.
  unfold replace. rewrite replace_go_unfold.
  change ((c :: old) ++ s) with (c :: (old ++ s)). cbv iota.
  assert (E : startswith (c :: (old ++ s)) (c :: old) = true)
    by apply (startswith_prefix (c :: old) s).
  rewrite E. f_equal.
  replace (len (c :: old) - 1) with (len old) by (unfold len; simpl; lia).
  apply replace_go_skip.
Qed.

(** Text without an occurrence is left as it is. *)
Lemma replace_absent (old new s : str) :
  str_in old s = false -> replace s old new = s.
Proof.
  unfold replace. induction s as [|c t IH]; [reflexivity|].
  rewrite str_in_eq. intros H. apply orb_false_iff in H as [H1 H2].
  rewrite replace_go_unfold, H1. f_equal. now apply IH.
Qed.

(** A trailing [.git] is the only one removed when there is no other. *)
Lemma replace_dot_git (s : str) :
  str_in (py ".git") s = false -> replace (s ++ py ".git") (py ".git") [] = s.
Proof.
  unfold replace. induction s as [|c t IH]; [reflexivity|].
  rewrite str_in_eq. intros H. apply orb_false_iff in H as [H1 H2].
  change ((c :: t) ++ py ".git") with (c :: t ++ py ".git").
  rewrite replace_go_unfold.
  assert (E : startswith (c :: t ++ py ".git") (py ".git") = false).
  { destruct (startswith (c :: t ++ py ".git") (py ".git")) eqn:E; [|reflexivity].
    exfalso. revert H1 E. clear.
    change (py ".git") with [46%N; 103%N; 105%N; 116%N].
    destruct t as [|a [|b [|d t]]]; cbn [app startswith];
      repeat match goal with
             | |- context [(?x =? ?y)%N] =>
                 destruct (N.eqb_spec x y); subst; cbn [andb]
             end;
      try discriminate; try congruence.
    all: destruct t; discriminate. }
  rewrite E. f_equal. now apply IH.
Qed.

Lemma split_two (sep : char) (a b : str) :
  ~ In sep a -> ~ In sep b -> split_char sep (a ++ sep :: b) = [a; b].
Proof.
  intros Ha Hb. rewrite split_char_app by assumption.
  now rewrite split_char_plain.
Qed.

Lemma split_char_found (sep : char) (s : str) :
  In sep s ->
  exists a b rest after,
    split_char sep s = a :: b :: rest /\ ~ In sep a /\ s = a ++ sep :: after.
Proof.
  induction s as [|c t IH]; [intros []|]. intros H. simpl.
  destruct (N.eqb_spec c sep) as [-> | NE].
  - destruct (split_char sep t) as [|b rest] eqn:E.
    + pose proof (split_char_length sep t) as L. rewrite E in L. discriminate.
    + exists [], b, rest, t. auto.
  - destruct H as [-> | H]; [congruence|].
    destruct (IH H) as (a & b & rest & after & -> & Ha & ->).
    exists (c :: a), b, rest, after. repeat split; auto.
    intros [E | Hin]; [congruence | tauto].
Qed.

Section ParseUrl.
Context (urlparse_path : str -> outcome str).


(** An SSH address [git@github.com:OWNER/REPO], with or without a final
    [.git], gives back OWNER and REPO, provided neither holds a slash or
    a colon and [.git] occurs nowhere else. *)
Theorem parse_ssh_address (owner repo : str) :
  ~ In 47%N owner -> ~ In 47%N repo ->
  ~ In 58%N owner -> ~ In 58%N repo ->
  str_in (py ".git") (owner ++ py "/" ++ repo) = false ->
  BRS.parse_github_url urlparse_path (py "git@github.com:" ++ owner ++ py "/" ++ repo ++ py ".git")
  = Returns (owner, repo)
  /\ BRS.parse_github_url urlparse_path (py "git@github.com:" ++ owner ++ py "/" ++ repo)
     = Returns (owner, repo).
Proof.
  intros So Sr Co Cr G.
  assert (NoPrefix : forall tail,
             ~ In 58%N tail ->
             str_in (py "git@github.com:") (owner ++ py "/" ++ repo ++ tail)
             = false).
  { intros tail Ct.
    destruct (str_in _ (owner ++ py "/" ++ repo ++ tail)) eqn:E; [|reflexivity].
    exfalso.
    assert (H : In 58%N (owner ++ py "/" ++ repo ++ tail)).
    { apply (str_in_chars _ _ E). vm_compute. auto 20. }
    rewrite !in_app_iff in H. destruct H as [H | [H | [H | H]]]; auto.
    vm_compute in H. intuition discriminate. }
  assert (Step : forall tail,
             ~ In 58%N tail ->
             replace (py "git@github.com:" ++ owner ++ py "/" ++ repo ++ tail)
                     (py "git@github.com:") []
             = owner ++ py "/" ++ repo ++ tail).
  { intros tail Ct.
    change (py "git@github.com:") with (103%N :: skipn 1 (py "git@github.com:")).
    rewrite replace_leading. cbn [app].
    apply replace_absent. apply (NoPrefix tail Ct). }
  unfold BRS.parse_github_url. split.
  - rewrite startswith_prefix, Step by (vm_compute; intuition discriminate).
    replace (owner ++ py "/" ++ repo ++ py ".git")
      with ((owner ++ py "/" ++ repo) ++ py ".git")
      by (now rewrite <- !app_assoc).
    rewrite replace_dot_git by assumption.
    change (py "/" ++ repo) with (47%N :: repo).
    now rewrite split_two.
  - pose proof (Step [] ltac:(intros [])) as S0.
    rewrite !app_nil_r in S0.
    rewrite startswith_prefix, S0, replace_absent by assumption.
    change (py "/" ++ repo) with (47%N :: repo).
    now rewrite split_two.
Qed.

(** Any other address goes through [urlparse]: what [urlparse] raises is
    raised; otherwise the address is accepted exactly when its path,
    trimmed of slashes, still holds a slash, and the owner is then the
    text before the first one; if not, the call raises [ValueError] with
    the address in its message. *)
Theorem parse_web_address (url : str) :
  startswith url (py "git@github.com:") = false ->
  (forall e,
      urlparse_path url = Raises e ->
      BRS.parse_github_url urlparse_path url = Raises e)
  /\ (forall parsed_path,
         urlparse_path url = Returns parsed_path ->
         let path := strip_chars (py "/") parsed_path in
         (In 47%N path ->
          exists owner repo after,
            BRS.parse_github_url urlparse_path url = Returns (owner, repo)
            /\ ~ In 47%N owner /\ path = owner ++ py "/" ++ after)
         /\ (~ In 47%N path ->
             BRS.parse_github_url urlparse_path url
             = Raises (ValueError (py "Invalid GitHub URL format: " ++ url)))).
Proof.
  intros H. unfold BRS.parse_github_url. rewrite H. split.
  - intros e ->. reflexivity.
  - intros parsed_path ->. cbv zeta. cbn [and_next].
    set (path := strip_chars (py "/") parsed_path). split.
    + intros Hin.
      destruct (split_char_found 47%N path Hin)
        as (a & b & rest & after & -> & Ha & E).
      exists a, b, after. auto.
    + intros Hout. now rewrite split_char_plain.
Qed.

End ParseUrl.

Lemma parse_ssh_address_witness :
  BRS.parse_github_url (fun _ => Returns [])
    (py "git@github.com:" ++ py "octo-org" ++ py "/" ++ py "hello.world"
     ++ py ".git")
  = Returns (py "octo-org", py "hello.world").
Proof.
  apply (proj1 (parse_ssh_address (fun _ => Returns []) (py "octo-org") (py "hello.world")
                  ltac:(vm_compute; intuition discriminate)
                  ltac:(vm_compute; intuition discriminate)
                  ltac:(vm_compute; intuition discriminate)
                  ltac:(vm_compute; intuition discriminate)
                  ltac:(vm_compute; reflexivity))).
Defined.

Lemma parse_web_address_witness :
  BRS.parse_github_url Offline.urlparse_path (py "https://[github.com/acme/shop")
  = Raises (ValueError (py "Invalid IPv6 URL"))
  /\ exists owner repo after,
      BRS.parse_github_url (fun _ => Returns (py "/octo-org/hello-world/"))
                           (py "https://github.com/octo-org/hello-world/")
      = Returns (owner, repo)
      /\ ~ In 47%N owner
      /\ strip_chars (py "/") (py "/octo-org/hello-world/")
         = owner ++ py "/" ++ after.
Proof.
  split.
  - apply (proj1 (parse_web_address Offline.urlparse_path
                    (py "https://[github.com/acme/shop")
                    ltac:(vm_compute; reflexivity))).
    vm_compute. reflexivity.
  - apply (proj1 (proj2 (parse_web_address
                           (fun _ => Returns (py "/octo-org/hello-world/"))
                           (py "https://github.com/octo-org/hello-world/")
                           ltac:(vm_compute; reflexivity))
                        (py "/octo-org/hello-world/") eq_refl)).
    vm_compute. auto 20.
Defined.

(** ** The tools of business_requirements_server.py *)

Section BrsTools.

Context {db : UnicodeDb}
        (github_token : option str)
        (urlparse_path : str -> outcome str)
        (http_status : str -> list (str * str) -> outcome nat)
        (http_json : str -> list (str * str) -> outcome BRS.response)
        (b64decode : str -> outcome (list N))
        (decode_utf8 : list N -> option str)
        (decode_utf8_ignore : list N -> str)
        (builtin_message : exn -> str).

Lemma fetch_not_found (url : str) :
  http_status url (BRS.request_headers github_token) = Returns 404 ->
  BRS.fetch_github_api github_token http_status http_json url
  = Raises (ValueError (py "Repository or file not found")).
Proof. intros H. unfold BRS.fetch_github_api. rewrite H. reflexivity. Qed.

(** [read_business_requirements]: without a repository address or a file
    path it answers with a fixed error and asks nothing of the network;
    a 404 from GitHub becomes the error text of the source; and a fetched
    document is returned verbatim at the end of a text that states its
    length. *)
Theorem read_tool_outcomes (args : BRS.arguments) :
  let read :=
    BRS.read_business_requirements github_token urlparse_path http_status
      http_json b64decode decode_utf8 decode_utf8_ignore builtin_message args in
  let ref := default_to (py "main") (BRS.branch args) in
  (missing (BRS.repo_url args) = true \/ missing (BRS.file_path args) = true ->
   read = failure (py "Error: repo_url and file_path are required"))
  /\ (forall url owner repo,
         BRS.repo_url args = Some url ->
         missing (BRS.repo_url args) = false ->
         missing (BRS.file_path args) = false ->
         BRS.parse_github_url urlparse_path url = Returns (owner, repo) ->
         (http_status (BRS.contents_url owner repo (BRS.file_path args) ref)
                      (BRS.request_headers github_token) = Returns 404 ->
          read = failure (py "Error reading business requirements: "
                          ++ py "Repository or file not found"))
         /\ (forall document,
                BRS.get_file_content github_token http_status http_json
                  b64decode decode_utf8 decode_utf8_ignore owner repo
                  (BRS.file_path args) ref = Returns document ->
                isError read = false
                /\ exists heading,
                    text read = heading ++ document
                    /\ substring (py "Content Length: "
                                  ++ str_of_nat (len document)
                                  ++ py " characters") heading)).
Proof.
  cbv zeta. split.
  - intros H. unfold BRS.read_business_requirements.
    destruct H as [-> | ->]; [reflexivity | now rewrite orb_true_r].
  - intros url owner repo Hu Mu Mf Hp. unfold BRS.read_business_requirements.
    rewrite Mu, Mf, Hu. cbn [orb BRS.parse_looked_up]. rewrite Hp.
    cbn [and_next]. split.
    + intros H. unfold BRS.get_file_content.
      rewrite (fetch_not_found _ H). reflexivity.
    + intros document ->. cbn [and_next BRS.caught success isError text].
      split; [reflexivity|].
      exists (List.concat
                [py "Business Requirements Document"; nl;
                 py "Repository: "; owner; py "/"; repo; nl;
                 py "File: "; shown (BRS.file_path args); nl;
                 py "Branch: "; default_to (py "main") (BRS.branch args); nl;
                 py "Content Length: "; str_of_nat (len document);
                 py " characters"; nl; nl;
                 times (py "=") 50; nl;
                 py "DOCUMENT CONTENT:"; nl;
                 times (py "=") 50; nl; nl]).
      split.
      * match goal with
        | |- _ = List.concat ?l ++ ?d =>
            transitivity (List.concat (l ++ [d])); [reflexivity|]
        end.
        rewrite concat_app. f_equal. apply app_nil_r.
      * replace (py "Content Length: " ++ str_of_nat (len document)
                 ++ py " characters")
          with (List.concat [py "Content Length: "; str_of_nat (len document);
                             py " characters"])
          by (cbn [List.concat]; now rewrite app_nil_r).
        apply (concat_substring
                 [py "Business Requirements Document"; nl;
                  py "Repository: "; owner; py "/"; repo; nl;
                  py "File: "; shown (BRS.file_path args); nl;
                  py "Branch: "; default_to (py "main") (BRS.branch args); nl]
                 [py "Content Length: "; str_of_nat (len document);
                  py " characters"]).
Qed.

Lemma extract_requirements_total (content feature_focus : str) :
  exists found,
    BRS.extract_requirements_from_document content feature_focus = Ok found
    /\ List.length found <= 20.
Proof.
  unfold BRS.extract_requirements_from_document.
  destruct (collect_requirements_total feature_focus
              (split_char 10%N content) []) as [all ->].
  cbn [bind]. eexists. split; [reflexivity | apply firstn_le_length].
Qed.

Lemma generate_without_personas (requirements : list str) (story_format : str)
      (max_stories : Z) :
  requirements <> [] -> (0 < max_stories)%Z ->
  BRS.generate_user_stories requirements [] story_format max_stories
  = Raise ZeroDivisionError.
Proof.
  intros NE M. destruct requirements as [|r R]; [congruence|].
  unfold BRS.generate_user_stories, slice_to.
  destruct (Z.leb_spec 0 max_stories) as [_|]; [|lia].
  destruct (Z.to_nat max_stories) as [|n] eqn:E; [lia|].
  cbn [firstn BRS.stories_loop].
  destruct (Z.leb_spec max_stories (Z.of_nat 0)); [lia | reflexivity].
Qed.

Lemma generate_cases (requirements user_personas : list str)
      (story_format : str) (max_stories : Z) :
  (user_personas = [] /\ requirements <> [] /\ (0 < max_stories)%Z
   /\ BRS.generate_user_stories requirements user_personas story_format
                                max_stories = Raise ZeroDivisionError)
  \/ (~ (user_personas = [] /\ requirements <> [] /\ (0 < max_stories)%Z)
      /\ exists stories,
          BRS.generate_user_stories requirements user_personas story_format
                                    max_stories = Ok stories
          /\ (requirements = [] -> List.length stories = 1)
          /\ (requirements <> [] ->
              List.length stories
              = Nat.min (List.length requirements) (Z.to_nat max_stories))).
Proof.
  destruct requirements as [|r R].
  { right. split; [intros (_ & H & _); congruence|].
    eexists. split; [reflexivity|]. split; [reflexivity | congruence]. }
  destruct (Z.leb_spec max_stories 0) as [M | M].
  { right. split; [intros (_ & _ & H); lia|].
    exists []. split; [|split; [discriminate|]].
    - unfold BRS.generate_user_stories.
      destruct (slice_to (r :: R) max_stories) as [|x xs]; [reflexivity|].
      cbn [BRS.stories_loop].
      destruct (Z.leb_spec max_stories (Z.of_nat 0)); [reflexivity | lia].
    - intros _. replace (Z.to_nat max_stories) with 0 by lia.
      now rewrite Nat.min_0_r. }
  destruct user_personas as [|p P].
  { left. repeat split; [discriminate | assumption |].
    apply generate_without_personas; [discriminate | assumption]. }
  right. split; [intros (H & _); discriminate|].
  eexists. split; [apply generate_user_stories_ok; discriminate|].
  split; [discriminate|]. intros _.
  rewrite map_from_length, length_firstn. apply Nat.min_comm.
Qed.

(** [generate_user_stories_from_requirements], once the address is parsed
    and the document fetched: the tool answers with an error exactly when
    the caller passes an empty persona list, the document yields a
    requirement and [max_stories] is positive; the error text is then
    that of the division by zero.  Otherwise the text is the report on
    the generated stories. *)
Theorem generate_tool_fails_only_without_personas
        (args : BRS.arguments) (owner repo document : str) :
  BRS.parse_looked_up urlparse_path (BRS.repo_url args) = Returns (owner, repo) ->
  BRS.get_file_content github_token http_status http_json b64decode
    decode_utf8 decode_utf8_ignore owner repo (BRS.file_path args)
    (default_to (py "main") (BRS.branch args)) = Returns document ->
  let answer :=
    BRS.generate_user_stories_from_requirements github_token urlparse_path
      http_status http_json b64decode decode_utf8 decode_utf8_ignore
      builtin_message args in
  let max_stories := default_to 10%Z (BRS.max_stories_arg args) in
  exists found,
    BRS.extract_requirements_from_document
      document (default_to [] (BRS.feature_focus_arg args)) = Ok found
    /\ (isError answer = true
        <-> BRS.user_personas_arg args = Some [] /\ found <> []
            /\ (0 < max_stories)%Z)
    /\ (isError answer = true ->
        text answer = py "Error generating user stories: "
                      ++ builtin_message ZeroDivisionError)
    /\ (isError answer = false ->
        exists stories,
          BRS.stories_of_document args document = Returns stories
          /\ text answer = BRS.stories_report owner repo args stories).
Proof.
  intros Hp Hf. cbv zeta.
  destruct (extract_requirements_total
              document (default_to [] (BRS.feature_focus_arg args)))
    as (found & Hx & _).
  exists found. split; [exact Hx|].
  unfold BRS.generate_user_stories_from_requirements.
  rewrite Hp. cbn [and_next]. rewrite Hf. cbn [and_next].
  unfold BRS.stories_of_document. rewrite Hx. cbn [of_result and_next].
  destruct (generate_cases
              found
              (default_to (List.map py ["user"; "admin"; "manager"]%string)
                          (BRS.user_personas_arg args))
              (default_to (py "standard") (BRS.story_format_arg args))
              (default_to 10%Z (BRS.max_stories_arg args)))
    as [(P & NE & M & ->) | (N & stories & -> & _)];
    cbn [of_result and_next BRS.caught success failure isError text
         BRS.message_of].
  - assert (PA : BRS.user_personas_arg args = Some []).
    { destruct (BRS.user_personas_arg args) as [ps|]; [|discriminate].
      cbn [default_to] in P. now subst. }
    repeat split; auto. discriminate.
  - split; [|split; [discriminate | eauto]].
    split; [discriminate|]. intros (PA & NE & M). exfalso. apply N.
    rewrite PA. auto.
Qed.

(** Called without [user_personas] and without [max_stories], the tool
    never fails once the document is fetched: it reports between one and
    ten stories, and states their number. *)
Theorem generate_tool_with_defaults
        (args : BRS.arguments) (owner repo document : str) :
  BRS.user_personas_arg args = None ->
  BRS.max_stories_arg args = None ->
  BRS.parse_looked_up urlparse_path (BRS.repo_url args) = Returns (owner, repo) ->
  BRS.get_file_content github_token http_status http_json b64decode
    decode_utf8 decode_utf8_ignore owner repo (BRS.file_path args)
    (default_to (py "main") (BRS.branch args)) = Returns document ->
  exists stories,
    BRS.generate_user_stories_from_requirements github_token urlparse_path
      http_status http_json b64decode decode_utf8 decode_utf8_ignore
      builtin_message args
    = success (BRS.stories_report owner repo args stories)
    /\ 1 <= List.length stories <= 10
    /\ substring (py "Generated: " ++ str_of_nat (List.length stories)
                  ++ py " user stories")
                 (BRS.stories_report owner repo args stories).
Proof.
  intros PA MA Hp Hf.
  destruct (extract_requirements_total
              document (default_to [] (BRS.feature_focus_arg args)))
    as (found & Hx & L).
  unfold BRS.generate_user_stories_from_requirements.
  rewrite Hp. cbn [and_next]. rewrite Hf. cbn [and_next].
  unfold BRS.stories_of_document. rewrite Hx. cbn [of_result and_next].
  rewrite PA, MA. cbn [default_to].
  destruct (generate_cases
              found (List.map py ["user"; "admin"; "manager"]%string)
              (default_to (py "standard") (BRS.story_format_arg args)) 10%Z)
    as [(P & _) | (_ & stories & -> & E0 & E1)]; [discriminate|].
  cbn [of_result and_next BRS.caught].
  exists stories. split; [reflexivity|]. split.
  - destruct found as [|r R].
    + rewrite E0 by reflexivity. lia.
    + rewrite E1 by discriminate. cbn [List.length]. lia.
  - unfold BRS.stories_report. cbv zeta.
    replace (py "Generated: " ++ str_of_nat (List.length stories)
             ++ py " user stories")
      with (List.concat [py "Generated: "; str_of_nat (List.length stories);
                         py " user stories"])
      by (cbn [List.concat]; now rewrite app_nil_r).
    match goal with
    | |- substring _ (List.concat (?a :: ?b :: ?c :: ?d :: ?e :: ?f :: ?g :: ?h
                                   :: ?n :: ?i :: ?j :: ?k :: ?rest)) =>
        apply (concat_substring [a; b; c; d; e; f; g; h; n] [i; j; k] rest)
    end.
Qed.

Lemma find_headers_cases (lines : list str) :
  forall found,
    (exists hs, BRS.find_headers lines found = Ok hs)
    \/ BRS.find_headers lines found = Raise IndexError.
Proof.
  induction lines as [|l later IH]; intros found; cbn [BRS.find_headers];
    [eauto|].
  destruct (strip l) as [|c t] eqn:E; [apply IH|]. rewrite <- E.
  destruct (header_of_line_cases (strip l)) as [[h ->] | ->];
    [|right; reflexivity].
  cbn [bind]. destruct h; apply IH.
Qed.

(** [analyze_requirements_structure], once the address is parsed and the
    document fetched: the tool returns its report exactly when no line of
    the document is reached by the all-caps header rule; otherwise it
    answers with the text of the [IndexError]. *)
Theorem analyze_tool_fails_on_caps_header
        (args : BRS.arguments) (owner repo document : str) :
  BRS.parse_looked_up urlparse_path (BRS.repo_url args) = Returns (owner, repo) ->
  BRS.get_file_content github_token http_status http_json b64decode
    decode_utf8 decode_utf8_ignore owner repo (BRS.file_path args)
    (default_to (py "main") (BRS.branch args)) = Returns document ->
  let answer :=
    BRS.analyze_requirements_structure github_token urlparse_path
      http_status http_json b64decode decode_utf8 decode_utf8_ignore
      builtin_message args in
  (isError answer = false
   <-> (forall l,
           In l (split_char 10%N document) ->
           re_match BRS.header_markdown (strip l) = None ->
           re_match BRS.header_numbered (strip l) = None ->
           re_match BRS.header_caps (strip l) = None))
  /\ (isError answer = false ->
      exists a,
        BRS.analyze_document_structure document = Ok a
        /\ text answer = BRS.analysis_report owner repo (BRS.file_path args) a)
  /\ (isError answer = true ->
      text answer = py "Error analyzing requirements: "
                    ++ builtin_message IndexError).
Proof.
  intros Hp Hf. cbv zeta.
  unfold BRS.analyze_requirements_structure.
  rewrite Hp. cbn [and_next]. rewrite Hf. cbn [and_next].
  unfold BRS.analyze_document_structure.
  destruct (find_headers_cases (split_char 10%N document) []) as [[hs E] | E].
  - rewrite E.
    cbn [bind of_result and_next BRS.caught success isError text].
    split; [|split; [eauto | discriminate]].
    split; [|reflexivity]. intros _ l Hin H1 H2.
    destruct (re_match BRS.header_caps (strip l)) as [m|] eqn:H3; [|reflexivity].
    exfalso.
    rewrite (find_headers_raises (split_char 10%N document) l) in E;
      [discriminate | assumption | |].
    + intros E0. rewrite E0 in H3. discriminate.
    + unfold BRS.header_patterns. cbn [BRS.header_of_line].
      rewrite H1, H2, H3. reflexivity.
  - rewrite E.
    cbn [bind of_result and_next BRS.caught failure isError text
         BRS.message_of].
    split; [|split; [discriminate | reflexivity]].
    split; [discriminate|]. intros H. exfalso.
    destruct (find_headers_ok (split_char 10%N document)) with (found := @nil str)
      as [hs Hs].
    + intros l Hl. apply header_of_line_ok. now apply H.
    + rewrite Hs in E. discriminate.
Qed.

End BrsTools.

Lemma read_tool_outcomes_witness :
  Offline.read_business_requirements
    (Offline.arguments_for "docs/missing.md" None)
  = failure (py "Error reading business requirements: "
             ++ py "Repository or file not found").
Proof.
  refine (proj1 (proj2 (read_tool_outcomes
                          None Offline.urlparse_path Offline.http_status
                          Offline.http_json Offline.b64decode
                          Offline.decode_utf8 Offline.decode_utf8_ignore
                          Offline.builtin_message
                          (Offline.arguments_for "docs/missing.md" None))
                       (py "https://github.com/acme/shop")
                       (py "acme") (py "shop") eq_refl eq_refl eq_refl _) _);
    vm_compute; reflexivity.
Defined.

Lemma generate_tool_fails_only_without_personas_witness :
  isError (Offline.generate_user_stories_from_requirements
             (Offline.arguments_for "docs/requirements.md" (Some [])))
  = true.
Proof.
  destruct (generate_tool_fails_only_without_personas
              (db := ascii_db)
              None Offline.urlparse_path Offline.http_status
              Offline.http_json Offline.b64decode
              Offline.decode_utf8 Offline.decode_utf8_ignore
              Offline.builtin_message
              (Offline.arguments_for "docs/requirements.md" (Some []))
              (py "acme") (py "shop") Offline.requirements_md)
    as (found & Hx & Hiff & _).
  - vm_compute; reflexivity.
  - vm_compute; reflexivity.
  - apply Hiff. split; [reflexivity|]. split; [|reflexivity].
    intros ->. vm_compute in Hx. discriminate.
Defined.

Lemma generate_tool_with_defaults_witness :
  exists stories,
    Offline.generate_user_stories_from_requirements
      (Offline.arguments_for "docs/requirements.md" None)
    = success (BRS.stories_report
                 (py "acme") (py "shop")
                 (Offline.arguments_for "docs/requirements.md" None) stories)
    /\ 1 <= List.length stories <= 10
    /\ substring (py "Generated: " ++ str_of_nat (List.length stories)
                  ++ py " user stories")
                 (BRS.stories_report
                    (py "acme") (py "shop")
                    (Offline.arguments_for "docs/requirements.md" None)
                    stories).
Proof.
  apply (generate_tool_with_defaults
           (db := ascii_db)
           None Offline.urlparse_path Offline.http_status
           Offline.http_json Offline.b64decode
           Offline.decode_utf8 Offline.decode_utf8_ignore
           Offline.builtin_message
           (Offline.arguments_for "docs/requirements.md" None)
           (py "acme") (py "shop") Offline.requirements_md);
    vm_compute; reflexivity.
Defined.

Lemma analyze_tool_fails_on_caps_header_witness :
  text (Offline.analyze_requirements_structure
          (Offline.arguments_for "NOTES.md" None))
  = py "Error analyzing requirements: no such group".
Proof.
  apply (proj2 (proj2 (analyze_tool_fails_on_caps_header
                         (db := ascii_db)
                         None Offline.urlparse_path Offline.http_status
                         Offline.http_json Offline.b64decode
                         Offline.decode_utf8 Offline.decode_utf8_ignore
                         Offline.builtin_message
                         (Offline.arguments_for "NOTES.md" None)
                         (py "acme") (py "shop") Offline.release_notes
                         ltac:(vm_compute; reflexivity)
                         ltac:(vm_compute; reflexivity))));
    vm_compute; reflexivity.
Defined.

(** ** The tools of server.py *)

Lemma text_of_runs_ok (runs : list GDS.text_run) :
  (forall run, In run runs -> ~ lacks_content run) ->
  forall text,
    GDS.text_of_runs runs text = Returns (text ++ List.concat (pieces_of runs)).
Proof.
  unfold lacks_content.
  induction runs as [|run later IH]; intros H text; cbn [GDS.text_of_runs].
  - cbn. now rewrite app_nil_r.
  - assert (Hl : forall r, In r later -> GDS.textRun r <> Some None)
      by (intros; apply H; simpl; auto).
    pose proof (H run (or_introl eq_refl)) as Hr.
    unfold pieces_of. cbn [flat_map]. fold (pieces_of later).
    destruct (GDS.textRun run) as [[piece|]|]; [| congruence |].
    + rewrite IH by assumption. rewrite concat_app. cbn [List.concat].
      now rewrite app_nil_r, app_assoc.
    + now rewrite IH.
Qed.

Lemma text_of_runs_raises (runs : list GDS.text_run) :
  (exists run, In run runs /\ lacks_content run) ->
  forall text, GDS.text_of_runs runs text = Raises (KeyError (py "content")).
Proof.
  unfold lacks_content.
  induction runs as [|run later IH]; intros (bad & Hin & Hb) text;
    [destruct Hin|].
  cbn [GDS.text_of_runs]. destruct Hin as [-> | Hin].
  - now rewrite Hb.
  - destruct (GDS.textRun run) as [[piece|]|]; [| reflexivity |];
      apply IH; eauto.
Qed.

Lemma lacks_content_dec (runs : list GDS.text_run) :
  (forall run, In run runs -> ~ lacks_content run)
  \/ (exists run, In run runs /\ lacks_content run).
Proof.
  unfold lacks_content. induction runs as [|run later [IH | (bad & Hin & Hb)]].
  - left. intros run [].
  - destruct (GDS.textRun run) as [[piece|]|] eqn:E.
    + left. intros r [<- | Hr]; [congruence | now apply IH].
    + right. exists run. simpl. auto.
    + left. intros r [<- | Hr]; [congruence | now apply IH].
  - right. exists bad. simpl. auto.
Qed.

Lemma text_of_elements_ok (elements : list GDS.element) :
  let runs :=
    flat_map (fun e =>
                match GDS.paragraph e with
                | Some (Some runs) => runs
                | _ => []
                end) elements in
  (forall run, In run runs -> ~ lacks_content run) ->
  forall text,
    GDS.text_of_elements elements text
    = Returns (text ++ List.concat (pieces_of runs)).
Proof.
  cbv zeta.
  induction elements as [|e later IH]; intros H text;
    cbn [GDS.text_of_elements flat_map].
  - cbn. now rewrite app_nil_r.
  - cbn [flat_map] in H.
    assert (Hl : forall run,
               In run (flat_map (fun e =>
                                   match GDS.paragraph e with
                                   | Some (Some runs) => runs
                                   | _ => []
                                   end) later) -> ~ lacks_content run)
      by (intros; apply H, in_or_app; auto).
    destruct (GDS.paragraph e) as [[runs|]|].
    + cbn [default_to]. rewrite text_of_runs_ok
        by (intros; apply H, in_or_app; auto).
      cbn [and_next]. rewrite IH by assumption.
      unfold pieces_of. rewrite flat_map_app, concat_app.
      now rewrite app_assoc.
    + cbn [default_to GDS.text_of_runs and_next app]. now apply IH.
    + cbn [app]. now apply IH.
Qed.

Lemma text_of_elements_raises (elements : list GDS.element) :
  let runs :=
    flat_map (fun e =>
                match GDS.paragraph e with
                | Some (Some runs) => runs
                | _ => []
                end) elements in
  (exists run, In run runs /\ lacks_content run) ->
  forall text,
    GDS.text_of_elements elements text = Raises (KeyError (py "content")).
Proof.
  cbv zeta.
  induction elements as [|e later IH]; intros (bad & Hin & Hb) text;
    [destruct Hin|].
  cbn [GDS.text_of_elements]. cbn [flat_map] in Hin.
  destruct (GDS.paragraph e) as [[runs|]|].
  - cbn [default_to].
    destruct (lacks_content_dec runs) as [Hok | Hbad].
    + rewrite text_of_runs_ok by assumption. cbn [and_next].
      apply in_app_or in Hin. destruct Hin as [Hin | Hin].
      * now destruct (Hok bad Hin).
      * apply IH; eauto.
    + now rewrite text_of_runs_raises.
  - cbn [default_to GDS.text_of_runs and_next]. apply IH; eauto.
  - apply IH; eauto.
Qed.

(** [extract_text_from_doc] returns the texts of all text runs of all
    paragraphs, concatenated in reading order; elements without a
    paragraph and runs without a [textRun] add nothing.  It raises
    [KeyError('content')] exactly when some [textRun] has no [content]. *)
Theorem extract_text_concatenates_runs (d : GDS.document) :
  ((forall run, In run (runs_of d) -> ~ lacks_content run) ->
   GDS.extract_text_from_doc d = Returns (List.concat (pieces_of (runs_of d))))
  /\ ((exists run, In run (runs_of d) /\ lacks_content run) ->
      GDS.extract_text_from_doc d = Raises (KeyError (py "content"))).
Proof.
  unfold GDS.extract_text_from_doc, runs_of. split; intros H.
  - now rewrite text_of_elements_ok.
  - now apply text_of_elements_raises.
Qed.

Lemma extract_text_concatenates_runs_witness :
  GDS.extract_text_from_doc
    {| GDS.title := Some (py "Plan");
       GDS.body :=
         Some (Some [ {| GDS.paragraph :=
                           Some (Some [ {| GDS.textRun := Some (Some (py "Users ")) |};
                                        {| GDS.textRun := None |};
                                        {| GDS.textRun := Some (Some (py "shall ")) |} ]) |};
                      {| GDS.paragraph := None |};
                      {| GDS.paragraph :=
                           Some (Some [ {| GDS.textRun := Some (Some (py "log in.")) |} ]) |} ]) |}
  = Returns (py "Users shall log in.").
Proof.
  refine (proj1 (extract_text_concatenates_runs _) _).
  unfold lacks_content. intros run Hin Hb. cbn in Hin.
  repeat (destruct Hin as [<- | Hin]; [discriminate Hb|]). destruct Hin.
Defined.

Section GoogleTools.

Context {db : UnicodeDb}
        (authenticate_google : outcome unit)
        (documents_get : str -> outcome GDS.document)
        (builtin_message : exn -> str).

(** [generate_user_stories] of server.py with the service at hand and a
    document identifier: a fetched document whose text runs all have a
    content gives the title line followed by the stories of its text,
    separated by blank lines; a text run without content gives the error
    text of the [KeyError]; an error of the API call gives its message.
    The service stays at hand in each case. *)
Theorem google_stories_tool_answer
        (args : GDS.arguments) (id : str) :
  GDS.document_id args = Some id -> id <> [] ->
  let answer :=
    GDS.generate_user_stories authenticate_google documents_get
      builtin_message true args in
  snd answer = true
  /\ (forall d,
         documents_get id = Returns d ->
         ((forall run, In run (runs_of d) -> ~ lacks_content run) ->
          fst answer
          = success
              (py "Generated User Stories from: "
               ++ default_to (py "Untitled") (GDS.title d) ++ nl ++ nl
               ++ join (nl ++ nl)
                    (GDS.generate_stories_from_content
                       (List.concat (pieces_of (runs_of d)))
                       (default_to [] (GDS.feature_focus_arg args)))))
         /\ ((exists run, In run (runs_of d) /\ lacks_content run) ->
             fst answer = failure (py "Error generating stories: 'content'")))
  /\ (forall message,
         documents_get id = Raises (Foreign message) ->
         fst answer = failure (py "Error generating stories: " ++ message)).
Proof.
  intros Hid NE. cbv zeta. unfold GDS.generate_user_stories.
  cbn [GDS.ensure_service]. rewrite Hid.
  destruct id as [|c t]; [congruence|].
  cbn [missing default_to and_next fst snd].
  split; [reflexivity|]. split.
  - intros d ->. cbn [and_next]. unfold GDS.extract_text_from_doc, runs_of.
    split; intros H.
    + now rewrite text_of_elements_ok.
    + now rewrite text_of_elements_raises.
  - intros message ->. reflexivity.
Qed.

End GoogleTools.

Lemma google_stories_tool_answer_witness :
  fst (GDS.generate_user_stories (db := ascii_db)
         (Raises (Foreign (py "credentials.json not found")))
         (fun id => Returns {| GDS.title := None;
                               GDS.body := Some (Some [ {| GDS.paragraph :=
                                 Some (Some [ {| GDS.textRun := Some None |} ]) |} ]) |})
         Offline.builtin_message true
         {| GDS.document_id := Some (py "1AbC"); GDS.feature_focus_arg := None |})
  = failure (py "Error generating stories: 'content'").
Proof.
  match goal with
  | |- fst (GDS.generate_user_stories ?auth ?get ?msg true ?args) = _ =>
      refine (proj2 (proj1 (proj2 (google_stories_tool_answer
                                     (db := ascii_db) auth get msg args
                                     (py "1AbC") eq_refl ltac:(discriminate)))
                           _ eq_refl) _)
  end.
  eexists. split; [left; reflexivity | reflexivity].
Defined.

Section GoogleService.

Context {db : UnicodeDb}
        (authenticate_google : outcome unit)
        (documents_get : str -> outcome GDS.document)
        (builtin_message : exn -> str).

(** [read_google_doc] with the service at hand: without a document
    identifier it answers with a fixed error; a fetched document gives
    its title, or [Untitled], followed by its text; a text run without
    content gives the error text of the [KeyError]. *)
Theorem google_read_tool_answer (args : GDS.arguments) :
  let answer :=
    GDS.read_google_doc authenticate_google documents_get builtin_message
      true args in
  snd answer = true
  /\ (missing (GDS.document_id args) = true ->
      fst answer = failure (py "Error: document_id is required"))
  /\ (forall id d,
         GDS.document_id args = Some id -> id <> [] ->
         documents_get id = Returns d ->
         ((forall run, In run (runs_of d) -> ~ lacks_content run) ->
          fst answer
          = success (py "Document: " ++ default_to (py "Untitled") (GDS.title d)
                     ++ nl ++ nl ++ py "Content:" ++ nl
                     ++ List.concat (pieces_of (runs_of d))))
         /\ ((exists run, In run (runs_of d) /\ lacks_content run) ->
             fst answer = failure (py "Error reading document: 'content'"))).
Proof.
  cbv zeta. unfold GDS.read_google_doc. cbn [GDS.ensure_service fst snd and_next].
  split; [reflexivity|]. split.
  - intros ->. reflexivity.
  - intros id d Hid NE Hd. rewrite Hid.
    destruct id as [|c t]; [congruence|].
    cbn [missing default_to]. rewrite Hd. cbn [and_next].
    unfold GDS.extract_text_from_doc, runs_of. split; intros H.
    + now rewrite text_of_elements_ok.
    + now rewrite text_of_elements_raises.
Qed.

(** Both tools of server.py authenticate before they look at their
    arguments, and only when the service is not at hand: a failed
    authentication is the answer whatever the arguments, and leaves the
    service absent; a successful one gives the answer of a call with the
    service at hand, and the service is at hand afterwards. *)
Theorem google_tools_authenticate_first (args : GDS.arguments) :
  let read := GDS.read_google_doc authenticate_google documents_get
                                  builtin_message in
  let generate := GDS.generate_user_stories authenticate_google documents_get
                                            builtin_message in
  (forall e,
      authenticate_google = Raises e ->
      read false args
      = (failure (py "Error reading document: "
                  ++ GDS.message_of builtin_message e), false)
      /\ generate false args
         = (failure (py "Error generating stories: "
                     ++ GDS.message_of builtin_message e), false))
  /\ (authenticate_google = Returns tt ->
      read false args = read true args
      /\ generate false args = generate true args
      /\ snd (read false args) = true /\ snd (generate false args) = true).
Proof.
  cbv zeta. unfold GDS.read_google_doc, GDS.generate_user_stories,
            GDS.ensure_service.
  split.
  - intros e ->. split; reflexivity.
  - intros ->. repeat split; reflexivity.
Qed.

End GoogleService.

Lemma google_read_tool_answer_witness :
  fst (GDS.read_google_doc
         (Raises (Foreign (py "credentials.json not found")))
         (fun id => Raises (Foreign (py "HttpError 404")))
         Offline.builtin_message true
         {| GDS.document_id := Some []; GDS.feature_focus_arg := None |})
  = failure (py "Error: document_id is required").
Proof.
  match goal with
  | |- fst (GDS.read_google_doc ?auth ?get ?msg true ?args) = _ =>
      refine (proj1 (proj2 (google_read_tool_answer auth get msg args)) eq_refl)
  end.
Defined.

Lemma google_tools_authenticate_first_witness :
  GDS.read_google_doc
    (Raises (Foreign (py "credentials.json not found")))
    (fun id => Raises (Foreign (py "HttpError 404")))
    Offline.builtin_message false
    {| GDS.document_id := None; GDS.feature_focus_arg := None |}
  = (failure (py "Error reading document: "
              ++ GDS.message_of Offline.builtin_message
                   (Foreign (py "credentials.json not found"))), false).
Proof.
  match goal with
  | |- GDS.read_google_doc ?auth ?get ?msg false ?args = _ =>
      refine (proj1 (proj1 (google_tools_authenticate_first
                              (db := ascii_db) auth get msg args)
                           (Foreign (py "credentials.json not found")) eq_refl))
  end.
Defined.

(** ** Splitting on a keyword *)

Lemma startswith_more (s p x : str) :
  startswith s p = true -> startswith (s ++ x) p = true.
Proof.
  revert s; induction p as [|a p IH]; intros [|b s]; simpl; auto;
    try discriminate.
  - now destruct x.
  - intros H. apply andb_true_iff in H as [-> H]. now rewrite IH.
Qed.

Lemma startswith_split (s p : str) :
  startswith s p = true -> exists after, s = p ++ after.
Proof.
  revert s; induction p as [|a p IH]; intros s H.
  - exists s. reflexivity.
  - destruct s as [|b s]; [discriminate|]. simpl in H.
    apply andb_true_iff in H as [E H]. apply N.eqb_eq in E. subst b.
    destruct (IH s H) as [after ->]. now exists after.
Qed.

Lemma str_in_length (needle hay : str) :
  str_in needle hay = true -> len needle <= len hay.
Proof.
  induction hay as [|c t IH]; rewrite str_in_eq; intros H.
  - rewrite orb_false_r in H. now apply startswith_length.
  - apply orb_true_iff in H as [H | H].
    + now apply startswith_length.
    + apply IH in H. unfold len in *. simpl. lia.
Qed.

Lemma str_in_removelast (a : char) (sep : str) :
  str_in (a :: sep) (removelast (a :: sep)) = false.
Proof.
  destruct (str_in _ _) eqn:E; [|reflexivity].
  apply str_in_length in E. unfold len in E.
  assert (L : List.length (removelast (a :: sep)) = List.length sep).
  { clear. revert a. induction sep as [|b sep IH]; intros a; [reflexivity|].
    change (removelast (a :: b :: sep)) with (a :: removelast (b :: sep)).
    cbn [List.length]. f_equal. apply IH. }
  rewrite L in E. simpl in E. lia.
Qed.

Lemma split_str_go_eq (sep : str) (skip : nat) (cur s : str) :
  split_str_go sep skip cur s
  = match s with
    | [] => [rev cur]
    | c :: t =>
        match skip with
        | S k => split_str_go sep k cur t
        | O =>
            if startswith s sep
            then rev cur :: split_str_go sep (len sep - 1) [] t
            else split_str_go sep 0 (c :: cur) t
        end
    end.
Proof. destruct s; reflexivity. Qed.

Lemma split_str_go_skip (sep pre s cur : str) :
  split_str_go sep (len pre) cur (pre ++ s) = split_str_go sep 0 cur s.
Proof.
  induction pre as [|c pre IH]; [reflexivity|].
  cbn [app]. rewrite split_str_go_eq. exact IH.
Qed.

Lemma removelast_more (a : char) (sep after : str) :
  exists x, (a :: sep) ++ after = removelast (a :: sep) ++ x.
Proof.
  exists ([last (a :: sep) a] ++ after).
  rewrite app_assoc. f_equal. apply app_removelast_last. discriminate.
Qed.

(** The scan up to the first separator. *)
Lemma split_scan (a : char) (sep' : str) (s : str) :
  let sep := a :: sep' in
  forall cur,
    (str_in sep s = false /\ split_str_go sep 0 cur s = [rev cur ++ s])
    \/ (exists p after,
           s = p ++ sep ++ after
           /\ str_in sep (p ++ removelast sep) = false
           /\ split_str_go sep 0 cur s
              = (rev cur ++ p) :: split_str_go sep 0 [] after).
Proof.
  cbv zeta. induction s as [|c t IH]; intros cur.
  - left. split; [reflexivity|]. cbn. now rewrite app_nil_r.
  - rewrite split_str_go_eq.
    destruct (startswith (c :: t) (a :: sep')) eqn:E.
    + right. destruct (startswith_split _ _ E) as [after Ha].
      exists [], after. split; [exact Ha|]. split.
      * cbn [app]. apply str_in_removelast.
      * rewrite app_nil_r. f_equal.
        injection Ha as -> ->.
        replace (len (a :: sep') - 1) with (len sep')
          by (unfold len; simpl; lia).
        apply split_str_go_skip.
    + destruct (IH (c :: cur)) as [[H1 H2] | (p & after & -> & H1 & H2)].
      * left. split.
        -- rewrite str_in_eq, E, H1. reflexivity.
        -- rewrite H2. cbn [rev]. now rewrite <- app_assoc.
      * right. exists (c :: p), after. split; [reflexivity|]. split.
        -- rewrite str_in_eq. cbn [app]. rewrite H1, orb_false_r.
           destruct (startswith (c :: p ++ removelast (a :: sep')) (a :: sep'))
             eqn:E'; [|reflexivity].
           destruct (removelast_more a sep' after) as [x Hx].
           apply (startswith_more _ _ x) in E'.
           change ((c :: p ++ removelast (a :: sep')) ++ x)
             with (c :: (p ++ removelast (a :: sep')) ++ x) in E'.
           rewrite <- app_assoc, <- Hx in E'.
           destruct (eq_true_false_abs _ E' E).
        -- rewrite H2. cbn [rev]. now rewrite <- app_assoc.
Qed.

Lemma second_part_clause {db : UnicodeDb} (a : char) (sep' r : str) :
  str_in (a :: sep') r = true ->
  exists clause,
    GDS.second_part r (a :: sep') = Some clause
    /\ clause_after (a :: sep') r clause.
Proof.
  intros H. unfold GDS.second_part, split_str.
  destruct (split_scan a sep' r []) as [[H1 _] | (p & after & -> & Hp & ->)];
    [congruence|].
  destruct (split_scan a sep' after [])
    as [[H1 ->] | (p2 & after2 & -> & Hp2 & ->)].
  - eexists. split; [reflexivity|].
    exists p, after, []. rewrite app_nil_r. auto 6.
  - eexists. split; [reflexivity|].
    exists p, p2, ((a :: sep') ++ after2). repeat split; auto.
    right. split; [apply startswith_prefix | assumption].
Qed.

Lemma first_split_spec {db : UnicodeDb} (seps : list str) (r : str) :
  Forall (fun sep => sep <> []) seps ->
  match find (fun sep => str_in sep r) seps with
  | Some kw =>
      exists clause,
        GDS.first_split seps r = Some clause /\ clause_after kw r clause
  | None => GDS.first_split seps r = None
  end.
Proof.
  induction 1 as [|sep later NE _ IH]; [reflexivity|].
  cbn [find GDS.first_split].
  destruct (str_in sep r) eqn:E; [|exact IH].
  destruct sep as [|a sep']; [congruence|].
  destruct (second_part_clause a sep' r E) as (clause & -> & Hc). eauto.
Qed.

(** The action of server.py follows the first keyword found: the text
    between the first [able to] (else [shall], else [should]) of the
    lowercased requirement and the next occurrence of the same keyword,
    trimmed; without any of the three, the lowercased requirement. *)
Theorem google_action_follows_keyword {db : UnicodeDb} (requirement : str) :
  let r := lower requirement in
  match find (fun kw => str_in kw r)
             (List.map py ["able to"; "shall"; "should"]%string) with
  | Some kw => clause_after kw r (GDS.extract_action_from_requirement requirement)
  | None => GDS.extract_action_from_requirement requirement = r
  end.
Proof.
  cbv zeta. unfold GDS.extract_action_from_requirement.
  pose proof (first_split_spec
                (List.map py ["able to"; "shall"; "should"]%string)
                (lower requirement)) as H.
  destruct (find _ _) as [kw|].
  - destruct H as (clause & -> & Hc); [|exact Hc].
    repeat constructor; vm_compute; discriminate.
  - rewrite H; [reflexivity|]. repeat constructor; vm_compute; discriminate.
Qed.

(** The benefit of server.py: the trimmed text between the first
    [so that] (else [in order to]) and the next occurrence of the same
    keyword, or, without either, one of five fixed sentences. *)
Theorem google_benefit_follows_keyword {db : UnicodeDb} (requirement : str) :
  let r := lower requirement in
  match find (fun kw => str_in kw r)
             (List.map py ["so that"; "in order to"]%string) with
  | Some kw => clause_after kw r (GDS.extract_benefit_from_requirement requirement)
  | None =>
      In (GDS.extract_benefit_from_requirement requirement)
         (List.map py ["I can securely access the system";
                       "I can quickly find what I need";
                       "my data is preserved for future use";
                       "I can manage my data effectively";
                       "I can accomplish my goals efficiently"]%string)
  end.
Proof.
  cbv zeta. unfold GDS.extract_benefit_from_requirement.
  pose proof (first_split_spec
                (List.map py ["so that"; "in order to"]%string)
                (lower requirement)) as H.
  destruct (find _ _) as [kw|].
  - destruct H as (clause & -> & Hc); [|exact Hc].
    repeat constructor; vm_compute; discriminate.
  - rewrite H by (repeat constructor; vm_compute; discriminate).
    cbn [List.map].
    destruct (GDS.any_in _ _); [left; reflexivity|].
    destruct (GDS.any_in _ _); [right; left; reflexivity|].
    destruct (GDS.any_in _ _); [do 2 right; left; reflexivity|].
    destruct (GDS.any_in _ _); [do 3 right; left; reflexivity|].
    do 4 right; left; reflexivity.
Qed.

(** ** Checks on concrete text

    The values below are the ones CPython 3.11 gives for the same calls. *)

Example sub_collapses_whitespace :
  re_sub BRS.ws1 (py " ") (py "a  b   c") = py "a b c".
Proof. reflexivity. Qed.

Example sub_empty_matches :
  re_sub (star (one_of (py "x"))) (py "-") (py "abxd") = py "-a-b--d-".
Proof. reflexivity. Qed.

Example findall_role :
  re_findall (nth 0 (BRS.user_role_patterns (db := ascii_db)) Eps)
             (py "the system shall help. as an operator i want x")
  = [py "operator i"].
Proof. vm_compute. reflexivity. Qed.

Example extraction_example :
  BRS.extract_requirements_from_document (db := ascii_db)
    (py "the system must allow login" ++ nl
     ++ py "system must allow export to csv files" ++ nl
     ++ py "- user can   do the thing quickly" ++ nl
     ++ py "12. system shall be fast enough" ++ nl
     ++ py "As a manager, I want to view reports so that I can decide")
    []
  = Ok [py "allow login"; py "allow export to csv files";
        py "do the thing quickly"; py "user can   do the thing quickly";
        py "be fast enough"; py "2. system shall be fast enough"].
Proof. vm_compute. reflexivity. Qed.

Example feature_focus_example :
  BRS.extract_requirements_from_document (db := ascii_db)
    (py "system must allow login now" ++ nl ++ py "system must allow export")
    (py "login")
  = Ok [py "allow login now"].
Proof. vm_compute. reflexivity. Qed.

Example action_all_rules :
  BRS.extract_action_from_requirement (db := ascii_db)
    (py "The system shall to allow login.")
  = py "allow login".
Proof. vm_compute. reflexivity. Qed.

Example action_rules_in_order :
  BRS.extract_action_from_requirement (db := ascii_db)
    (py "provides the system shall x")
  = py "the system shall x".
Proof. vm_compute. reflexivity. Qed.

Example action_one_period :
  BRS.extract_action_from_requirement (db := ascii_db)
    (py "users  can provides to x..")
  = py "x.".
Proof. vm_compute. reflexivity. Qed.

Example action_fallback :
  BRS.extract_action_from_requirement (db := ascii_db) (py "To ") = py "to ".
Proof. vm_compute. reflexivity. Qed.

Example complexity_boundaries :
  let doc n := join nl (repeat (py "The system shall export monthly reports") n) in
  let tier n :=
    match BRS.analyze_document_structure (db := ascii_db) (doc n) with
    | Ok a => BRS.complexity_level a
    | Raise _ => []
    end in
  tier 4 = py "Low" /\ tier 5 = py "Medium"
  /\ tier 20 = py "Medium" /\ tier 21 = py "High".
Proof. vm_compute. repeat split; reflexivity. Qed.
